(** * Listing filter, number parser, listing normalisation and vehicle upsert
      of the vehicle-search application ([app.py])

    The development embeds the Python code of [app.py] that decides how
    scraped listings are normalised, parsed and filtered, and how a vehicle
    is saved by URL:

    - [parse_number]        (app.py, lines 2120-2151)
    - [filter_listings]     (app.py, lines 2153-2201)
    - the record built in [get_vehicle_details] (lines 2249-2267) and the
      listing built in the loop of [search] (lines 2596-2610)
    - [save_vehicle_to_db]  (app.py, lines 150-214) over the [vehicles]
      table declared in [init_database] (lines 86-131)
    - [validate_email]      (app.py, lines 70-73)
    - the loop of [search] over the items of the dataset (lines 2591-2614)
    - [save_offer_to_db], [get_vehicle_by_id], [update_vehicle],
      [update_offer], [delete_vehicle], [delete_offer] and
      [get_dashboard_stats] (lines 216-296 and 375-572) over the two
      tables of [init_database] (lines 79-148)
    - [create_offer]        (app.py, lines 2300-2370).

    Conventions.

    - A Python [str] is a list of code points; [int(s)], [s.strip()] and
      [c.isdigit()] follow CPython, with the character classes of the
      Unicode Character Database.
    - Evaluation is in an error monad: [Ok v], or [Raise e] for a raised
      exception; [try]/[except] is a match on the outcome.
    - The values are those a JSON document decodes to.  A dictionary is an
      association list read with [dict_get]; a float is represented by what
      the code can observe of it.
    - The interpreter's digit limit, the text [str()] gives for a float,
      list or dict, [json.dumps], [json.loads] and the database driver's
      binding of values other than [None] and [str] (for an INTEGER
      column: other than [None] and [int]) are parameters of the
      development.
    - The logging calls only format values that are already computed; they
      are left out.
    - The [vehicles] table is a list of rows with the constraints of its
      CREATE TABLE statement: a generated [id], [title] NOT NULL, [url]
      UNIQUE.  The [offers] table is a list of rows likewise:
      [vehicle_id], [client_email] and [offered_price] NOT NULL, the
      foreign key enforced by PostgreSQL only.
    - A pattern of [re] is a regular expression over code points, matched
      by derivatives; the matcher is proved to decide the language of the
      pattern. *)

From Stdlib Require Import ZArith NArith List Bool String Ascii Lia.
From Stdlib Require Import DecimalString DecimalPos DecimalN.
Import ListNotations.

Local Open Scope N_scope.

#[local] Set Warnings "-register-all".

(* ================================================================== *)
(** ** Python strings *)
(* ================================================================== *)

(** A Python [str]: a list of Unicode code points. *)
Definition pystr := list N.

(** An ASCII literal of the source as a [pystr]. *)
Definition lit (s : string) : pystr :=
  map N_of_ascii (list_ascii_of_string s).

Fixpoint pystr_eqb (a b : pystr) : bool :=
  match a, b with
  | [], [] => true
  | x :: a', y :: b' => (x =? y) && pystr_eqb a' b'
  | _, _ => false
  end.

(** [s.startswith(p)] *)
Fixpoint starts_with (p s : pystr) : bool :=
  match p, s with
  | [], _ => true
  | x :: p', y :: s' => (x =? y) && starts_with p' s'
  | _ :: _, [] => false
  end.

(** [s.replace(old, new)] for a non-empty [old]: the occurrences of [old]
    are replaced from left to right, without overlap.  [skip] counts the
    code points of a matched occurrence that are still to be passed over. *)
Fixpoint replace_from (old new : pystr) (skip : nat) (s : pystr) : pystr :=
  match s with
  | [] => []
  | c :: t =>
      match skip with
      | S k => replace_from old new k t
      | O =>
          if starts_with old s
          then new ++ replace_from old new (List.length old - 1) t
          else c :: replace_from old new 0 t
      end
  end.

Definition str_replace (s old new : pystr) : pystr := replace_from old new 0 s.

(** [sub in s] *)
Fixpoint str_contains (sub s : pystr) : bool :=
  starts_with sub s ||
  match s with
  | [] => false
  | _ :: t => str_contains sub t
  end.

(** [s.split(sep)] for a non-empty [sep]; [cur] holds, reversed, the piece
    being read. *)
Fixpoint split_from (sep : pystr) (skip : nat) (cur : pystr) (s : pystr)
  : list pystr :=
  match s with
  | [] => [rev cur]
  | c :: t =>
      match skip with
      | S k => split_from sep k cur t
      | O =>
          if starts_with sep s
          then rev cur :: split_from sep (List.length sep - 1) [] t
          else split_from sep 0 (c :: cur) t
      end
  end.

Definition str_split (s sep : pystr) : list pystr := split_from sep 0 [] s.

(** [xs[-1]] on a list of strings ([split] never returns an empty list). *)
Definition last_item (xs : list pystr) : pystr := last xs [].

(* ------------------------------------------------------------------ *)
(** *** Character classes (Unicode Character Database, version 14.0, the
        tables of CPython 3.11) *)
(* ------------------------------------------------------------------ *)

Definition in_range (c : N) (r : N * N) : bool :=
  (fst r <=? c) && (c <=? snd r).

(** White space: the code points for which [str.isspace] holds. *)
Definition whitespace_ranges : list (N * N) :=
  [(9, 13); (28, 32); (133, 133); (160, 160); (5760, 5760); (8192, 8202);
   (8232, 8233); (8239, 8239); (8287, 8287); (12288, 12288)].

Definition Py_UNICODE_ISSPACE (c : N) : bool :=
  existsb (in_range c) whitespace_ranges.

(** Decimal digits (general category Nd) come in runs of ten, from the digit
    zero of a script on; the table lists the code point of each zero. *)
Definition decimal_zeros : list N :=
  [48; 1632; 1776; 1984; 2406; 2534; 2662; 2790; 2918; 3046; 3174; 3302;
   3430; 3558; 3664; 3792; 3872; 4160; 4240; 6112; 6160; 6470; 6608; 6784;
   6800; 6992; 7088; 7232; 7248; 42528; 43216; 43264; 43472; 43504; 43600;
   44016; 65296; 66720; 68912; 69734; 69872; 69942; 70096; 70384; 70736;
   70864; 71248; 71360; 71472; 71904; 72016; 72784; 73040; 73120; 92768;
   92864; 93008; 120782; 120792; 120802; 120812; 120822; 123200; 123632;
   125264; 130032].

(** The decimal value of a code point, when it is a decimal digit. *)
Definition Py_UNICODE_TODECIMAL (c : N) : option N :=
  match find (fun z => (z <=? c) && (c <? z + 10)) decimal_zeros with
  | Some z => Some (c - z)
  | None => None
  end.

(** Code points that are digits without being decimal digits (superscripts,
    subscripts, circled digits and the like: Numeric_Type=Digit). *)
Definition other_digit_ranges : list (N * N) :=
  [(178, 179); (185, 185); (4969, 4977); (6618, 6618); (8304, 8304);
   (8308, 8313); (8320, 8329); (9312, 9320); (9332, 9340); (9352, 9360);
   (9450, 9450); (9461, 9469); (9471, 9471); (10102, 10110); (10112, 10120);
   (10122, 10130); (68160, 68163); (69216, 69224); (69714, 69722);
   (127232, 127242)].

(** [c.isdigit()] for a one-character string. *)
Definition Py_UNICODE_ISDIGIT (c : N) : bool :=
  match Py_UNICODE_TODECIMAL c with
  | Some _ => true
  | None => existsb (in_range c) other_digit_ranges
  end.

(** The code point is a decimal digit. *)
Definition decimal_digit (c : N) : Prop :=
  exists d, Py_UNICODE_TODECIMAL c = Some d.

(** [s.strip()] *)
Fixpoint lstrip (s : pystr) : pystr :=
  match s with
  | c :: t => if Py_UNICODE_ISSPACE c then lstrip t else s
  | [] => []
  end.

Definition rstrip (s : pystr) : pystr := rev (lstrip (rev s)).

Definition str_strip (s : pystr) : pystr := rstrip (lstrip s).

(* ================================================================== *)
(** ** Exceptions *)
(* ================================================================== *)

Inductive exn : Type :=
| ValueError
| TypeError
| AttributeError
| OverflowError
| KeyError
| IntegrityError
| InterfaceError.

(** The outcome of evaluating Python code: a value, or a raised exception. *)
Inductive result (A : Type) : Type :=
| Ok (a : A)
| Raise (e : exn).

Arguments Ok {A} a.
Arguments Raise {A} e.

Definition bind {A B : Type} (m : result A) (k : A -> result B) : result B :=
  match m with
  | Ok a => k a
  | Raise e => Raise e
  end.

Notation "x <- m ;; k" := (bind m (fun x => k))
  (at level 61, m at next level, right associativity).

(** [try: body except ValueError: handler] *)
Definition try_except_ValueError {A : Type} (body handler : result A)
  : result A :=
  match body with
  | Raise ValueError => handler
  | r => r
  end.

(* ================================================================== *)
(** ** [int(str)] and [str(int)] *)
(* ================================================================== *)

(** The white space of the C locale, skipped by [PyLong_FromString]. *)
Definition Py_ISSPACE (c : N) : bool :=
  (c =? 32) || ((9 <=? c) && (c <=? 13)).

Definition is_ascii_digit (c : N) : bool := (48 <=? c) && (c <=? 57).

(** [_PyUnicode_TransformDecimalAndSpaceToASCII]: an ASCII string is left as
    it is; otherwise white space becomes a blank, a decimal digit its ASCII
    digit, and the first other code point from 127 on is replaced by a
    question mark, where the result ends. *)
Fixpoint transform_loop (s : pystr) : pystr :=
  match s with
  | [] => []
  | ch :: t =>
      if ch <? 127 then ch :: transform_loop t
      else if Py_UNICODE_ISSPACE ch then 32 :: transform_loop t
      else match Py_UNICODE_TODECIMAL ch with
           | Some d => (48 + d) :: transform_loop t
           | None => [63]
           end
  end.

Definition transform_decimal_and_space (s : pystr) : pystr :=
  if forallb (fun c => c <? 128) s then s else transform_loop s.

(** The digits of a literal: ASCII digits, single underscores allowed
    between two digits.  Returns the digit values read and the rest of the
    input, or [None] for a doubled or trailing underscore. *)
Fixpoint scan_digits (s : pystr) (prev : N) (ds : list N)
  : option (list N * pystr) :=
  match s with
  | c :: t =>
      if is_ascii_digit c then scan_digits t c (ds ++ [c - 48])
      else if c =? 95 then
        if prev =? 95 then None else scan_digits t c ds
      else if prev =? 95 then None else Some (ds, s)
  | [] => if prev =? 95 then None else Some (ds, s)
  end.

Definition digits_value (ds : list N) : N :=
  fold_left (fun acc d => 10 * acc + d) ds 0.

Fixpoint skip_c_space (s : pystr) : pystr :=
  match s with
  | c :: t => if Py_ISSPACE c then skip_c_space t else s
  | [] => []
  end.

(** The decimal digits of a natural number, as code points. *)
Fixpoint uint_codes (u : Decimal.uint) : pystr :=
  match u with
  | Decimal.Nil => []
  | Decimal.D0 u' => 48 :: uint_codes u'
  | Decimal.D1 u' => 49 :: uint_codes u'
  | Decimal.D2 u' => 50 :: uint_codes u'
  | Decimal.D3 u' => 51 :: uint_codes u'
  | Decimal.D4 u' => 52 :: uint_codes u'
  | Decimal.D5 u' => 53 :: uint_codes u'
  | Decimal.D6 u' => 54 :: uint_codes u'
  | Decimal.D7 u' => 55 :: uint_codes u'
  | Decimal.D8 u' => 56 :: uint_codes u'
  | Decimal.D9 u' => 57 :: uint_codes u'
  end.

(** [str(n)] for an [int]: a minus sign for a negative number, then the
    decimal digits. *)
Definition str_of_int (n : Z) : pystr :=
  let ds := uint_codes (N.to_uint (Z.abs_N n)) in
  if (n <? 0)%Z then 45 :: ds else ds.

(* ================================================================== *)
(** ** Python values *)
(* ================================================================== *)

(** A [float] is represented by what this code can observe of it: whether
    it differs from zero, and what [int()] makes of it (a [ValueError] for a
    NaN, an [OverflowError] for an infinity). *)
Record pyfloat : Type := {
  float_nonzero : bool;
  float_int : result Z
}.

(** The values a decoded JSON document is made of.  A dictionary is an
    association list; the first pair with a key is the entry of that key. *)
Inductive pyval : Type :=
| VNone
| VBool (b : bool)
| VInt (n : Z)
| VFloat (f : pyfloat)
| VStr (s : pystr)
| VList (xs : list pyval)
| VDict (kvs : list (pystr * pyval)).

Definition dict := list (pystr * pyval).

Fixpoint dict_lookup (d : dict) (k : pystr) : option pyval :=
  match d with
  | [] => None
  | (k', v) :: d' => if pystr_eqb k' k then Some v else dict_lookup d' k
  end.

(** [d.get(k, default)] *)
Definition dict_get (d : dict) (k : pystr) (default : pyval) : pyval :=
  match dict_lookup d k with
  | Some v => v
  | None => default
  end.

(** [d[k]] *)
Definition dict_item (d : dict) (k : pystr) : result pyval :=
  match dict_lookup d k with
  | Some v => Ok v
  | None => Raise KeyError
  end.

(** [d[k] = v]: the new pair comes first and hides an older entry. *)
Definition dict_set (d : dict) (k : pystr) (v : pyval) : dict := (k, v) :: d.

(** [obj.get(k, default)] on an arbitrary value: only a [dict] has [get]. *)
Definition py_get (obj : pyval) (k : pystr) (default : pyval)
  : result pyval :=
  match obj with
  | VDict d => Ok (dict_get d k default)
  | _ => Raise AttributeError
  end.

(** [obj.split(sep)]: only a [str] has [split]. *)
Definition py_split (obj : pyval) (sep : pystr) : result (list pystr) :=
  match obj with
  | VStr s => Ok (str_split s sep)
  | _ => Raise AttributeError
  end.

(** The truth value of a value ([bool(v)], [if v], [not v]). *)
Definition truthy (v : pyval) : bool :=
  match v with
  | VNone => false
  | VBool b => b
  | VInt n => negb (n =? 0)%Z
  | VFloat f => float_nonzero f
  | VStr s => match s with [] => false | _ :: _ => true end
  | VList xs => match xs with [] => false | _ :: _ => true end
  | VDict kvs => match kvs with [] => false | _ :: _ => true end
  end.

(** [v == s] for a string literal [s]. *)
Definition eq_str (v : pyval) (s : pystr) : bool :=
  match v with
  | VStr t => pystr_eqb t s
  | _ => false
  end.

(** [isinstance(v, dict)] *)
Definition is_dict (v : pyval) : bool :=
  match v with
  | VDict _ => true
  | _ => false
  end.

(** The literals of the source. *)
Definition NA : pystr := lit "N/A".
Definition EURO_SIGN : pystr := [8364].
Definition NBSP : pystr := [160].

(* ================================================================== *)
(** ** The vehicles table *)
(* ================================================================== *)

(** [get_db_connection] returns one of two engines. *)
Inductive db_engine : Type := Postgres | Sqlite.

(** A row of [vehicles] (app.py, lines 87-99 and 118-130): the generated
    [id], [title], [url], and the other text columns in the order of the
    INSERT statement (price, mileage, year, fuel, transmission, power,
    properties).  [None] is NULL. *)
Record vehicle_row : Type := {
  row_id : Z;
  row_title : option pystr;
  row_url : option pystr;
  row_columns : list (option pystr)
}.

(** The table and the next value of its id sequence. *)
Record database : Type := {
  engine : db_engine;
  vehicles : list vehicle_row;
  next_id : Z
}.

Definition empty_database (e : db_engine) : database :=
  {| engine := e; vehicles := []; next_id := 1 |}.

(** [url = t] in a WHERE clause or in the UNIQUE constraint. *)
Definition url_is (t : pystr) (r : vehicle_row) : bool :=
  match row_url r with
  | Some t' => pystr_eqb t' t
  | None => false
  end.

(** A statement that fails leaves the rows as they are; a Postgres sequence
    keeps the value the failed INSERT drew. *)
Definition failed_insert (db : database) : database :=
  match engine db with
  | Postgres =>
      {| engine := engine db; vehicles := vehicles db;
         next_id := (next_id db + 1)%Z |}
  | Sqlite => db
  end.

(** The URLs stored in the table, NULLs apart, in the order of the rows. *)
Definition stored_urls (db : database) : list pystr :=
  flat_map (fun r => match row_url r with Some t => [t] | None => [] end)
           (vehicles db).

(** No two rows hold the same URL. *)
Definition unique_urls (db : database) : Prop := NoDup (stored_urls db).

(* ================================================================== *)
(** ** Sample records *)
(* ================================================================== *)

(** The closed examples of this file run the definitions below on records
    whose values are strings and integers.  The parameters that stand for
    the interpreter's text of a float, list or dict, for [json.dumps] and
    for the driver's binding of values other than [None] and [str] are not
    consulted on them, and are fixed to constant functions; the digit limit
    is CPython's default. *)
Definition default_max_str_digits : nat := 4300.
Definition no_repr : pyval -> pystr := fun _ => [].
Definition no_json : pyval -> pystr := fun _ => [].
Definition no_binding : pyval -> result (option pystr) :=
  fun _ => Raise InterfaceError.

(** A field holding a string. *)
Definition field (k v : string) : pystr * pyval := (lit k, VStr (lit v)).

(** A listing without a usable mileage, priced 50000. *)
Definition listing_no_mileage : dict :=
  [field "title" "A"; field "price" "50000"; field "mileage" "N/A";
   field "year" "2019"].

(** The same with a price of 20000. *)
Definition listing_no_mileage_cheap : dict :=
  [field "title" "A"; field "price" "20000"; field "mileage" "N/A";
   field "year" "2019"].

(** A listing without a usable price, with 50000 km. *)
Definition listing_no_price : dict :=
  [field "title" "B"; field "price" "N/A"; field "mileage" "50.000 km";
   field "year" "2019"].

(** A listing whose year reads 0. *)
Definition listing_year_zero : dict :=
  [field "title" "C"; field "price" "20000"; field "mileage" "10000";
   field "year" "0"].

(** A listing whose year reads 0, priced 50000. *)
Definition listing_year_zero_pricey : dict :=
  [field "title" "C"; field "price" "50000"; field "mileage" "10000";
   field "year" "0"].

(** A listing whose year is not a number, priced 50000. *)
Definition listing_year_text : dict :=
  [field "title" "D"; field "price" "50000"; field "mileage" "10000";
   field "year" "unknown"].

(** A listing of 2019, priced 50000. *)
Definition listing_pricey : dict :=
  [field "title" "F"; field "price" "50000"; field "mileage" "10000";
   field "year" "03/2019"].

(** A listing with 5 km. *)
Definition listing_five_km : dict :=
  [field "title" "E"; field "price" "20000"; field "mileage" "5";
   field "year" "2019"].

(** Criteria as the search form sends them: the text of each input. *)
Definition criteria_mileage_price : dict :=
  [field "modelYear" ""; field "mileage" "40000"; field "price" "30000"].

Definition criteria_price : dict :=
  [field "modelYear" ""; field "mileage" ""; field "price" "30000"].

Definition criteria_year : dict :=
  [field "modelYear" "2000"; field "mileage" ""; field "price" ""].

Definition criteria_year_price : dict :=
  [field "modelYear" "2000"; field "mileage" ""; field "price" "30000"].

Definition criteria_unset : dict :=
  [field "modelYear" ""; field "mileage" ""; field "price" ""].

(** Criteria whose year bound is not a number. *)
Definition criteria_year_malformed : dict :=
  [field "modelYear" "abc"; field "mileage" ""; field "price" "30000"].

(** Criteria whose mileage bound is the integer 0. *)
Definition criteria_mileage_zero : dict := [(lit "mileage", VInt 0)].

(** The record of the specification's scenario:
    [{"price": {"amount": "30000"}, "properties": {"milage": "50.000 km"}}],
    and its two criteria. *)
Definition scenario_record : dict :=
  [ (lit "price", VDict [field "amount" "30000"]);
    (lit "properties", VDict [field "milage" "50.000 km"]) ].

Definition scenario_criteria_40000 : dict :=
  [(lit "price", VInt 35000); (lit "mileage", VInt 40000)].

Definition scenario_criteria_60000 : dict :=
  [(lit "price", VInt 35000); (lit "mileage", VInt 60000)].

(** Scraped records: one whose [properties] is null, one whose [title] is
    null. *)
Definition record_null_properties : dict := [(lit "properties", VNone)].

(** A scraped record with a price that is a mapping and a null
    [properties]. *)
Definition record_price_null_properties : dict :=
  [ (lit "price", VDict [field "amount" "30000"]);
    (lit "properties", VNone) ].
Definition record_null_title : dict := [(lit "title", VNone)].

Definition request_url : pyval := VStr (lit "https://www.mobile.de/a/1").

(** Vehicle records: two without a URL (the empty string), two with the
    same URL. *)
Definition vehicle_without_url (title : string) : dict :=
  [field "title" title; field "url" ""].

Definition vehicle_with_url (title : string) : dict :=
  [field "title" title; field "url" "https://www.mobile.de/a/1"].

(** [json.loads] is not consulted on the sample records either. *)
Definition no_json_loads : pystr -> result pyval := fun _ => Raise ValueError.

(** The body of a request of [create_offer], and the same without the
    price offered. *)
Definition offer_request : dict :=
  [ (lit "vehicle_data", VDict (vehicle_with_url "A"));
    field "client_email" "anna@example.com";
    field "client_name" "Anna";
    field "offered_price" "19.000";
    field "notes" "" ].


(** [subseq l1 l2]: [l1] is [l2] with some elements left out, the others in
    their order. *)
Inductive subseq {A : Type} : list A -> list A -> Prop :=
| subseq_nil : subseq [] []
| subseq_keep (a : A) (l1 l2 : list A) :
    subseq l1 l2 -> subseq (a :: l1) (a :: l2)
| subseq_drop (a : A) (l1 l2 : list A) :
    subseq l1 l2 -> subseq l1 (a :: l2).

(* ================================================================== *)
(** ** Regular expressions and [validate_email] *)
(* ================================================================== *)

(** The fragment of the [re] syntax the pattern of [validate_email] is
    written in: character sets, concatenation, repetition. *)
Inductive regex : Type :=
| Empty
| Eps
| Class (ranges : list (N * N))
| Seq (r1 r2 : regex)
| Alt (r1 r2 : regex)
| Star (r : regex).

(** [r+] and [r{2,}] *)
Definition Plus (r : regex) : regex := Seq r (Star r).
Definition AtLeast2 (r : regex) : regex := Seq r (Seq r (Star r)).

(** The strings a pattern matches in full. *)
Inductive matches : regex -> pystr -> Prop :=
| MEps : matches Eps []
| MClass (ranges : list (N * N)) (c : N) :
    existsb (in_range c) ranges = true -> matches (Class ranges) [c]
| MSeq (r1 r2 : regex) (s1 s2 : pystr) :
    matches r1 s1 -> matches r2 s2 -> matches (Seq r1 r2) (s1 ++ s2)
| MAltL (r1 r2 : regex) (s : pystr) : matches r1 s -> matches (Alt r1 r2) s
| MAltR (r1 r2 : regex) (s : pystr) : matches r2 s -> matches (Alt r1 r2) s
| MStar0 (r : regex) : matches (Star r) []
| MStarS (r : regex) (s1 s2 : pystr) :
    matches r s1 -> matches (Star r) s2 -> matches (Star r) (s1 ++ s2).

Fixpoint nullable (r : regex) : bool :=
  match r with
  | Empty => false
  | Eps => true
  | Class _ => false
  | Seq r1 r2 => nullable r1 && nullable r2
  | Alt r1 r2 => nullable r1 || nullable r2
  | Star _ => true
  end.

(** The pattern of what may follow the character [c]. *)
Fixpoint deriv (c : N) (r : regex) : regex :=
  match r with
  | Empty => Empty
  | Eps => Empty
  | Class ranges => if existsb (in_range c) ranges then Eps else Empty
  | Seq r1 r2 =>
      if nullable r1 then Alt (Seq (deriv c r1) r2) (deriv c r2)
      else Seq (deriv c r1) r2
  | Alt r1 r2 => Alt (deriv c r1) (deriv c r2)
  | Star r1 => Seq (deriv c r1) (Star r1)
  end.

(** Whether the pattern matches the whole of [s].  The engine of [re]
    searches by backtracking; for a pattern of this fragment it finds a
    match exactly when one exists, which is what is computed here. *)
Fixpoint fullmatch (r : regex) (s : pystr) : bool :=
  match s with
  | [] => nullable r
  | c :: t => fullmatch (deriv c r) t
  end.

(** [re.match('^' + r + '$', s)] gives a match: [r] matches a prefix of [s]
    that ends where [$] holds, at the end of [s] or before a newline that
    ends [s]. *)
Definition re_match_to_end (r : regex) (s : pystr) : bool :=
  fullmatch r s
  || match rev s with
     | 10 :: t => fullmatch r (rev t)
     | _ => false
     end.

(** The sets [[a-zA-Z0-9._%+-]], [[a-zA-Z0-9.-]] and [[a-zA-Z]]. *)
Definition local_set : list (N * N) :=
  [(97, 122); (65, 90); (48, 57); (46, 46); (95, 95); (37, 37); (43, 43);
   (45, 45)].
Definition domain_set : list (N * N) :=
  [(97, 122); (65, 90); (48, 57); (46, 46); (45, 45)].
Definition letter_set : list (N * N) := [(97, 122); (65, 90)].

(** [^[a-zA-Z0-9._%+-]+@[a-zA-Z0-9.-]+\.[a-zA-Z]{2,}$] without its
    anchors. *)
Definition email_pattern : regex :=
  Seq (Plus (Class local_set))
    (Seq (Class [(64, 64)])
       (Seq (Plus (Class domain_set))
          (Seq (Class [(46, 46)]) (AtLeast2 (Class letter_set))))).

(** [validate_email] (app.py, lines 70-73).  [re.match] raises a
    [TypeError] for an argument that is not a string. *)
Definition validate_email (email : pyval) : result bool :=
  match email with
  | VStr s => Ok (re_match_to_end email_pattern s)
  | _ => Raise TypeError
  end.

(** A character of a set. *)
Definition in_set (ranges : list (N * N)) (c : N) : Prop :=
  existsb (in_range c) ranges = true.

(** An address as the pattern reads it: a local part, [@], a domain, a dot
    and a top-level domain of two letters or more. *)
Definition address (s : pystr) : Prop :=
  exists local domain tld,
    s = local ++ [64] ++ domain ++ [46] ++ tld /\
    local <> [] /\ Forall (in_set local_set) local /\
    domain <> [] /\ Forall (in_set domain_set) domain /\
    (2 <= List.length tld)%nat /\ Forall (in_set letter_set) tld.

(* ================================================================== *)
(** ** The interpreter's conversions, the parser and the filter *)
(* ================================================================== *)

Section Interp.

(** [sys.get_int_max_str_digits()]: the limit on the number of digits
    [int()] accepts in a string (4300 by default since CPython 3.11; 0
    switches the limit off, as in interpreters without it).  The limit is
    only looked at for more than 640 digits. *)
Variable int_max_str_digits : nat.

(** The text [str()] gives for a float, a list or a dict (Python's [repr]
    of it).  No property below depends on that text. *)
Variable py_repr : pyval -> pystr.

Definition exceeds_digit_limit (ndigits : nat) : bool :=
  (Nat.ltb 640 ndigits) && (Nat.ltb 0 int_max_str_digits)
  && (Nat.ltb int_max_str_digits ndigits).

(** [PyLong_FromString] in base 10: blanks, a sign, the digits, blanks,
    and nothing else.  Every failure is a [ValueError]. *)
Definition PyLong_FromString (s : pystr) : result Z :=
  let s1 := skip_c_space s in
  let negative := starts_with [45] s1 in
  let s2 := if starts_with [43] s1 || starts_with [45] s1
            then tl s1 else s1 in
  if starts_with [95] s2 then Raise ValueError
  else
    match scan_digits s2 0 [] with
    | None => Raise ValueError
    | Some (ds, rest) =>
        match ds with
        | [] => Raise ValueError
        | _ :: _ =>
            if exceeds_digit_limit (List.length ds) then Raise ValueError
            else
              match skip_c_space rest with
              | [] =>
                  let v := Z.of_N (digits_value ds) in
                  Ok (if negative then Z.opp v else v)
              | _ :: _ => Raise ValueError
              end
        end
    end.

(** [int(s)] for a [str] ([PyLong_FromUnicodeObject]). *)
Definition int_of_str (s : pystr) : result Z :=
  PyLong_FromString (transform_decimal_and_space s).

(** [int(v)] *)
Definition py_int (v : pyval) : result Z :=
  match v with
  | VNone => Raise TypeError
  | VBool b => Ok (if b then 1 else 0)%Z
  | VInt n => Ok n
  | VFloat f => float_int f
  | VStr s => int_of_str s
  | VList _ => Raise TypeError
  | VDict _ => Raise TypeError
  end.

(** [str(v)].  The integers of a decoded JSON document, and those [int()]
    returns, are within the digit limit, so that [str()] does not fail on
    them. *)
Definition py_str (v : pyval) : pystr :=
  match v with
  | VNone => lit "None"
  | VBool b => if b then lit "True" else lit "False"
  | VInt n => str_of_int n
  | VStr s => s
  | VFloat _ => py_repr v
  | VList _ => py_repr v
  | VDict _ => py_repr v
  end.

(** [parse_number] (app.py, lines 2120-2151). *)
Definition parse_number (value_str : pyval) : result (option Z) :=
  if negb (truthy value_str) || eq_str value_str NA then Ok None
  else
    let s := py_str value_str in
    let s := str_replace (str_replace (str_replace s (lit "km") [])
                            EURO_SIGN []) (lit "EUR") [] in
    let s := str_replace (str_replace (str_replace s (lit " ") [])
                            NBSP []) NBSP [] in
    let s := str_replace (str_replace s (lit ",") []) (lit ".") [] in
    let s := str_strip s in
    try_except_ValueError
      (match s with
       | [] => Ok None
       | _ :: _ => n <- int_of_str s ;; Ok (Some n)
       end)
      (let digits := filter Py_UNICODE_ISDIGIT s in
       match digits with
       | [] => Ok None
       | _ :: _ => n <- int_of_str digits ;; Ok (Some n)
       end).

(** The year of a listing (lines 2160-2164). *)
Definition parse_year (item : dict) : result (option Z) :=
  let year_str := dict_get item (lit "year") (VStr []) in
  if truthy year_str && negb (eq_str year_str NA) then
    if str_contains (lit "/") (py_str year_str) then
      parts <- py_split year_str (lit "/") ;;
      y <- int_of_str (last_item parts) ;;
      Ok (Some y)
    else
      y <- py_int year_str ;;
      Ok (Some y)
  else Ok None.

(** [if criteria.get(key): bound = int(criteria[key])]: the bound of a
    criterion, [None] when the criterion is not set. *)
Definition criterion (criteria : dict) (key : pystr) : result (option Z) :=
  if truthy (dict_get criteria key VNone) then
    v <- dict_item criteria key ;;
    b <- py_int v ;;
    Ok (Some b)
  else Ok None.

(** [year and year < min_year] *)
Definition below_min (year : option Z) (min_year : Z) : bool :=
  match year with
  | Some y => negb (y =? 0)%Z && (y <? min_year)%Z
  | None => false
  end.

(** [value is not None and value > max_value] *)
Definition above_max (value : option Z) (max_value : Z) : bool :=
  match value with
  | Some v => (v >? max_value)%Z
  | None => false
  end.

(** The body of the [try] block for one listing (lines 2159-2196):
    [Ok true] when control reaches [filtered.append(item)], [Ok false]
    when a [continue] is taken.  The logging calls, which only format
    values, are left out. *)
Definition filter_item (item criteria : dict) : result bool :=
  year <- parse_year item ;;
  mileage <- parse_number (dict_get item (lit "mileage") (VStr [])) ;;
  price <- parse_number (dict_get item (lit "price") (VStr [])) ;;
  min_year <- criterion criteria (lit "modelYear") ;;
  if match min_year with Some m => below_min year m | None => false end
  then Ok false
  else
    max_mileage <- criterion criteria (lit "mileage") ;;
    if match max_mileage with Some m => above_max mileage m | None => false end
    then Ok false
    else
      max_price <- criterion criteria (lit "price") ;;
      if match max_price with Some m => above_max price m | None => false end
      then Ok false
      else Ok true.

(** The loop of [filter_listings]: [except Exception] appends the listing
    whose evaluation raised. *)
Fixpoint filter_loop (listings : list dict) (criteria : dict)
         (filtered : list dict) : result (list dict) :=
  match listings with
  | [] => Ok filtered
  | item :: rest =>
      match filter_item item criteria with
      | Ok true => filter_loop rest criteria (filtered ++ [item])
      | Ok false => filter_loop rest criteria filtered
      | Raise _ => filter_loop rest criteria (filtered ++ [item])
      end
  end.

(** [filter_listings] (app.py, lines 2153-2201). *)
Definition filter_listings (listings : list dict) (criteria : dict)
  : result (list dict) :=
  filter_loop listings criteria [].

(* ---------------------------------------------------------------- *)
(** *** Normalisation of a scraped record *)
(* ---------------------------------------------------------------- *)

(** [str(v) if v != 'N/A' else 'N/A'] *)
Definition str_or_na (v : pyval) : pyval :=
  if negb (eq_str v NA) then VStr (py_str v) else VStr NA.

(** [price = item.get('price', 'N/A')], then its [amount] when it is a
    dict (lines 2249-2251 and 2596-2598). *)
Definition extract_price (item : dict) : pyval :=
  let price := dict_get item (lit "price") (VStr NA) in
  match price with
  | VDict d => dict_get d (lit "amount") (VStr NA)
  | _ => price
  end.

(** The [details] record of [get_vehicle_details] (lines 2249-2267);
    [url] is the URL of the request. *)
Definition get_vehicle_details_record (item : dict) (url : pyval) : result dict :=
  let price := extract_price item in
  let properties := dict_get item (lit "properties") (VDict []) in
  mileage <- py_get properties (lit "milage")
               (dict_get item (lit "mileage") (VStr NA)) ;;
  year <- py_get properties (lit "firstRegistration")
            (dict_get item (lit "year") (VStr NA)) ;;
  Ok [ (lit "title", dict_get item (lit "title") (VStr NA));
       (lit "price", str_or_na price);
       (lit "url", dict_get item (lit "url") url);
       (lit "mileage", str_or_na mileage);
       (lit "year", str_or_na year);
       (lit "fuel", dict_get item (lit "fuel") (VStr NA));
       (lit "transmission", dict_get item (lit "transmission") (VStr NA));
       (lit "power", dict_get item (lit "power") (VStr NA));
       (lit "properties", properties) ].

(** The [listing] record built for one item in [search]
    (lines 2596-2610). *)
Definition search_listing (item : dict) : result dict :=
  let price := extract_price item in
  let properties := dict_get item (lit "properties") (VDict []) in
  mileage <- py_get properties (lit "milage") (VStr NA) ;;
  year <- py_get properties (lit "firstRegistration") (VStr NA) ;;
  Ok [ (lit "title",
        dict_get item (lit "title")
          (dict_get item (lit "name") (VStr (lit "Vehicle"))));
       (lit "price", str_or_na price);
       (lit "mileage", str_or_na mileage);
       (lit "year", str_or_na year);
       (lit "url",
        dict_get item (lit "url") (dict_get item (lit "link") (VStr []))) ].

(* ---------------------------------------------------------------- *)
(** *** The vehicles table and [save_vehicle_to_db] *)
(* ---------------------------------------------------------------- *)

(** [json.dumps] *)
Variable json_dumps : pyval -> pystr.

(** What the database driver binds in a TEXT column for a value that is
    neither [None] nor a [str]: the text of a number, or an exception for
    a value it cannot bind.  sqlite3 and psycopg2 differ there. *)
Variable bind_other : pyval -> result (option pystr).

(** A bound parameter: [None] is NULL, a [str] is the text itself.  (The
    drivers raise on a [str] they cannot encode, see [binds_text]; a
    property that needs a [str] of the request to be bound takes the
    success of the call, a row that holds the text, or [binds_text] as its
    hypothesis.) *)
Definition sql_bind (v : pyval) : result (option pystr) :=
  match v with
  | VNone => Ok None
  | VStr s => Ok (Some s)
  | _ => bind_other v
  end.

(** [SELECT id FROM vehicles WHERE url = ?] followed by [fetchone()]:
    a NULL never compares equal. *)
Definition select_id_by_url (db : database) (url : pyval)
  : result (option Z) :=
  u <- sql_bind url ;;
  match u with
  | None => Ok None
  | Some t => Ok (option_map row_id (find (url_is t) (vehicles db)))
  end.

Fixpoint bind_all (params : list pyval) : result (list (option pystr)) :=
  match params with
  | [] => Ok []
  | v :: rest =>
      c <- sql_bind v ;;
      cs <- bind_all rest ;;
      Ok (c :: cs)
  end.

(** [INSERT INTO vehicles (title, ..., url, properties) VALUES (...)]
    under the constraints of the table: [title] is NOT NULL, [url] is
    UNIQUE (NULLs apart), [id] is generated.  Returns the new id and the
    table, or the exception and the table as the failed statement leaves
    it. *)
Definition insert_vehicle (db : database) (title url : pyval)
           (others : list pyval) : result Z * database :=
  match (t <- sql_bind title ;; u <- sql_bind url ;;
         cs <- bind_all others ;; Ok (t, u, cs)) with
  | Raise e => (Raise e, db)
  | Ok (t, u, cs) =>
      if match t with None => true | Some _ => false end
         || match u with
            | Some x => existsb (url_is x) (vehicles db)
            | None => false
            end
      then (Raise IntegrityError, failed_insert db)
      else
        let r := {| row_id := next_id db; row_title := t; row_url := u;
                    row_columns := cs |} in
        (Ok (next_id db),
         {| engine := engine db;
            vehicles := vehicles db ++ [r];
            next_id := (next_id db + 1)%Z |})
  end.

(** [save_vehicle_to_db] (app.py, lines 150-214): the body of the [try]
    block.  [Ok id] is [return id]. *)
Definition save_vehicle_body (db : database) (vehicle_data : dict)
  : result Z * database :=
  let properties_json :=
    if truthy (dict_get vehicle_data (lit "properties") VNone)
    then VStr (json_dumps
                 (dict_get vehicle_data (lit "properties") (VDict [])))
    else VNone in
  let url := dict_get vehicle_data (lit "url") (VStr []) in
  match (if truthy url then select_id_by_url db url else Ok None) with
  | Raise e => (Raise e, db)
  | Ok (Some existing) => (Ok existing, db)
  | Ok None =>
      insert_vehicle db
        (dict_get vehicle_data (lit "title") VNone) url
        [ dict_get vehicle_data (lit "price") VNone;
          dict_get vehicle_data (lit "mileage") VNone;
          dict_get vehicle_data (lit "year") VNone;
          dict_get vehicle_data (lit "fuel") VNone;
          dict_get vehicle_data (lit "transmission") VNone;
          dict_get vehicle_data (lit "power") VNone;
          properties_json ]
  end.

(** [except Exception: return None]: the identity of the vehicle, or
    [None]. *)
Definition save_vehicle_to_db (db : database) (vehicle_data : dict)
  : option Z * database :=
  match save_vehicle_body db vehicle_data with
  | (Ok id, db') => (Some id, db')
  | (Raise _, db') => (None, db')
  end.

(** The table after a sequence of calls. *)
Fixpoint save_all (db : database) (records : list dict) : database :=
  match records with
  | [] => db
  | vd :: rest => save_all (snd (save_vehicle_to_db db vd)) rest
  end.

(* ---------------------------------------------------------------- *)
(** *** Notions the properties are stated with *)
(* ---------------------------------------------------------------- *)

(** The listing is kept by the filter: the [try] block reaches the
    [append], or an exception sends it to the handler's [append]. *)
Definition retains (criteria item : dict) : bool :=
  match filter_item item criteria with
  | Ok false => false
  | _ => true
  end.

(** [if criteria.get(key)]: the criterion is set. *)
Definition bound_set (criteria : dict) (key : pystr) : bool :=
  truthy (dict_get criteria key VNone).

Definition no_bounds (criteria : dict) : Prop :=
  bound_set criteria (lit "modelYear") = false /\
  bound_set criteria (lit "mileage") = false /\
  bound_set criteria (lit "price") = false.

(** A parsed field value: absent when the parser returned [None] or
    raised. *)
Definition parsed (r : result (option Z)) : option Z :=
  match r with
  | Ok (Some v) => Some v
  | _ => None
  end.

(** The bound of a criterion as the specification reads it: present when
    the criteria hold an integer (or the text of one) under the key. *)
Definition stated_bound (criteria : dict) (key : pystr) : option Z :=
  match dict_lookup criteria key with
  | Some v => match py_int v with Ok b => Some b | Raise _ => None end
  | None => None
  end.

(** The exclusion condition in the specification's words: some bound is
    present, the field parses to a value, and the value violates the bound
    (mileage or price greater than the maximum, year less than the
    minimum). *)
Definition stated_exclusion (item criteria : dict) : bool :=
  match stated_bound criteria (lit "mileage"),
        parsed (parse_number (dict_get item (lit "mileage") (VStr [])))
  with
  | Some m, Some v => (v >? m)%Z
  | _, _ => false
  end
  || match stated_bound criteria (lit "price"),
           parsed (parse_number (dict_get item (lit "price") (VStr [])))
     with
     | Some m, Some v => (v >? m)%Z
     | _, _ => false
     end
  || match stated_bound criteria (lit "modelYear"),
           parsed (parse_year item)
     with
     | Some m, Some y => (y <? m)%Z
     | _, _ => false
     end.

(** The criterion is unset, or set to a value [int()] converts. *)
Definition bound_converts (criteria : dict) (key : pystr) : Prop :=
  exists b, criterion criteria key = Ok b.

(** What the code excludes a listing for.  The three fields are parsed
    without an exception, and a bound that is set is violated by a parsed
    value (for the year: a value other than 0); the bounds are taken in
    the order year, mileage, price, and the bounds before the violated one
    are unset or convert to an integer. *)
Definition excluded_when (item criteria : dict) : Prop :=
  exists year mileage price,
    parse_year item = Ok year /\
    parse_number (dict_get item (lit "mileage") (VStr [])) = Ok mileage /\
    parse_number (dict_get item (lit "price") (VStr [])) = Ok price /\
    ((exists m y, criterion criteria (lit "modelYear") = Ok (Some m) /\
                  year = Some y /\ y <> 0%Z /\ (y < m)%Z)
     \/ (bound_converts criteria (lit "modelYear") /\
         exists m v, criterion criteria (lit "mileage") = Ok (Some m) /\
                     mileage = Some v /\ (v > m)%Z)
     \/ (bound_converts criteria (lit "modelYear") /\
         bound_converts criteria (lit "mileage") /\
         exists m v, criterion criteria (lit "price") = Ok (Some m) /\
                     price = Some v /\ (v > m)%Z)).

(* ---------------------------------------------------------------- *)
(** *** Formatted numbers *)
(* ---------------------------------------------------------------- *)

(** The characters [parse_number] deletes one by one: the dot, the comma,
    the blank, the non-breaking space and the euro sign. *)
Definition is_separator (c : N) : bool :=
  (c =? 46) || (c =? 44) || (c =? 32) || (c =? 160) || (c =? 8364).

(** A number as the listings write it: ASCII digits and separators. *)
Definition formatted_number (s : pystr) : Prop :=
  Forall (fun c => is_ascii_digit c = true \/ is_separator c = true) s.

(** The number the digits of a string write, [None] without a digit. *)
Definition written_number (s : pystr) : option Z :=
  match filter is_ascii_digit s with
  | [] => None
  | ds => Some (Z.of_N (digits_value (map (fun c => c - 48) ds)))
  end.

(** The unit words [parse_number] deletes. *)
Definition unit_word (u : pystr) : Prop := u = lit "km" \/ u = lit "EUR".

(** The string [parse_number] hands to [int()]: the unit words and the
    separators deleted, the ends stripped (lines 2129-2143). *)
Definition cleaned_number (s : pystr) : pystr :=
  let s := str_replace (str_replace (str_replace s (lit "km") [])
                          EURO_SIGN []) (lit "EUR") [] in
  let s := str_replace (str_replace (str_replace s (lit " ") [])
                          NBSP []) NBSP [] in
  let s := str_replace (str_replace s (lit ",") []) (lit ".") [] in
  str_strip s.

(* ---------------------------------------------------------------- *)
(** *** The listings of a search *)
(* ---------------------------------------------------------------- *)

(** One turn of the loop of [search] (lines 2595-2611): [item.get] needs a
    dict. *)
Definition search_item (item : pyval) : result dict :=
  match item with
  | VDict d => search_listing d
  | _ => Raise AttributeError
  end.

(** The loop over the items of the dataset, inside [try ... except
    Exception] (lines 2591-2613): an exception ends the loop, and the
    listings appended so far remain. *)
Fixpoint search_collect (items : list pyval) (listings : list dict)
  : list dict :=
  match items with
  | [] => listings
  | item :: rest =>
      match search_item item with
      | Ok listing => search_collect rest (listings ++ [listing])
      | Raise _ => listings
      end
  end.

(** The listings [search] answers with for the items of the dataset and
    the criteria [data] of the request (lines 2591-2614). *)
Definition search_results (items : list pyval) (data : dict)
  : result (list dict) :=
  filter_listings (search_collect items []) data.

(** An item the loop of [search] cannot read: it is not a dict, or its
    [properties] is not one. *)
Definition malformed (item : pyval) : Prop :=
  match item with
  | VDict d => is_dict (dict_get d (lit "properties") (VDict [])) = false
  | _ => True
  end.

(* ---------------------------------------------------------------- *)
(** *** The offers table and the operations on the store *)
(* ---------------------------------------------------------------- *)

(** [except Exception]: what is left of a result when every exception is
    caught. *)
Definition except_Exception {A : Type} (r : result A) : option A :=
  match r with
  | Ok a => Some a
  | Raise _ => None
  end.

(** A value held by the INTEGER column [vehicle_id]: an integer, or, in
    SQLite, a value kept in another storage class (a text that is not a
    number, a real).  Such a value equals no integer. *)
Inductive int_cell : Type :=
| IInt (n : Z)
| IOther (v : pyval).

(** A row of [offers] (app.py, lines 101-112 and 132-143): [client_email]
    and [offered_price] are NOT NULL. *)
Record offer_row : Type := {
  offer_id : Z;
  offer_vehicle : int_cell;
  offer_email : pystr;
  offer_name : option pystr;
  offer_price : pystr;
  offer_notes : option pystr
}.

(** The two tables of the store, and the id sequence of [offers]. *)
Record vehicle_crm : Type := {
  vehicle_table : database;
  offers : list offer_row;
  next_offer_id : Z
}.

Definition empty_crm (e : db_engine) : vehicle_crm :=
  {| vehicle_table := empty_database e; offers := []; next_offer_id := 1 |}.

(** The integers an INTEGER column takes: 32 bits in PostgreSQL, 64 bits
    in SQLite (whose driver raises [OverflowError] beyond). *)
Definition fits_integer (e : db_engine) (n : Z) : bool :=
  match e with
  | Postgres => (- 2 ^ 31 <=? n)%Z && (n <? 2 ^ 31)%Z
  | Sqlite => (- 2 ^ 63 <=? n)%Z && (n <? 2 ^ 63)%Z
  end.

(** The integers that can be bound in a WHERE clause: psycopg2 writes the
    number in the statement, sqlite3 binds 64 bits. *)
Definition binds_parameter (e : db_engine) (n : Z) : bool :=
  match e with
  | Postgres => true
  | Sqlite => (- 2 ^ 63 <=? n)%Z && (n <? 2 ^ 63)%Z
  end.

(** What the driver and the engine make of a value that is neither [None]
    nor an [int] given for an INTEGER column: the cell, or an exception. *)
Variable bind_integer_other : pyval -> result int_cell.

(** A value bound for the column [vehicle_id]: [None] when the statement
    raises, [Some None] for NULL. *)
Definition bind_integer (e : db_engine) (v : pyval)
  : option (option int_cell) :=
  match v with
  | VNone => Some None
  | VInt n => if fits_integer e n then Some (Some (IInt n)) else None
  | _ => option_map Some (except_Exception (bind_integer_other v))
  end.

(** [id = n] and [vehicle_id = n] in a WHERE clause. *)
Definition has_id (n : Z) (r : vehicle_row) : bool := (row_id r =? n)%Z.
Definition offer_has_id (n : Z) (o : offer_row) : bool := (offer_id o =? n)%Z.
Definition vehicle_is (n : Z) (o : offer_row) : bool :=
  match offer_vehicle o with
  | IInt m => (m =? n)%Z
  | IOther _ => false
  end.

(** The foreign key of [offers]: the cell is the id of a vehicle. *)
Definition references_vehicle (db : database) (c : int_cell) : bool :=
  match c with
  | IInt n => existsb (has_id n) (vehicles db)
  | IOther _ => false
  end.

(** An INSERT into [offers] that violates a constraint: the rows stay, a
    PostgreSQL sequence keeps the value drawn. *)
Definition failed_offer_insert (db : vehicle_crm) : vehicle_crm :=
  match engine (vehicle_table db) with
  | Postgres =>
      {| vehicle_table := vehicle_table db; offers := offers db;
         next_offer_id := (next_offer_id db + 1)%Z |}
  | Sqlite => db
  end.

(** [save_offer_to_db] (app.py, lines 216-258): the new id, or [None] when
    the INSERT raises.  [vehicle_id], [client_email] and [offered_price]
    are NOT NULL; the foreign key is enforced by PostgreSQL only (SQLite
    leaves foreign keys off unless the connection turns them on). *)
Definition save_offer_to_db (db : vehicle_crm) (offer_data : dict)
  : option Z * vehicle_crm :=
  match bind_integer (engine (vehicle_table db))
          (dict_get offer_data (lit "vehicle_id") VNone),
        except_Exception
          (e <- sql_bind (dict_get offer_data (lit "client_email") VNone) ;;
           n <- sql_bind (dict_get offer_data (lit "client_name") VNone) ;;
           p <- sql_bind (dict_get offer_data (lit "offered_price") VNone) ;;
           t <- sql_bind (dict_get offer_data (lit "notes") VNone) ;;
           Ok (e, n, p, t))
  with
  | Some v, Some (e, n, p, t) =>
      match v, e, p with
      | Some vehicle, Some email, Some price =>
          if match engine (vehicle_table db) with
             | Postgres => references_vehicle (vehicle_table db) vehicle
             | Sqlite => true
             end
          then
            (Some (next_offer_id db),
             {| vehicle_table := vehicle_table db;
                offers := offers db ++
                          [{| offer_id := next_offer_id db;
                              offer_vehicle := vehicle;
                              offer_email := email;
                              offer_name := n;
                              offer_price := price;
                              offer_notes := t |}];
                next_offer_id := (next_offer_id db + 1)%Z |})
          else (None, failed_offer_insert db)
      | _, _, _ => (None, failed_offer_insert db)
      end
  | _, _ => (None, db)
  end.

(** [json.loads] *)
Variable json_loads : pystr -> result pyval.

(** A column read back: NULL is [None]. *)
Definition cell_value (c : option pystr) : pyval :=
  match c with
  | Some t => VStr t
  | None => VNone
  end.

(** The text columns of a row after [title], in the order of the INSERT:
    price, mileage, year, fuel, transmission, power, properties. *)
Definition column (r : vehicle_row) (i : nat) : option pystr :=
  nth i (row_columns r) None.

(** [get_vehicle_by_id] (app.py, lines 260-296): [None] when no row has the
    id, and when an exception is caught. *)
Definition get_vehicle_by_id (db : database) (vehicle_id : Z) : option dict :=
  if binds_parameter (engine db) vehicle_id then
    match find (has_id vehicle_id) (vehicles db) with
    | None => None
    | Some r =>
        match (match column r 6 with
               | Some (c :: text) => json_loads (c :: text)
               | _ => Ok (VDict [])
               end) with
        | Raise _ => None
        | Ok properties =>
            Some [ (lit "id", VInt (row_id r));
                   (lit "title", cell_value (row_title r));
                   (lit "price", cell_value (column r 0));
                   (lit "mileage", cell_value (column r 1));
                   (lit "year", cell_value (column r 2));
                   (lit "fuel", cell_value (column r 3));
                   (lit "transmission", cell_value (column r 4));
                   (lit "power", cell_value (column r 5));
                   (lit "url", cell_value (row_url r));
                   (lit "properties", properties) ]
        end
    end
  else None.

(** The row an UPDATE of [vehicles] writes: the [properties] column is not
    in the SET clause. *)
Definition updated_row (r : vehicle_row) (title url : option pystr)
           (others : list (option pystr)) : vehicle_row :=
  {| row_id := row_id r; row_title := title; row_url := url;
     row_columns := others ++ skipn 6 (row_columns r) |}.

(** [update_vehicle] (app.py, lines 375-421): [cursor.rowcount > 0], and
    [False] when the UPDATE raises; [id] is the primary key, so that one
    row at most is updated.  [title] is NOT NULL and [url] UNIQUE. *)
Definition update_vehicle (db : database) (vehicle_id : Z) (data : dict)
  : bool * database :=
  match (t <- sql_bind (dict_get data (lit "title") VNone) ;;
         cs <- bind_all [ dict_get data (lit "price") VNone;
                          dict_get data (lit "mileage") VNone;
                          dict_get data (lit "year") VNone;
                          dict_get data (lit "fuel") VNone;
                          dict_get data (lit "transmission") VNone;
                          dict_get data (lit "power") VNone ] ;;
         u <- sql_bind (dict_get data (lit "url") VNone) ;;
         Ok (t, cs, u)) with
  | Raise _ => (false, db)
  | Ok (t, cs, u) =>
      if binds_parameter (engine db) vehicle_id
         && existsb (has_id vehicle_id) (vehicles db)
      then
        if match t with None => true | Some _ => false end
           || match u with
              | Some x =>
                  existsb (fun r => url_is x r && negb (has_id vehicle_id r))
                          (vehicles db)
              | None => false
              end
        then (false, db)
        else
          (true,
           {| engine := engine db;
              vehicles :=
                map (fun r => if has_id vehicle_id r
                              then updated_row r t u cs else r)
                    (vehicles db);
              next_id := next_id db |})
      else (false, db)
  end.

(** [update_offer] (app.py, lines 423-459). *)
Definition update_offer (db : vehicle_crm) (offer_id' : Z) (data : dict)
  : bool * vehicle_crm :=
  match (e <- sql_bind (dict_get data (lit "client_email") VNone) ;;
         n <- sql_bind (dict_get data (lit "client_name") VNone) ;;
         p <- sql_bind (dict_get data (lit "offered_price") VNone) ;;
         t <- sql_bind (dict_get data (lit "notes") VNone) ;;
         Ok (e, n, p, t)) with
  | Raise _ => (false, db)
  | Ok (e, n, p, t) =>
      if binds_parameter (engine (vehicle_table db)) offer_id'
         && existsb (offer_has_id offer_id') (offers db)
      then
        match e, p with
        | Some email, Some price =>
            (true,
             {| vehicle_table := vehicle_table db;
                offers :=
                  map (fun o => if offer_has_id offer_id' o
                                then {| offer_id := offer_id o;
                                        offer_vehicle := offer_vehicle o;
                                        offer_email := email;
                                        offer_name := n;
                                        offer_price := price;
                                        offer_notes := t |}
                                else o)
                      (offers db);
                next_offer_id := next_offer_id db |})
        | _, _ => (false, db)
        end
      else (false, db)
  end.

(** [delete_vehicle] (app.py, lines 461-483): the offers of the vehicle
    are deleted, then the vehicle; the answer is the [rowcount] of the
    second DELETE. *)
Definition delete_vehicle (db : vehicle_crm) (vehicle_id : Z)
  : bool * vehicle_crm :=
  let vt := vehicle_table db in
  if binds_parameter (engine vt) vehicle_id then
    (existsb (has_id vehicle_id) (vehicles vt),
     {| vehicle_table :=
          {| engine := engine vt;
             vehicles := filter (fun r => negb (has_id vehicle_id r))
                                (vehicles vt);
             next_id := next_id vt |};
        offers := filter (fun o => negb (vehicle_is vehicle_id o))
                         (offers db);
        next_offer_id := next_offer_id db |})
  else (false, db).

(** [delete_offer] (app.py, lines 485-501). *)
Definition delete_offer (db : vehicle_crm) (offer_id' : Z)
  : bool * vehicle_crm :=
  if binds_parameter (engine (vehicle_table db)) offer_id' then
    (existsb (offer_has_id offer_id') (offers db),
     {| vehicle_table := vehicle_table db;
        offers := filter (fun o => negb (offer_has_id offer_id' o))
                         (offers db);
        next_offer_id := next_offer_id db |})
  else (false, db).

Definition pystr_eq_dec : forall a b : pystr, {a = b} + {a <> b} :=
  list_eq_dec N.eq_dec.

(** [get_dashboard_stats] (app.py, lines 548-572): the two row counts and
    [COUNT(DISTINCT client_email)]. *)
Definition get_dashboard_stats (db : vehicle_crm) : dict :=
  [ (lit "total_vehicles",
     VInt (Z.of_nat (List.length (vehicles (vehicle_table db)))));
    (lit "total_offers", VInt (Z.of_nat (List.length (offers db))));
    (lit "unique_clients",
     VInt (Z.of_nat (List.length
                       (nodup pystr_eq_dec (map offer_email (offers db)))))) ].

(** The answers of [create_offer]: the two ids, an error message of the
    handler with its status, or the status 500 for an exception. *)
Inductive response : Type :=
| Created (offer vehicle : Z)
| Refused (status : Z) (error : pystr)
| Failed (e : exn).

(** [vehicle_dict] and [offer_dict] of [create_offer] (lines 2324-2334
    and 2347-2353). *)
Definition vehicle_dict (vehicle_data : dict) : dict :=
  [ (lit "title", dict_get vehicle_data (lit "title") (VStr NA));
    (lit "price", dict_get vehicle_data (lit "price") (VStr NA));
    (lit "mileage", dict_get vehicle_data (lit "mileage") (VStr NA));
    (lit "year", dict_get vehicle_data (lit "year") (VStr NA));
    (lit "fuel", dict_get vehicle_data (lit "fuel") (VStr NA));
    (lit "transmission",
     dict_get vehicle_data (lit "transmission") (VStr NA));
    (lit "power", dict_get vehicle_data (lit "power") (VStr NA));
    (lit "url", dict_get vehicle_data (lit "url") (VStr []));
    (lit "properties", dict_get vehicle_data (lit "properties") (VDict [])) ].

Definition offer_dict (vehicle_id : Z)
           (client_email client_name offered_price notes : pyval) : dict :=
  [ (lit "vehicle_id", VInt vehicle_id);
    (lit "client_email", client_email);
    (lit "client_name", client_name);
    (lit "offered_price", offered_price);
    (lit "notes", notes) ].

Definition with_vehicles (db : vehicle_crm) (vt : database) : vehicle_crm :=
  {| vehicle_table := vt; offers := offers db;
     next_offer_id := next_offer_id db |}.

(** [create_offer] (app.py, lines 2300-2370), from the decoded body of the
    request on. *)
Definition create_offer (db : vehicle_crm) (data : pyval)
  : response * vehicle_crm :=
  match data with
  | VDict d =>
      let vehicle_data := dict_get d (lit "vehicle_data") VNone in
      let client_email := dict_get d (lit "client_email") VNone in
      let client_name := dict_get d (lit "client_name") VNone in
      let offered_price := dict_get d (lit "offered_price") VNone in
      let notes := dict_get d (lit "notes") VNone in
      if negb (truthy vehicle_data)
      then (Refused 400 (lit "Vehicle data is missing"), db)
      else
        match vehicle_data with
        | VDict vd =>
            match validate_email client_email with
            | Raise e => (Failed e, db)
            | Ok false => (Refused 400 (lit "Invalid email address"), db)
            | Ok true =>
                let (vehicle_id, vt) :=
                  save_vehicle_to_db (vehicle_table db) (vehicle_dict vd) in
                let db1 := with_vehicles db vt in
                match vehicle_id with
                | Some id =>
                    if (id =? 0)%Z
                    then (Refused 500 (lit "Could not save vehicle data"),
                          db1)
                    else
                      match save_offer_to_db db1
                              (offer_dict id client_email client_name
                                          offered_price notes) with
                      | (Some offer, db2) =>
                          if (offer =? 0)%Z
                          then (Refused 500 (lit "Could not create offer"),
                                db2)
                          else (Created offer id, db2)
                      | (None, db2) =>
                          (Refused 500 (lit "Could not create offer"), db2)
                      end
                | None =>
                    (Refused 500 (lit "Could not save vehicle data"), db1)
                end
            end
        | _ => (Refused 400 (lit "Vehicle data must be a dictionary"), db)
        end
  | _ => (Failed AttributeError, db)
  end.

(** The text columns of a vehicle other than [url], under the keys of the
    records. *)
Definition text_keys : list pystr :=
  [ lit "title"; lit "price"; lit "mileage"; lit "year"; lit "fuel";
    lit "transmission"; lit "power" ].

(** What a TEXT column gives back for a value bound to it: [None] for
    [None], a string for itself, for another value the text the driver
    made of it. *)
Definition read_back (v : pyval) : pyval :=
  match sql_bind v with
  | Ok c => cell_value c
  | Raise _ => VNone
  end.



(** The calls that write to the store: [save_vehicle_to_db] (from
    [get_vehicle_details] and the dashboard), [create_offer], and the
    updates and deletions of the dashboard. *)
Inductive operation : Type :=
| SaveVehicle (vehicle_data : dict)
| CreateOffer (data : pyval)
| UpdateVehicle (vehicle_id : Z) (data : dict)
| UpdateOffer (offer_id' : Z) (data : dict)
| DeleteVehicle (vehicle_id : Z)
| DeleteOffer (offer_id' : Z).

(** The store after an operation. *)
Definition run (db : vehicle_crm) (op : operation) : vehicle_crm :=
  match op with
  | SaveVehicle vd =>
      with_vehicles db (snd (save_vehicle_to_db (vehicle_table db) vd))
  | CreateOffer data => snd (create_offer db data)
  | UpdateVehicle id data =>
      with_vehicles db (snd (update_vehicle (vehicle_table db) id data))
  | UpdateOffer id data => snd (update_offer db id data)
  | DeleteVehicle id => snd (delete_vehicle db id)
  | DeleteOffer id => snd (delete_offer db id)
  end.

(** The ids of [vehicles] are not reused. *)
Definition ids_in_order (db : database) : Prop :=
  NoDup (map row_id (vehicles db)) /\
  Forall (fun r => (row_id r < next_id db)%Z) (vehicles db).

(** The state of a store that is in order: ids are not reused, no two
    vehicles share a URL, and every offer is the offer of a stored
    vehicle. *)
Record consistent (db : vehicle_crm) : Prop := {
  urls_unique : unique_urls (vehicle_table db);
  vehicle_ids_unique : NoDup (map row_id (vehicles (vehicle_table db)));
  vehicle_ids_spent :
    Forall (fun r => (row_id r < next_id (vehicle_table db))%Z)
           (vehicles (vehicle_table db));
  offer_ids_unique : NoDup (map offer_id (offers db));
  offer_ids_spent :
    Forall (fun o => (offer_id o < next_offer_id db)%Z) (offers db);
  offers_have_vehicles :
    Forall (fun o => references_vehicle (vehicle_table db) (offer_vehicle o)
                     = true) (offers db)
}.

(** On the sample records the column [vehicle_id] is only given integers:
    the parameter for other values is fixed to an exception. *)
Definition no_integer_binding : pyval -> result int_cell :=
  fun _ => Raise InterfaceError.

(* ================================================================ *)
(** ** Properties *)
(* ================================================================ *)

(* ---------------------------------------------------------------- *)
(** *** Strings and dictionaries *)
(* ---------------------------------------------------------------- *)

Lemma pystr_eqb_eq (a b : pystr) : pystr_eqb a b = true <-> a = b.
Proof.
  revert b; induction a as [|x a IH]; intros [|y b]; simpl;
    try (split; [discriminate | discriminate]); [tauto|].
  rewrite andb_true_iff, N.eqb_eq, IH.
  split; [intros [-> ->]; reflexivity | intros H; inversion H; auto].
Qed.

Lemma pystr_eqb_refl (a : pystr) : pystr_eqb a a = true.
Proof. apply pystr_eqb_eq; reflexivity. Qed.

Lemma dict_get_set_same (d : dict) (k : pystr) (v default : pyval) :
  dict_get (dict_set d k v) k default = v.
Proof. unfold dict_get, dict_set; simpl; rewrite pystr_eqb_refl; reflexivity. Qed.

Lemma dict_get_set_other (d : dict) (k k' : pystr) (v default : pyval) :
  pystr_eqb k k' = false ->
  dict_get (dict_set d k v) k' default = dict_get d k' default.
Proof. unfold dict_get, dict_set; simpl; intros ->; reflexivity. Qed.

Lemma dict_get_absent (d : dict) (k : pystr) (default : pyval) :
  dict_lookup d k = None -> dict_get d k default = default.
Proof. unfold dict_get; intros ->; reflexivity. Qed.

Lemma dict_get_present (d : dict) (k : pystr) (v default : pyval) :
  dict_lookup d k = Some v -> dict_get d k default = v.
Proof. unfold dict_get; intros ->; reflexivity. Qed.

(* ---------------------------------------------------------------- *)
(** *** [parse_number] *)
(* ---------------------------------------------------------------- *)

(** C2. [parse_number] returns [None] on the empty string and on "N/A",
    and the exact integers on the formatted examples: "110.000 km" gives
    110000, "45,000" gives 45000, "1.234.567" gives 1234567 and
    "€ 25.000" gives 25000. *)
Theorem parse_number_examples :
  parse_number (VStr []) = Ok None /\
  parse_number (VStr (lit "N/A")) = Ok None /\
  parse_number (VStr (lit "110.000 km")) = Ok (Some 110000%Z) /\
  parse_number (VStr (lit "45,000")) = Ok (Some 45000%Z) /\
  parse_number (VStr (lit "1.234.567")) = Ok (Some 1234567%Z) /\
  parse_number (VStr (EURO_SIGN ++ lit " 25.000")) = Ok (Some 25000%Z).
Proof. repeat split; vm_compute; reflexivity. Qed.

(** Currency symbols and non-breaking spaces are stripped. *)
Lemma parse_number_currency_and_nbsp :
  parse_number (VStr (lit "25.000" ++ NBSP ++ EURO_SIGN))
  = Ok (Some 25000%Z) /\
  parse_number (VStr (lit "12" ++ NBSP ++ lit "500 EUR")) = Ok (Some 12500%Z) /\
  parse_number (VInt 110000) = Ok (Some 110000%Z).
Proof. repeat split; vm_compute; reflexivity. Qed.

(** C8. [parse_number] raises on a string that holds a digit character
    which is not a decimal digit: for the superscript two, alone or after
    "50.000 km", [int(s)] fails, the handler keeps the character as a
    digit, and [int(digits)] fails again, outside any handler. *)
Theorem parse_number_raises_on_superscript_digit :
  parse_number (VStr [178]) = Raise ValueError /\
  parse_number (VStr (lit "50.000 km" ++ [178])) = Raise ValueError.
Proof. split; vm_compute; reflexivity. Qed.

(** Where [parse_number] returns. *)

Lemma int_of_str_raises_ValueError (s : pystr) (e : exn) :
  int_of_str s = Raise e -> e = ValueError.
Proof.
  unfold int_of_str, PyLong_FromString.
  repeat match goal with
         | |- context [match ?x with _ => _ end] => destruct x
         end;
    intros H; try discriminate; inversion H; reflexivity.
Qed.

Lemma todecimal_some (c d : N) :
  Py_UNICODE_TODECIMAL c = Some d ->
  exists z, In z decimal_zeros /\ z <= c /\ c < z + 10 /\ d = c - z.
Proof.
  unfold Py_UNICODE_TODECIMAL.
  destruct (find (fun z => (z <=? c) && (c <? z + 10)) decimal_zeros)
    as [z|] eqn:E; [|discriminate].
  apply find_some in E. destruct E as [Hin Hp].
  apply andb_true_iff in Hp. destruct Hp as [H1 H2].
  apply N.leb_le in H1. apply N.ltb_lt in H2.
  intros H; inversion H; subst. exists z; auto.
Qed.

(** No run of decimal digits meets a white space character. *)
Lemma decimal_runs_clear_of_space :
  existsb (fun z =>
             existsb (fun r => (fst r <? z + 10) && (z <=? snd r))
                     whitespace_ranges)
          decimal_zeros = false.
Proof. vm_compute; reflexivity. Qed.

Lemma decimal_not_space (c d : N) :
  Py_UNICODE_TODECIMAL c = Some d -> Py_UNICODE_ISSPACE c = false.
Proof.
  intros H. apply todecimal_some in H. destruct H as (z & Hz & H1 & H2 & _).
  destruct (Py_UNICODE_ISSPACE c) eqn:E; [|reflexivity].
  unfold Py_UNICODE_ISSPACE in E. apply existsb_exists in E.
  destruct E as (r & Hr & Hin). unfold in_range in Hin.
  apply andb_true_iff in Hin. destruct Hin as [H3 H4].
  apply N.leb_le in H3. apply N.leb_le in H4.
  pose proof decimal_runs_clear_of_space as Hclear.
  assert (Hex : existsb (fun z =>
             existsb (fun r => (fst r <? z + 10) && (z <=? snd r))
                     whitespace_ranges) decimal_zeros = true).
  { apply existsb_exists. exists z. split; [exact Hz|].
    apply existsb_exists. exists r. split; [exact Hr|].
    apply andb_true_iff. split; [apply N.ltb_lt | apply N.leb_le]; lia. }
  rewrite Hex in Hclear; discriminate.
Qed.

(** The only run of decimal digits below 128 is that of the ASCII digits. *)
Lemma decimal_runs_ascii :
  forallb (fun z => (z =? 48) || (128 <=? z)) decimal_zeros = true.
Proof. vm_compute; reflexivity. Qed.

Lemma decimal_ascii (c d : N) :
  c < 128 -> Py_UNICODE_TODECIMAL c = Some d -> is_ascii_digit c = true.
Proof.
  intros Hc H. apply todecimal_some in H. destruct H as (z & Hz & H1 & H2 & _).
  pose proof decimal_runs_ascii as Hall.
  rewrite forallb_forall in Hall. specialize (Hall z Hz).
  apply orb_true_iff in Hall. destruct Hall as [Hall|Hall].
  - apply N.eqb_eq in Hall. subst z. unfold is_ascii_digit.
    apply andb_true_iff. split; apply N.leb_le; lia.
  - apply N.leb_le in Hall. lia.
Qed.

Lemma transform_loop_decimal (ds : pystr) :
  Forall decimal_digit ds ->
  Forall (fun c => is_ascii_digit c = true) (transform_loop ds) /\
  List.length (transform_loop ds) = List.length ds.
Proof.
  induction 1 as [|c ds [d Hd] Hds [IH1 IH2]]; cbn [transform_loop].
  - split; [constructor | reflexivity].
  - destruct (c <? 127) eqn:Hc.
    + apply N.ltb_lt in Hc. cbn [List.length].
      split; [|rewrite IH2; reflexivity].
      constructor; [|exact IH1]. apply (decimal_ascii c d); [lia | exact Hd].
    + rewrite (decimal_not_space c d Hd), Hd. cbn [List.length].
      split; [|rewrite IH2; reflexivity].
      constructor; [|exact IH1].
      apply todecimal_some in Hd. destruct Hd as (z & _ & H1 & H2 & ->).
      unfold is_ascii_digit. apply andb_true_iff.
      split; apply N.leb_le; lia.
Qed.

Lemma transform_decimal (ds : pystr) :
  Forall decimal_digit ds ->
  Forall (fun c => is_ascii_digit c = true) (transform_decimal_and_space ds) /\
  List.length (transform_decimal_and_space ds) = List.length ds.
Proof.
  intros H. unfold transform_decimal_and_space.
  destruct (forallb (fun c => c <? 128) ds) eqn:E;
    [|apply transform_loop_decimal; exact H].
  split; [|reflexivity].
  rewrite forallb_forall in E. rewrite Forall_forall in *.
  intros c Hc. destruct (H c Hc) as [d Hd].
  apply (decimal_ascii c d); [|exact Hd].
  apply N.ltb_lt, E, Hc.
Qed.

Lemma scan_digits_all (t : pystr) :
  Forall (fun c => is_ascii_digit c = true) t ->
  forall prev acc,
    (prev =? 95) = false ->
    scan_digits t prev acc = Some (acc ++ map (fun c => c - 48) t, []).
Proof.
  induction 1 as [|c t Hc Ht IH]; intros prev acc Hprev; simpl.
  - rewrite Hprev, app_nil_r; reflexivity.
  - rewrite Hc. rewrite IH.
    + rewrite <- app_assoc; reflexivity.
    + unfold is_ascii_digit in Hc. apply andb_true_iff in Hc.
      destruct Hc as [_ Hc]. apply N.leb_le in Hc. apply N.eqb_neq. lia.
Qed.

Lemma PyLong_FromString_digits (t : pystr) :
  t <> [] ->
  Forall (fun c => is_ascii_digit c = true) t ->
  exceeds_digit_limit (List.length t) = false ->
  exists n, PyLong_FromString t = Ok n.
Proof.
  intros Hne Hall Hlim. destruct t as [|c t]; [contradiction|].
  assert (Hc : 48 <= c <= 57).
  { inversion Hall as [|? ? Hc _]; subst. unfold is_ascii_digit in Hc.
    apply andb_true_iff in Hc. destruct Hc as [H1 H2].
    apply N.leb_le in H1. apply N.leb_le in H2. lia. }
  assert (Hspace : Py_ISSPACE c = false).
  { unfold Py_ISSPACE. apply orb_false_iff. split.
    - apply N.eqb_neq; lia.
    - apply andb_false_iff. right. apply N.leb_gt. lia. }
  unfold PyLong_FromString.
  assert (Hskip : skip_c_space (c :: t) = c :: t)
    by (cbn [skip_c_space]; rewrite Hspace; reflexivity).
  rewrite Hskip. cbn [starts_with].
  assert (H43 : (43 =? c) = false) by (apply N.eqb_neq; lia).
  assert (H45 : (45 =? c) = false) by (apply N.eqb_neq; lia).
  assert (H95 : (95 =? c) = false) by (apply N.eqb_neq; lia).
  rewrite H43, H45. cbn [andb orb starts_with]. rewrite H95. cbn [andb].
  rewrite (scan_digits_all (c :: t) Hall 0 []) by reflexivity.
  cbn [app map]. cbn [List.length] in *. rewrite length_map.
  rewrite Hlim. cbn [skip_c_space]. eexists; reflexivity.
Qed.

Lemma int_of_str_decimal (ds : pystr) :
  ds <> [] ->
  Forall decimal_digit ds ->
  exceeds_digit_limit (List.length ds) = false ->
  exists n, int_of_str ds = Ok n.
Proof.
  intros Hne Hall Hlim. unfold int_of_str.
  destruct (transform_decimal ds Hall) as [H1 H2].
  apply PyLong_FromString_digits.
  - intros E. rewrite E in H2. destruct ds; [contradiction | discriminate].
  - exact H1.
  - rewrite H2; exact Hlim.
Qed.

Lemma exceeds_digit_limit_le (m n : nat) :
  (m <= n)%nat ->
  exceeds_digit_limit n = false -> exceeds_digit_limit m = false.
Proof.
  unfold exceeds_digit_limit. intros Hle H.
  destruct (Nat.ltb_spec 640 m); [|reflexivity].
  destruct (Nat.ltb_spec 0 int_max_str_digits); [|reflexivity].
  destruct (Nat.ltb_spec int_max_str_digits m); [|reflexivity].
  destruct (Nat.ltb_spec 640 n); [|lia].
  destruct (Nat.ltb_spec int_max_str_digits n); [discriminate | lia].
Qed.

Lemma replace_from_deletes (old : pystr) (s : pystr) :
  forall skip,
    incl (replace_from old [] skip s) s /\
    (List.length (replace_from old [] skip s) <= List.length s)%nat.
Proof.
  induction s as [|c t IH]; intros skip; simpl.
  - split; [apply incl_refl | lia].
  - destruct skip as [|k].
    + destruct (starts_with old (c :: t)).
      * destruct (IH (List.length old - 1)%nat) as [H1 H2].
        split; [apply incl_tl; exact H1 | simpl; lia].
      * destruct (IH 0%nat) as [H1 H2].
        split; [apply incl_cons; [left; reflexivity | apply incl_tl; exact H1]
               | simpl; lia].
    + destruct (IH k) as [H1 H2].
      split; [apply incl_tl; exact H1 | lia].
Qed.

Lemma str_replace_deletes (s old : pystr) :
  incl (str_replace s old []) s /\
  (List.length (str_replace s old []) <= List.length s)%nat.
Proof. apply replace_from_deletes. Qed.

Lemma lstrip_deletes (s : pystr) :
  incl (lstrip s) s /\ (List.length (lstrip s) <= List.length s)%nat.
Proof.
  induction s as [|c t [IH1 IH2]]; simpl.
  - split; [apply incl_refl | lia].
  - destruct (Py_UNICODE_ISSPACE c).
    + split; [apply incl_tl; exact IH1 | lia].
    + split; [apply incl_refl | simpl; lia].
Qed.

Lemma str_strip_deletes (s : pystr) :
  incl (str_strip s) s /\ (List.length (str_strip s) <= List.length s)%nat.
Proof.
  unfold str_strip, rstrip.
  destruct (lstrip_deletes s) as [H1 H2].
  destruct (lstrip_deletes (rev (lstrip s))) as [H3 H4].
  rewrite length_rev in *. split; [|lia].
  intros c Hc. apply H1. apply in_rev. apply H3. apply in_rev in Hc. exact Hc.
Qed.

Lemma str_replace_shortens (x s old : pystr) :
  incl x s /\ (List.length x <= List.length s)%nat ->
  incl (str_replace x old []) s /\
  (List.length (str_replace x old []) <= List.length s)%nat.
Proof.
  intros [H1 H2]. destruct (str_replace_deletes x old) as [H3 H4].
  split; [eapply incl_tran; eassumption | lia].
Qed.

Lemma str_strip_shortens (x s : pystr) :
  incl x s /\ (List.length x <= List.length s)%nat ->
  incl (str_strip x) s /\ (List.length (str_strip x) <= List.length s)%nat.
Proof.
  intros [H1 H2]. destruct (str_strip_deletes x) as [H3 H4].
  split; [eapply incl_tran; eassumption | lia].
Qed.

(** [parse_number] returns, an integer or [None], on every string in which
    each character that [isdigit] accepts is a decimal digit - so on every
    ASCII string - and which is within the digit limit. *)
Lemma parse_number_returns_on_decimal_digits (s : pystr) :
  (forall c, In c s -> Py_UNICODE_ISDIGIT c = true -> decimal_digit c) ->
  exceeds_digit_limit (List.length s) = false ->
  exists r, parse_number (VStr s) = Ok r.
Proof.
  intros Hdec Hlim. unfold parse_number.
  destruct (negb (truthy (VStr s)) || eq_str (VStr s) NA);
    [eexists; reflexivity|].
  cbv zeta. unfold py_str.
  set (cleaned := str_strip _).
  assert (Hclean : incl cleaned s /\
                   (List.length cleaned <= List.length s)%nat).
  { subst cleaned. apply str_strip_shortens.
    repeat apply str_replace_shortens.
    split; [apply incl_refl | lia]. }
  destruct Hclean as [Hincl Hlen].
  destruct cleaned as [|c0 rest] eqn:Ecleaned; [eexists; reflexivity|].
  rewrite <- Ecleaned in *. clear Ecleaned c0 rest.
  destruct (int_of_str cleaned) as [n|e] eqn:E; simpl;
    [eexists; reflexivity|].
  apply int_of_str_raises_ValueError in E. subst e.
  destruct (filter Py_UNICODE_ISDIGIT cleaned) as [|c ds] eqn:Edigits;
    [eexists; reflexivity|].
  destruct (int_of_str_decimal (c :: ds)) as [n Hn].
  - discriminate.
  - rewrite <- Edigits. apply Forall_forall. intros x Hx.
    apply filter_In in Hx. destruct Hx as [Hx1 Hx2].
    apply Hdec; [apply Hincl, Hx1 | exact Hx2].
  - apply (exceeds_digit_limit_le _ (List.length s)); [|exact Hlim].
    rewrite <- Edigits.
    pose proof (filter_length_le Py_UNICODE_ISDIGIT cleaned). lia.
  - rewrite Hn. eexists; reflexivity.
Qed.

(** The other digits lie above the ASCII range. *)
Lemma other_digits_above_ascii :
  forallb (fun r => 128 <=? fst r) other_digit_ranges = true.
Proof. vm_compute; reflexivity. Qed.

Lemma ascii_digit_is_decimal (c : N) :
  c < 128 -> Py_UNICODE_ISDIGIT c = true -> decimal_digit c.
Proof.
  intros Hc. unfold Py_UNICODE_ISDIGIT, decimal_digit.
  destruct (Py_UNICODE_TODECIMAL c) as [d|]; [intros _; exists d; reflexivity|].
  intros H. apply existsb_exists in H. destruct H as (r & Hr & Hin).
  pose proof other_digits_above_ascii as Hall.
  rewrite forallb_forall in Hall. specialize (Hall r Hr).
  apply N.leb_le in Hall. unfold in_range in Hin.
  apply andb_true_iff in Hin. destruct Hin as [H1 _].
  apply N.leb_le in H1. lia.
Qed.

(** X1. In particular [parse_number] returns on every ASCII string of at most
    640 characters, whatever the digit limit. *)
Lemma parse_number_returns_on_ascii (s : pystr) :
  Forall (fun c => c < 128) s ->
  (List.length s <= 640)%nat ->
  exists r, parse_number (VStr s) = Ok r.
Proof.
  intros Hascii Hlen. apply parse_number_returns_on_decimal_digits.
  - intros c Hc. apply ascii_digit_is_decimal.
    rewrite Forall_forall in Hascii. apply Hascii, Hc.
  - unfold exceeds_digit_limit.
    destruct (Nat.ltb_spec 640 (List.length s)); [lia | reflexivity].
Qed.

(* ---------------------------------------------------------------- *)
(** *** [filter_listings] *)
(* ---------------------------------------------------------------- *)

(** The loop is a stable filter: it extends the accumulator with the
    listings [retains] keeps, in their order. *)
Lemma filter_loop_spec (listings : list dict) (criteria : dict) :
  forall filtered,
    filter_loop listings criteria filtered
    = Ok (filtered ++ filter (retains criteria) listings).
Proof.
  induction listings as [|item rest IH]; intros filtered; simpl.
  - rewrite app_nil_r; reflexivity.
  - unfold retains at 1.
    destruct (filter_item item criteria) as [[|]|e]; rewrite IH.
    + rewrite <- app_assoc; reflexivity.
    + reflexivity.
    + rewrite <- app_assoc; reflexivity.
Qed.

Lemma filter_listings_spec (listings : list dict) (criteria : dict) :
  filter_listings listings criteria
  = Ok (filter (retains criteria) listings).
Proof. unfold filter_listings; rewrite filter_loop_spec; reflexivity. Qed.

Lemma criterion_unset (criteria : dict) (key : pystr) :
  bound_set criteria key = false -> criterion criteria key = Ok None.
Proof. unfold bound_set, criterion; intros ->; reflexivity. Qed.

Lemma retains_no_bounds (criteria item : dict) :
  no_bounds criteria -> retains criteria item = true.
Proof.
  intros (Hy & Hm & Hp). unfold retains, filter_item.
  rewrite (criterion_unset _ _ Hy), (criterion_unset _ _ Hm),
    (criterion_unset _ _ Hp).
  destruct (parse_year item) as [y|e]; simpl; [|reflexivity].
  destruct (parse_number (dict_get item (lit "mileage") (VStr [])))
    as [m|e]; simpl; [|reflexivity].
  destruct (parse_number (dict_get item (lit "price") (VStr [])))
    as [pr|e]; simpl; reflexivity.
Qed.

Lemma filter_listings_all_retained (listings : list dict) (criteria : dict) :
  (forall item, retains criteria item = true) ->
  filter_listings listings criteria = Ok listings.
Proof.
  intros H. rewrite filter_listings_spec. f_equal.
  induction listings as [|item rest IH]; simpl; [reflexivity|].
  rewrite (H item), IH; reflexivity.
Qed.

(** C5. Identity law: with criteria in which no bound is set,
    [filter_listings] returns the input sequence unchanged. *)
Theorem filter_listings_identity (listings : list dict) (criteria : dict) :
  no_bounds criteria ->
  filter_listings listings criteria = Ok listings.
Proof.
  intros H. apply filter_listings_all_retained.
  intros item. apply retains_no_bounds, H.
Qed.

(** In particular for the empty criteria. *)
Lemma filter_listings_empty_criteria (listings : list dict) :
  filter_listings listings [] = Ok listings.
Proof.
  apply filter_listings_all_retained.
  intros item. apply retains_no_bounds. repeat split; reflexivity.
Qed.

Lemma filter_subseq {A : Type} (f : A -> bool) (l : list A) :
  subseq (filter f l) l.
Proof.
  induction l as [|a l IH]; simpl.
  - constructor.
  - destruct (f a); constructor; exact IH.
Qed.

Lemma subseq_length {A : Type} (l1 l2 : list A) :
  subseq l1 l2 -> (List.length l1 <= List.length l2)%nat.
Proof. induction 1; simpl; lia. Qed.

(** C6. The output of [filter_listings] is a subsequence of the input, in
    the input's order, and so is not longer than the input. *)
Theorem filter_listings_subsequence (listings : list dict) (criteria : dict) :
  exists out,
    filter_listings listings criteria = Ok out /\
    (List.length out <= List.length listings)%nat /\
    subseq out listings.
Proof.
  exists (filter (retains criteria) listings).
  split; [apply filter_listings_spec|].
  split; [apply subseq_length|]; apply filter_subseq.
Qed.

(** [filter_listings] never raises: whatever the mappings hold, each
    exception is caught for its listing, which is kept. *)
Lemma filter_listings_never_raises (listings : list dict) (criteria : dict) :
  exists out, filter_listings listings criteria = Ok out.
Proof. eexists; apply filter_listings_spec. Qed.

Lemma filter_listings_keeps_raising_item (item criteria : dict) (e : exn) :
  filter_item item criteria = Raise e ->
  filter_listings [item] criteria = Ok [item].
Proof.
  intros H. rewrite filter_listings_spec. simpl.
  unfold retains; rewrite H; reflexivity.
Qed.

(** A listing on which a parser raises is kept, whatever the criteria. *)
Lemma filter_keeps_listing_whose_mileage_raises (item criteria : dict) (e : exn) :
  parse_number (dict_get item (lit "mileage") (VStr [])) = Raise e ->
  filter_listings [item] criteria = Ok [item].
Proof.
  intros H. rewrite filter_listings_spec. simpl.
  unfold retains, filter_item. rewrite H.
  destruct (parse_year item); reflexivity.
Qed.

Lemma criterion_set_none (criteria : dict) (key : pystr) :
  criterion (dict_set criteria key VNone) key = Ok None.
Proof. unfold criterion; rewrite dict_get_set_same; reflexivity. Qed.

Lemma criterion_set_other (criteria : dict) (k k' : pystr) (v : pyval) :
  pystr_eqb k k' = false ->
  criterion (dict_set criteria k v) k' = criterion criteria k'.
Proof.
  intros H. unfold criterion, dict_item.
  rewrite (dict_get_set_other _ _ _ _ _ H).
  unfold dict_set; simpl; rewrite H; reflexivity.
Qed.

Lemma retains_singleton (criteria item : dict) :
  filter_listings [item] criteria
  = Ok (if retains criteria item then [item] else []).
Proof. rewrite filter_listings_spec; simpl; reflexivity. Qed.

Lemma kept_singleton (criteria item : dict) :
  filter_listings [item] criteria = Ok [item] <-> retains criteria item = true.
Proof.
  rewrite retains_singleton.
  destruct (retains criteria item); split; intros H;
    try reflexivity; discriminate.
Qed.

Lemma dropped_singleton (criteria item : dict) :
  filter_listings [item] criteria = Ok [] <-> retains criteria item = false.
Proof.
  rewrite retains_singleton.
  destruct (retains criteria item); split; intros H;
    try reflexivity; discriminate.
Qed.

(** The filter decides listing by listing: a listing of a sequence is in
    the output exactly when the filter keeps it on its own.  The properties
    of one listing are therefore stated on the sequence of that listing. *)
Lemma filter_listings_pointwise (listings : list dict) (criteria : dict) :
  exists out,
    filter_listings listings criteria = Ok out /\
    forall item,
      In item out <->
      In item listings /\ filter_listings [item] criteria = Ok [item].
Proof.
  exists (filter (retains criteria) listings).
  split; [apply filter_listings_spec|].
  intros item. rewrite filter_In, kept_singleton. reflexivity.
Qed.

Lemma unparsable_field_check_passes (item criteria : dict) (key : pystr) :
  key = lit "mileage" \/ key = lit "price" ->
  parse_number (dict_get item key (VStr [])) = Ok None ->
  filter_listings [item] (dict_set criteria key VNone) = Ok [item] ->
  filter_listings [item] criteria = Ok [item].
Proof.
  intros Hkey Hnone. rewrite !kept_singleton. unfold retains, filter_item.
  destruct (parse_year item) as [year|e]; simpl; [|reflexivity].
  destruct Hkey as [-> | ->]; rewrite Hnone; simpl.
  - destruct (parse_number (dict_get item (lit "price") (VStr [])))
      as [price|e]; simpl; [|reflexivity].
    rewrite ?criterion_set_none.
    rewrite !criterion_set_other by reflexivity.
    destruct (criterion criteria (lit "modelYear")) as [my|e]; simpl;
      [|reflexivity].
    destruct (match my with Some m => below_min year m | None => false end);
      [intros H; exact H|].
    destruct (criterion criteria (lit "mileage")) as [[mm|]|e]; simpl;
      auto.
  - destruct (parse_number (dict_get item (lit "mileage") (VStr [])))
      as [mileage|e]; simpl; [|reflexivity].
    rewrite ?criterion_set_none.
    rewrite !criterion_set_other by reflexivity.
    destruct (criterion criteria (lit "modelYear")) as [my|e]; simpl;
      [|reflexivity].
    destruct (match my with Some m => below_min year m | None => false end);
      [intros H; exact H|].
    destruct (criterion criteria (lit "mileage")) as [mm|e]; simpl;
      [|reflexivity].
    destruct (match mm with Some m => above_max mileage m | None => false end);
      [intros H; exact H|].
    destruct (criterion criteria (lit "price")) as [[mp|]|e]; simpl; auto.
Qed.

Lemma below_min_true (year : option Z) (m : Z) :
  below_min year m = true <->
  exists y, year = Some y /\ y <> 0%Z /\ (y < m)%Z.
Proof.
  unfold below_min; destruct year as [y|].
  - rewrite andb_true_iff, negb_true_iff, Z.eqb_neq, Z.ltb_lt.
    split.
    + intros [H1 H2]; exists y; auto.
    + intros (y' & Hy & H1 & H2); inversion Hy; subst; auto.
  - split; [discriminate | intros (y & Hy & _); discriminate].
Qed.

Lemma above_max_true (value : option Z) (m : Z) :
  above_max value m = true <-> exists v, value = Some v /\ (v > m)%Z.
Proof.
  unfold above_max; destruct value as [v|].
  - rewrite Z.gtb_gt. split.
    + intros H; exists v; auto.
    + intros (v' & Hv & H); inversion Hv; subst; auto.
  - split; [discriminate | intros (v & Hv & _); discriminate].
Qed.

Lemma bound_set_set_none (criteria : dict) (key k : pystr) :
  bound_set (dict_set criteria key VNone) k
  = if pystr_eqb key k then false else bound_set criteria k.
Proof.
  unfold bound_set, dict_get, dict_set; simpl.
  destruct (pystr_eqb key k); reflexivity.
Qed.

(** C1 (amended). Fail-open filtering: when the mileage (resp. price) of a
    listing is unparsable, the bound on that field does not exclude it.
    The listing is kept under every criteria under which it is kept once
    that bound is taken out; in particular it is kept when no other bound
    is set.  (Stated on the sequence of the one listing: by
    [filter_listings_pointwise] a listing of a longer sequence is in the
    output exactly when it is kept on its own.) *)
Theorem unparsable_field_bound_is_skipped (item criteria : dict) (key : pystr) :
  key = lit "mileage" \/ key = lit "price" ->
  parse_number (dict_get item key (VStr [])) = Ok None ->
  (filter_listings [item] (dict_set criteria key VNone) = Ok [item] ->
   filter_listings [item] criteria = Ok [item]) /\
  ((forall k, k <> key -> bound_set criteria k = false) ->
   filter_listings [item] criteria = Ok [item]).
Proof.
  intros Hkey Hnone.
  pose proof (unparsable_field_check_passes item criteria key Hkey Hnone) as H.
  split; [exact H|].
  intros Hothers. apply H. apply kept_singleton, retains_no_bounds.
  unfold no_bounds. rewrite !bound_set_set_none.
  destruct Hkey as [-> | ->]; simpl;
    repeat split; try reflexivity; apply Hothers; discriminate.
Qed.

(** C4 (amended). [filter_listings] excludes a listing exactly when its
    year, mileage and price are parsed without an exception and a bound
    that is set to a true value is strictly violated by the parsed value
    of its field (mileage or price above the maximum, a year other than 0
    below the minimum), the bounds checked before it (year, then mileage,
    then price) being unset or convertible to an integer.  (Stated on the
    sequence of the one listing, see [filter_listings_pointwise].) *)
Theorem filter_excludes_iff (item criteria : dict) :
  filter_listings [item] criteria = Ok [] <-> excluded_when item criteria.
Proof.
  rewrite dropped_singleton. unfold retains, filter_item, excluded_when,
    bound_converts.
  destruct (parse_year item) as [year|e]; simpl;
    [|split; [discriminate | intros (?&?&?&H&_); discriminate]].
  destruct (parse_number (dict_get item (lit "mileage") (VStr [])))
    as [mileage|e]; simpl;
    [|split; [discriminate | intros (?&?&?&_&H&_); discriminate]].
  destruct (parse_number (dict_get item (lit "price") (VStr [])))
    as [price|e]; simpl;
    [|split; [discriminate | intros (?&?&?&_&_&H&_); discriminate]].
  split.
  - intros H. exists year, mileage, price.
    repeat (split; [reflexivity|]).
    destruct (criterion criteria (lit "modelYear")) as [my|e]; simpl in H;
      [|discriminate].
    destruct (match my with Some m => below_min year m | None => false end)
      eqn:Hy.
    { left. destruct my as [m|]; [|discriminate].
      apply below_min_true in Hy. destruct Hy as (y & Hy1 & Hy2 & Hy3).
      exists m, y; auto. }
    destruct (criterion criteria (lit "mileage")) as [mm|e]; simpl in H;
      [|discriminate].
    destruct (match mm with Some m => above_max mileage m | None => false end)
      eqn:Hm.
    { right; left. split; [eexists; reflexivity|].
      destruct mm as [m|]; [|discriminate].
      apply above_max_true in Hm. destruct Hm as (v & Hv1 & Hv2).
      exists m, v; auto. }
    destruct (criterion criteria (lit "price")) as [mp|e]; simpl in H;
      [|discriminate].
    destruct (match mp with Some m => above_max price m | None => false end)
      eqn:Hp; [|discriminate].
    right; right.
    split; [eexists; reflexivity|]. split; [eexists; reflexivity|].
    destruct mp as [m|]; [|discriminate].
    apply above_max_true in Hp. destruct Hp as (v & Hv1 & Hv2).
    exists m, v; auto.
  - intros (year' & mileage' & price' & Hy & Hm & Hp & H).
    inversion Hy; inversion Hm; inversion Hp; subst year' mileage' price'.
    clear Hy Hm Hp.
    destruct H as [(m & y & Hc & Hyear & Hnz & Hlt)
                  | [((my & Hcy) & m & v & Hc & Hv & Hgt)
                    | ((my & Hcy) & (mm & Hcm) & m & v & Hc & Hv & Hgt)]].
    + rewrite Hc; simpl.
      assert (Hb : below_min year m = true)
        by (apply below_min_true; exists y; auto).
      rewrite Hb; reflexivity.
    + rewrite Hcy; simpl.
      destruct (match my with Some m0 => below_min year m0 | None => false end);
        [reflexivity|].
      rewrite Hc; simpl.
      assert (Hb : above_max mileage m = true)
        by (apply above_max_true; exists v; auto).
      rewrite Hb; reflexivity.
    + rewrite Hcy; simpl.
      destruct (match my with Some m0 => below_min year m0 | None => false end);
        [reflexivity|].
      rewrite Hcm; simpl.
      destruct (match mm with Some m0 => above_max mileage m0 | None => false end);
        [reflexivity|].
      rewrite Hc; simpl.
      assert (Hb : above_max price m = true)
        by (apply above_max_true; exists v; auto).
      rewrite Hb; reflexivity.
Qed.

Lemma parse_year_without_year (item : dict) :
  parse_year (dict_set item (lit "year") (VStr NA)) = Ok None.
Proof. reflexivity. Qed.

Lemma year_zero_same_as_no_year (item criteria : dict) :
  parse_year item = Ok (Some 0%Z) ->
  filter_item item criteria
  = filter_item (dict_set item (lit "year") (VStr NA)) criteria.
Proof.
  intros Hyear.
  unfold filter_item. rewrite parse_year_without_year, Hyear.
  rewrite !dict_get_set_other by reflexivity. simpl.
  destruct (parse_number (dict_get item (lit "mileage") (VStr [])))
    as [mileage|e]; simpl; [|reflexivity].
  destruct (parse_number (dict_get item (lit "price") (VStr [])))
    as [price|e]; simpl; [|reflexivity].
  destruct (criterion criteria (lit "modelYear")) as [[m|]|e]; simpl;
    reflexivity.
Qed.

Lemma year_zero_check_passes (item criteria : dict) :
  parse_year item = Ok (Some 0%Z) ->
  filter_listings [item] (dict_set criteria (lit "modelYear") VNone)
  = Ok [item] ->
  filter_listings [item] criteria = Ok [item].
Proof.
  intros Hyear.
  rewrite !kept_singleton. unfold retains, filter_item. rewrite Hyear.
  simpl.
  destruct (parse_number (dict_get item (lit "mileage") (VStr [])))
    as [mileage|e]; simpl; [|reflexivity].
  destruct (parse_number (dict_get item (lit "price") (VStr [])))
    as [price|e]; simpl; [|reflexivity].
  rewrite ?criterion_set_none.
  rewrite !criterion_set_other by reflexivity.
  destruct (criterion criteria (lit "modelYear")) as [[m|]|e]; simpl;
    auto.
Qed.

(** C10 (amended). A listing whose year parses to 0 is treated as having
    no year: the filter decides as it does for the same listing with the
    year "N/A", so the bound on the year never excludes it.  The listing is
    kept under every criteria under which it is kept once the bound on the
    year is taken out; in particular it is kept, whatever the bound on the
    year, when no bound on the mileage or the price is set.  (Stated on the
    sequence of the one listing, see [filter_listings_pointwise].) *)
Theorem year_zero_is_no_year (item criteria : dict) :
  parse_year item = Ok (Some 0%Z) ->
  filter_item item criteria
  = filter_item (dict_set item (lit "year") (VStr NA)) criteria
  /\ (filter_listings [item] (dict_set criteria (lit "modelYear") VNone)
      = Ok [item] ->
      filter_listings [item] criteria = Ok [item])
  /\ (bound_set criteria (lit "mileage") = false ->
      bound_set criteria (lit "price") = false ->
      filter_listings [item] criteria = Ok [item]).
Proof.
  intros Hyear.
  split; [apply year_zero_same_as_no_year, Hyear|].
  split; [apply year_zero_check_passes, Hyear|].
  intros Hm Hp. apply (year_zero_check_passes _ _ Hyear).
  apply kept_singleton, retains_no_bounds.
  unfold no_bounds. rewrite !bound_set_set_none. simpl. auto.
Qed.

(* ---------------------------------------------------------------- *)
(** *** The records built from a scraped item *)
(* ---------------------------------------------------------------- *)

(** A string is kept as it is. *)
Lemma str_or_na_str (s : pystr) : str_or_na (VStr s) = VStr s.
Proof.
  unfold str_or_na; simpl.
  destruct (pystr_eqb s NA) eqn:E; simpl; [|reflexivity].
  apply pystr_eqb_eq in E; rewrite E; reflexivity.
Qed.

Lemma str_or_na_is_str (v : pyval) : exists s, str_or_na v = VStr s.
Proof. unfold str_or_na; destruct (negb (eq_str v NA)); eexists; reflexivity. Qed.

Lemma extract_price_dict (item d : dict) :
  dict_lookup item (lit "price") = Some (VDict d) ->
  extract_price item = dict_get d (lit "amount") (VStr NA).
Proof. intros H; unfold extract_price; rewrite (dict_get_present _ _ _ _ H); reflexivity. Qed.

Lemma extract_price_other (item : dict) (p : pyval) :
  dict_lookup item (lit "price") = Some p -> is_dict p = false ->
  extract_price item = p.
Proof.
  intros H Hd; unfold extract_price; rewrite (dict_get_present _ _ _ _ H).
  destruct p; try reflexivity; discriminate.
Qed.

Lemma extract_price_absent (item : dict) :
  dict_lookup item (lit "price") = None -> extract_price item = VStr NA.
Proof. intros H; unfold extract_price; rewrite (dict_get_absent _ _ _ H); reflexivity. Qed.

(** A [properties] entry that is not a mapping makes both constructions
    raise. *)
Lemma normalisation_raises (item : dict) (url : pyval) :
  is_dict (dict_get item (lit "properties") (VDict [])) = false ->
  get_vehicle_details_record item url = Raise AttributeError /\
  search_listing item = Raise AttributeError.
Proof.
  intros H. unfold get_vehicle_details_record, search_listing.
  destruct (dict_get item (lit "properties") (VDict []));
    try discriminate; split; reflexivity.
Qed.

(** C7 (amended). Extraction precedence.  For a raw record whose
    [properties] entry is absent or a mapping (the records both
    constructions accept; on any other they raise), in the
    record of [get_vehicle_details] and in the listing of [search], the
    price is the [amount] of the price field when that field is a mapping,
    and the price field itself otherwise; a mileage (resp. first
    registration) held by the nested properties is taken, whatever the
    top-level mileage (resp. year) is, which is only read by
    [get_vehicle_details] when the properties do not hold one.  The value
    taken is shown as text ([str_or_na]); a string is kept as it is. *)
Theorem extraction_precedence (item : dict) (url : pyval) (props : dict) :
  dict_get item (lit "properties") (VDict []) = VDict props ->
  exists details listing,
    get_vehicle_details_record item url = Ok details /\
    search_listing item = Ok listing /\
    (forall d, dict_lookup item (lit "price") = Some (VDict d) ->
       let amount := str_or_na (dict_get d (lit "amount") (VStr NA)) in
       dict_lookup details (lit "price") = Some amount /\
       dict_lookup listing (lit "price") = Some amount) /\
    (forall p, dict_lookup item (lit "price") = Some p -> is_dict p = false ->
       dict_lookup details (lit "price") = Some (str_or_na p) /\
       dict_lookup listing (lit "price") = Some (str_or_na p)) /\
    (forall m, dict_lookup props (lit "milage") = Some m ->
       dict_lookup details (lit "mileage") = Some (str_or_na m) /\
       dict_lookup listing (lit "mileage") = Some (str_or_na m)) /\
    (forall y, dict_lookup props (lit "firstRegistration") = Some y ->
       dict_lookup details (lit "year") = Some (str_or_na y) /\
       dict_lookup listing (lit "year") = Some (str_or_na y)) /\
    (dict_lookup props (lit "milage") = None ->
       dict_lookup details (lit "mileage")
       = Some (str_or_na (dict_get item (lit "mileage") (VStr NA)))) /\
    (dict_lookup props (lit "firstRegistration") = None ->
       dict_lookup details (lit "year")
       = Some (str_or_na (dict_get item (lit "year") (VStr NA)))) /\
    (forall s, str_or_na (VStr s) = VStr s).
Proof.
  intros Hprops. unfold get_vehicle_details_record, search_listing.
  rewrite Hprops; simpl.
  do 2 eexists. split; [reflexivity|]. split; [reflexivity|].
  split; [intros d H; simpl; rewrite (extract_price_dict _ _ H);
          split; reflexivity|].
  split; [intros p H Hd; simpl; rewrite (extract_price_other _ _ H Hd);
          split; reflexivity|].
  split; [intros m H; simpl;
          pose proof (fun default => dict_get_present props _ _ default H) as E;
          rewrite !E; split; reflexivity|].
  split; [intros y H; simpl;
          pose proof (fun default => dict_get_present props _ _ default H) as E;
          rewrite !E; split; reflexivity|].
  split; [intros H; simpl; rewrite (dict_get_absent _ _ _ H); reflexivity|].
  split; [intros H; simpl; rewrite (dict_get_absent _ _ _ H); reflexivity|].
  apply str_or_na_str.
Qed.

(** C3 (amended). On a mapping whose [properties] entry is absent or a
    mapping, both constructions return a record.  The record of
    [get_vehicle_details] has the nine fields; its price, mileage and year
    are strings; title, price, mileage, year, fuel, transmission and power
    are "N/A" when the source record holds none, the url is then the URL
    of the request and the properties the empty mapping.  The listing of
    [search] has the five fields title, price, mileage, year and url, with
    "N/A" for a missing price, mileage or year, the name or "Vehicle" for
    a missing title and the link or the empty string for a missing url. *)
Theorem normalisation_populates_fields (item : dict) (url : pyval)
        (props : dict) :
  dict_get item (lit "properties") (VDict []) = VDict props ->
  exists details listing,
    get_vehicle_details_record item url = Ok details /\
    search_listing item = Ok listing /\
    map fst details
    = [lit "title"; lit "price"; lit "url"; lit "mileage"; lit "year";
       lit "fuel"; lit "transmission"; lit "power"; lit "properties"] /\
    map fst listing
    = [lit "title"; lit "price"; lit "mileage"; lit "year"; lit "url"] /\
    (forall f, In f [lit "price"; lit "mileage"; lit "year"] ->
       exists s s', dict_lookup details f = Some (VStr s) /\
                    dict_lookup listing f = Some (VStr s')) /\
    (forall f, In f [lit "title"; lit "fuel"; lit "transmission";
                     lit "power"] ->
       dict_lookup item f = None ->
       dict_lookup details f = Some (VStr NA)) /\
    (dict_lookup item (lit "price") = None ->
       dict_lookup details (lit "price") = Some (VStr NA) /\
       dict_lookup listing (lit "price") = Some (VStr NA)) /\
    (dict_lookup props (lit "milage") = None ->
       dict_lookup listing (lit "mileage") = Some (VStr NA) /\
       (dict_lookup item (lit "mileage") = None ->
        dict_lookup details (lit "mileage") = Some (VStr NA))) /\
    (dict_lookup props (lit "firstRegistration") = None ->
       dict_lookup listing (lit "year") = Some (VStr NA) /\
       (dict_lookup item (lit "year") = None ->
        dict_lookup details (lit "year") = Some (VStr NA))) /\
    (dict_lookup item (lit "url") = None ->
       dict_lookup details (lit "url") = Some url /\
       dict_lookup listing (lit "url")
       = Some (dict_get item (lit "link") (VStr []))) /\
    (dict_lookup item (lit "properties") = None ->
       dict_lookup details (lit "properties") = Some (VDict [])) /\
    (dict_lookup item (lit "title") = None ->
       dict_lookup listing (lit "title")
       = Some (dict_get item (lit "name") (VStr (lit "Vehicle")))).
Proof.
  intros Hprops. unfold get_vehicle_details_record, search_listing.
  rewrite Hprops; simpl.
  do 2 eexists. split; [reflexivity|]. split; [reflexivity|].
  split; [reflexivity|]. split; [reflexivity|].
  split.
  { intros f [<-|[<-|[<-|[]]]]; simpl;
      repeat match goal with
             | |- context [str_or_na ?v] =>
                 destruct (str_or_na_is_str v) as [? ->]
             end;
      do 2 eexists; split; reflexivity. }
  split.
  { intros f [<-|[<-|[<-|[<-|[]]]]] H; simpl;
      rewrite (dict_get_absent _ _ _ H); reflexivity. }
  split.
  { intros H; simpl; rewrite (extract_price_absent _ H); split; reflexivity. }
  split.
  { intros H; simpl.
    pose proof (fun default => dict_get_absent props _ default H) as E.
    rewrite !E. split; [reflexivity|].
    intros H'; rewrite (dict_get_absent _ _ _ H'); reflexivity. }
  split.
  { intros H; simpl.
    pose proof (fun default => dict_get_absent props _ default H) as E.
    rewrite !E. split; [reflexivity|].
    intros H'; rewrite (dict_get_absent _ _ _ H'); reflexivity. }
  split.
  { intros H; simpl; rewrite !(dict_get_absent _ (lit "url") _ H).
    split; reflexivity. }
  split.
  { intros H; simpl. rewrite (dict_get_absent _ _ _ H) in Hprops.
    inversion Hprops; reflexivity. }
  intros H; simpl; rewrite (dict_get_absent _ (lit "title") _ H); reflexivity.
Qed.

(* ---------------------------------------------------------------- *)
(** *** Saving a vehicle by URL *)
(* ---------------------------------------------------------------- *)

Lemma url_is_true (t : pystr) (r : vehicle_row) :
  url_is t r = true <-> row_url r = Some t.
Proof.
  unfold url_is; destruct (row_url r) as [t'|].
  - rewrite pystr_eqb_eq; split; [intros ->; reflexivity|].
    intros H; inversion H; reflexivity.
  - split; discriminate.
Qed.

Lemma stored_url_of_row (rows : list vehicle_row) (r : vehicle_row)
      (t : pystr) (e : db_engine) (n : Z) :
  In r rows -> row_url r = Some t ->
  In t (stored_urls {| engine := e; vehicles := rows; next_id := n |}).
Proof.
  intros Hin Hurl. unfold stored_urls; simpl.
  apply in_flat_map. exists r. split; [exact Hin|].
  rewrite Hurl; left; reflexivity.
Qed.

Lemma existsb_url_is (t : pystr) (db : database) :
  existsb (url_is t) (vehicles db) = true <-> In t (stored_urls db).
Proof.
  unfold stored_urls. rewrite existsb_exists, in_flat_map.
  split; intros (r & Hin & H); exists r; (split; [exact Hin|]).
  - apply url_is_true in H; rewrite H; left; reflexivity.
  - apply url_is_true. destruct (row_url r) as [t'|]; simpl in H.
    + destruct H as [<-|[]]; reflexivity.
    + destruct H.
Qed.

(** Under the UNIQUE constraint the SELECT finds the one row of a URL. *)
Lemma find_unique_url (rows : list vehicle_row) (r : vehicle_row)
      (t : pystr) :
  NoDup (flat_map (fun r => match row_url r with
                            | Some t => [t]
                            | None => []
                            end) rows) ->
  In r rows -> row_url r = Some t ->
  find (url_is t) rows = Some r.
Proof.
  induction rows as [|a rest IH]; intros Hnd Hin Hurl; [destruct Hin|].
  simpl in *. destruct (url_is t a) eqn:Ha.
  - apply url_is_true in Ha. rewrite Ha in Hnd. simpl in Hnd.
    destruct Hin as [->|Hin]; [reflexivity|].
    exfalso. inversion Hnd as [|? ? Hnotin _]; subst. apply Hnotin.
    apply in_flat_map. exists r. split; [exact Hin|].
    rewrite Hurl; left; reflexivity.
  - destruct Hin as [->|Hin].
    + apply url_is_true in Hurl. rewrite Hurl in Ha; discriminate.
    + apply IH; auto.
      apply NoDup_app_remove_l in Hnd; exact Hnd.
Qed.

Lemma insert_vehicle_unique (db db' : database) (title url : pyval)
      (others : list pyval) (r : result Z) :
  unique_urls db ->
  insert_vehicle db title url others = (r, db') ->
  unique_urls db'.
Proof.
  intros Hu. unfold insert_vehicle.
  destruct (sql_bind title) as [t|e]; simpl;
    [|intros H; inversion H; subst; exact Hu].
  destruct (sql_bind url) as [u|e]; simpl;
    [|intros H; inversion H; subst; exact Hu].
  destruct (bind_all others) as [cs|e]; simpl;
    [|intros H; inversion H; subst; exact Hu].
  destruct (match t with None => true | Some _ => false end
            || match u with
               | Some x => existsb (url_is x) (vehicles db)
               | None => false
               end) eqn:Hc; intros H; inversion H; subst; clear H.
  - unfold failed_insert, unique_urls, stored_urls in *.
    destruct (engine db); simpl; exact Hu.
  - apply orb_false_iff in Hc. destruct Hc as [_ Hc].
    unfold unique_urls, stored_urls in *. simpl.
    rewrite flat_map_app. simpl. rewrite app_nil_r.
    destruct u as [x|]; [|rewrite app_nil_r; exact Hu].
    apply NoDup_app; [exact Hu | repeat constructor; intros [] | ].
    intros y Hy [<-|[]].
    assert (Hx : existsb (url_is x) (vehicles db) = true)
      by (apply existsb_url_is; exact Hy).
    rewrite Hx in Hc; discriminate.
Qed.

Lemma save_vehicle_body_unique (db db' : database) (vehicle_data : dict)
      (r : result Z) :
  unique_urls db ->
  save_vehicle_body db vehicle_data = (r, db') ->
  unique_urls db'.
Proof.
  intros Hu. unfold save_vehicle_body.
  destruct (if truthy (dict_get vehicle_data (lit "url") (VStr []))
            then select_id_by_url db
                   (dict_get vehicle_data (lit "url") (VStr []))
            else Ok None) as [[existing|]|e].
  - intros H; inversion H; subst; exact Hu.
  - apply insert_vehicle_unique; exact Hu.
  - intros H; inversion H; subst; exact Hu.
Qed.

Lemma save_vehicle_preserves_unique (db : database) (vehicle_data : dict) :
  unique_urls db -> unique_urls (snd (save_vehicle_to_db db vehicle_data)).
Proof.
  intros Hu. unfold save_vehicle_to_db.
  destruct (save_vehicle_body db vehicle_data) as [r db'] eqn:E.
  apply (save_vehicle_body_unique _ _ _ _ Hu) in E.
  destruct r; exact E.
Qed.

(** Starting from the empty table, no sequence of calls of
    [save_vehicle_to_db] stores a URL twice. *)
Lemma save_all_unique (db : database) (records : list dict) :
  unique_urls db -> unique_urls (save_all db records).
Proof.
  revert db; induction records as [|vd rest IH]; intros db Hu; simpl.
  - exact Hu.
  - apply IH, save_vehicle_preserves_unique, Hu.
Qed.

Lemma empty_database_unique (e : db_engine) : unique_urls (empty_database e).
Proof. constructor. Qed.

(** C9 (amended). Upsert by URL.  For a vehicle record whose URL is a
    non-empty string that a row of the table holds already,
    [save_vehicle_to_db] returns the id of that row and leaves the table
    as it is; and whatever the record, the call leaves the table without
    two rows of the same URL, so that no sequence of calls from the empty
    table stores a URL twice. *)
Theorem save_vehicle_upsert_by_url (db : database) (vehicle_data : dict) :
  unique_urls db ->
  (forall (url : pystr) (r : vehicle_row),
      dict_get vehicle_data (lit "url") (VStr []) = VStr url ->
      url <> [] ->
      In r (vehicles db) -> row_url r = Some url ->
      save_vehicle_to_db db vehicle_data = (Some (row_id r), db)) /\
  unique_urls (snd (save_vehicle_to_db db vehicle_data)) /\
  (forall (e : db_engine) (records : list dict),
      unique_urls (save_all (empty_database e) records)).
Proof.
  intros Hu. split; [|split].
  - intros url r Hget Hne Hin Hurl.
    unfold save_vehicle_to_db, save_vehicle_body. rewrite Hget.
    destruct url as [|c url]; [contradiction|]. simpl.
    rewrite (find_unique_url _ r (c :: url) Hu Hin Hurl). reflexivity.
  - apply save_vehicle_preserves_unique; exact Hu.
  - intros e records. apply save_all_unique, empty_database_unique.
Qed.

(* ---------------------------------------------------------------- *)
(** *** [parse_number] on formatted numbers *)
(* ---------------------------------------------------------------- *)

Lemma parse_number_cleaned (s : pystr) :
  parse_number (VStr s)
  = if negb (truthy (VStr s)) || eq_str (VStr s) NA then Ok None
    else try_except_ValueError
           (match cleaned_number s with
            | [] => Ok None
            | _ :: _ => n <- int_of_str (cleaned_number s) ;; Ok (Some n)
            end)
           (let digits := filter Py_UNICODE_ISDIGIT (cleaned_number s) in
            match digits with
            | [] => Ok None
            | _ :: _ => n <- int_of_str digits ;; Ok (Some n)
            end).
Proof. reflexivity. Qed.

Lemma ascii_digit_cases (c : N) :
  is_ascii_digit c = true ->
  c = 48 \/ c = 49 \/ c = 50 \/ c = 51 \/ c = 52 \/
  c = 53 \/ c = 54 \/ c = 55 \/ c = 56 \/ c = 57.
Proof.
  unfold is_ascii_digit. intros H. apply andb_true_iff in H.
  destruct H as [H1 H2]. apply N.leb_le in H1. apply N.leb_le in H2. lia.
Qed.

Lemma separator_cases (c : N) :
  is_separator c = true ->
  c = 46 \/ c = 44 \/ c = 32 \/ c = 160 \/ c = 8364.
Proof.
  unfold is_separator. intros H.
  repeat (apply orb_true_iff in H; destruct H as [H|H]);
    apply N.eqb_eq in H; auto.
Qed.

Lemma formatted_cases (c : N) :
  is_ascii_digit c = true \/ is_separator c = true ->
  c = 48 \/ c = 49 \/ c = 50 \/ c = 51 \/ c = 52 \/
  c = 53 \/ c = 54 \/ c = 55 \/ c = 56 \/ c = 57 \/
  c = 46 \/ c = 44 \/ c = 32 \/ c = 160 \/ c = 8364.
Proof.
  intros [H|H].
  - apply ascii_digit_cases in H. tauto.
  - apply separator_cases in H. tauto.
Qed.

Lemma replace_from_single (c : N) (s : pystr) :
  str_replace s [c] [] = filter (fun x => negb (c =? x)) s.
Proof.
  unfold str_replace. induction s as [|x t IH]; [reflexivity|].
  cbn [replace_from starts_with filter List.length Nat.sub app].
  rewrite andb_true_r. destruct (c =? x); cbn [negb]; rewrite IH; reflexivity.
Qed.

(** A word whose first character does not occur is not found. *)
Lemma replace_from_app_absent (h : N) (old new s rest : pystr) :
  Forall (fun x => (h =? x) = false) s ->
  replace_from (h :: old) new 0 (s ++ rest)
  = s ++ replace_from (h :: old) new 0 rest.
Proof.
  induction 1 as [|x t Hx Ht IH]; [reflexivity|].
  cbn [app replace_from starts_with]. rewrite Hx. cbn [andb].
  rewrite IH. reflexivity.
Qed.

Lemma replace_from_absent (h : N) (old new s : pystr) :
  Forall (fun x => (h =? x) = false) s ->
  replace_from (h :: old) new 0 s = s.
Proof.
  intros H. rewrite <- (app_nil_r s) at 1.
  rewrite (replace_from_app_absent h old new s [] H).
  cbn [replace_from]. apply app_nil_r.
Qed.

Lemma str_replace_absent (h : N) (old new s : pystr) :
  Forall (fun x => (h =? x) = false) s ->
  str_replace s (h :: old) new = s.
Proof. apply replace_from_absent. Qed.

Lemma formatted_without (h : N) (s : pystr) :
  formatted_number s ->
  is_ascii_digit h = false -> is_separator h = false ->
  Forall (fun x => (h =? x) = false) s.
Proof.
  intros Hs Hd Hp. unfold formatted_number in Hs.
  rewrite Forall_forall in *. intros x Hx.
  destruct (h =? x) eqn:E; [|reflexivity].
  apply N.eqb_eq in E. subst x.
  destruct (Hs h Hx) as [H|H]; congruence.
Qed.

Lemma formatted_filter (f : N -> bool) (s : pystr) :
  formatted_number s -> formatted_number (filter f s).
Proof.
  unfold formatted_number. rewrite !Forall_forall.
  intros H x Hx. apply filter_In in Hx. apply H, Hx.
Qed.

Lemma formatted_app (s1 s2 : pystr) :
  formatted_number s1 -> formatted_number s2 -> formatted_number (s1 ++ s2).
Proof. intros H1 H2. apply Forall_app. split; assumption. Qed.

(** The unit words are deleted where they stand. *)
Lemma unit_word_deleted (s1 u s2 : pystr) :
  formatted_number s1 -> formatted_number s2 ->
  u = [] \/ unit_word u ->
  str_replace
    (str_replace (str_replace (s1 ++ u ++ s2) (lit "km") []) EURO_SIGN [])
    (lit "EUR") []
  = filter (fun x => negb (8364 =? x)) (s1 ++ s2).
Proof.
  intros H1 H2 Hu.
  pose proof (formatted_without 107 s1 H1 eq_refl eq_refl) as Hk1.
  pose proof (formatted_without 107 s2 H2 eq_refl eq_refl) as Hk2.
  pose proof (formatted_without 69 _ (formatted_filter
                (fun x => negb (8364 =? x)) s1 H1) eq_refl eq_refl) as HE1.
  pose proof (formatted_without 69 _ (formatted_filter
                (fun x => negb (8364 =? x)) s2 H2) eq_refl eq_refl) as HE2.
  unfold EURO_SIGN.
  destruct Hu as [-> | [-> | ->]];
    change (lit "km") with [107; 109]; change (lit "EUR") with [69; 85; 82].
  - cbn [app].
    rewrite (str_replace_absent 107 _ _ (s1 ++ s2))
      by (apply Forall_app; split; assumption).
    rewrite replace_from_single.
    rewrite (str_replace_absent 69); [reflexivity|].
    rewrite filter_app. apply Forall_app; split; assumption.
  - unfold str_replace at 3.
    rewrite (replace_from_app_absent 107 [109] [] s1 _ Hk1).
    cbn [app replace_from starts_with N.eqb Pos.eqb andb List.length Nat.sub].
    rewrite (replace_from_absent 107 _ _ s2 Hk2).
    rewrite replace_from_single.
    rewrite (str_replace_absent 69); [reflexivity|].
    rewrite filter_app. apply Forall_app; split; assumption.
  - rewrite (str_replace_absent 107 _ _ (s1 ++ [69; 85; 82] ++ s2)).
    2: { apply Forall_app; split; [assumption|].
         apply Forall_app; split; [repeat constructor | assumption]. }
    rewrite replace_from_single.
    rewrite !filter_app.
    cbn [filter N.eqb Pos.eqb negb app].
    unfold str_replace.
    rewrite (replace_from_app_absent 69 [85; 82] [] _ _ HE1).
    cbn [app replace_from starts_with N.eqb Pos.eqb andb List.length Nat.sub].
    rewrite (replace_from_absent 69 _ _ _ HE2). reflexivity.
Qed.

Lemma separators_deleted (s : pystr) :
  formatted_number s ->
  str_replace
    (str_replace
       (str_replace
          (str_replace
             (str_replace (filter (fun x => negb (8364 =? x)) s)
                          (lit " ") []) NBSP []) NBSP [])
       (lit ",") []) (lit ".") []
  = filter is_ascii_digit s.
Proof.
  intros H. unfold NBSP. change (lit " ") with [32].
  change (lit ",") with [44]. change (lit ".") with [46].
  rewrite !replace_from_single.
  induction H as [|c t Hc Ht IH]; [reflexivity|].
  apply formatted_cases in Hc.
  repeat (destruct Hc as [Hc|Hc];
          [subst c; cbn; first [exact IH | f_equal; exact IH]|]).
  subst c; cbn; exact IH.
Qed.

Lemma ascii_digit_not_space (c : N) :
  is_ascii_digit c = true -> Py_UNICODE_ISSPACE c = false.
Proof.
  intros H. apply ascii_digit_cases in H.
  repeat (destruct H as [H|H]; [subst c; reflexivity|]).
  subst c; reflexivity.
Qed.

Lemma lstrip_digits (ds : pystr) :
  Forall (fun c => is_ascii_digit c = true) ds -> lstrip ds = ds.
Proof.
  intros H. destruct H as [|c t Hc Ht]; [reflexivity|].
  cbn [lstrip]. rewrite (ascii_digit_not_space c Hc). reflexivity.
Qed.

Lemma str_strip_digits (ds : pystr) :
  Forall (fun c => is_ascii_digit c = true) ds -> str_strip ds = ds.
Proof.
  intros H. unfold str_strip, rstrip.
  rewrite (lstrip_digits ds H).
  rewrite (lstrip_digits (rev ds)) by (apply Forall_rev; exact H).
  apply rev_involutive.
Qed.

Lemma filter_digits_all (s : pystr) :
  Forall (fun c => is_ascii_digit c = true) (filter is_ascii_digit s).
Proof.
  apply Forall_forall. intros c Hc. apply filter_In in Hc. apply Hc.
Qed.

Lemma cleaned_formatted (s1 u s2 : pystr) :
  formatted_number s1 -> formatted_number s2 ->
  u = [] \/ unit_word u ->
  cleaned_number (s1 ++ u ++ s2) = filter is_ascii_digit (s1 ++ s2).
Proof.
  intros H1 H2 Hu. unfold cleaned_number. cbv zeta.
  rewrite (unit_word_deleted s1 u s2 H1 H2 Hu).
  rewrite (separators_deleted (s1 ++ s2) (formatted_app _ _ H1 H2)).
  apply str_strip_digits, filter_digits_all.
Qed.

(** [int()] on ASCII digits is the number they write. *)
Lemma int_of_str_digits (ds : pystr) :
  ds <> [] ->
  Forall (fun c => is_ascii_digit c = true) ds ->
  exceeds_digit_limit (List.length ds) = false ->
  int_of_str ds = Ok (Z.of_N (digits_value (map (fun c => c - 48) ds))).
Proof.
  intros Hne Hall Hlim. unfold int_of_str, transform_decimal_and_space.
  assert (Hascii : forallb (fun c => c <? 128) ds = true).
  { apply forallb_forall. intros c Hc. rewrite Forall_forall in Hall.
    specialize (Hall c Hc). apply ascii_digit_cases in Hall.
    apply N.ltb_lt. lia. }
  rewrite Hascii. destruct ds as [|c t]; [contradiction|].
  assert (Hc : 48 <= c <= 57).
  { inversion Hall as [|? ? Hc _]; subst. apply ascii_digit_cases in Hc. lia. }
  assert (Hspace : Py_ISSPACE c = false).
  { unfold Py_ISSPACE. apply orb_false_iff. split.
    - apply N.eqb_neq; lia.
    - apply andb_false_iff. right. apply N.leb_gt. lia. }
  unfold PyLong_FromString.
  assert (Hskip : skip_c_space (c :: t) = c :: t)
    by (cbn [skip_c_space]; rewrite Hspace; reflexivity).
  rewrite Hskip. cbn [starts_with].
  assert (H43 : (43 =? c) = false) by (apply N.eqb_neq; lia).
  assert (H45 : (45 =? c) = false) by (apply N.eqb_neq; lia).
  assert (H95 : (95 =? c) = false) by (apply N.eqb_neq; lia).
  rewrite H43, H45. cbn [andb orb starts_with]. rewrite H95. cbn [andb].
  rewrite (scan_digits_all (c :: t) Hall 0 []) by reflexivity.
  cbn [app map]. cbn [List.length] in *. rewrite length_map.
  rewrite Hlim. cbn [skip_c_space]. reflexivity.
Qed.

Lemma formatted_not_na (s1 u s2 : pystr) :
  formatted_number s1 -> formatted_number s2 ->
  u = [] \/ unit_word u ->
  pystr_eqb (s1 ++ u ++ s2) NA = false.
Proof.
  intros H1 H2 Hu. destruct (pystr_eqb (s1 ++ u ++ s2) NA) eqn:E;
    [|reflexivity].
  apply pystr_eqb_eq in E. exfalso.
  assert (Hin : In 78 (s1 ++ u ++ s2)) by (rewrite E; left; reflexivity).
  unfold formatted_number in *. rewrite Forall_forall in *.
  apply in_app_or in Hin. destruct Hin as [Hin|Hin].
  - destruct (H1 _ Hin) as [H|H]; discriminate.
  - apply in_app_or in Hin. destruct Hin as [Hin|Hin].
    + destruct Hu as [-> | [-> | ->]]; simpl in Hin;
        repeat (destruct Hin as [Hin|Hin]; [discriminate|]); destruct Hin.
    + destruct (H2 _ Hin) as [H|H]; discriminate.
Qed.

Lemma digits_of_unit (s1 u s2 : pystr) :
  u = [] \/ unit_word u ->
  filter is_ascii_digit (s1 ++ u ++ s2) = filter is_ascii_digit (s1 ++ s2).
Proof.
  intros Hu. rewrite !filter_app.
  destruct Hu as [-> | [-> | ->]]; reflexivity.
Qed.

(** X2. [parse_number] reads a formatted number: on a string of ASCII digits
    and separators (dot, comma, blank, non-breaking space, euro sign), with
    one unit word "km" or "EUR" anywhere or none, it returns the number the
    digits write, and [None] when there is no digit - provided the digits
    are within the interpreter's limit. *)
Theorem parse_number_reads_formatted_number (s1 u s2 : pystr) :
  formatted_number s1 -> formatted_number s2 ->
  u = [] \/ unit_word u ->
  exceeds_digit_limit
    (List.length (filter is_ascii_digit (s1 ++ u ++ s2))) = false ->
  parse_number (VStr (s1 ++ u ++ s2)) = Ok (written_number (s1 ++ u ++ s2)).
Proof.
  intros H1 H2 Hu Hlim. rewrite parse_number_cleaned.
  unfold written_number.
  rewrite (cleaned_formatted s1 u s2 H1 H2 Hu).
  rewrite (digits_of_unit s1 u s2 Hu) in *.
  cbn [eq_str]. rewrite (formatted_not_na s1 u s2 H1 H2 Hu).
  rewrite orb_false_r.
  destruct (filter is_ascii_digit (s1 ++ s2)) as [|c ds] eqn:Eds.
  - destruct (negb (truthy (VStr (s1 ++ u ++ s2)))); reflexivity.
  - assert (Hne : truthy (VStr (s1 ++ u ++ s2)) = true).
    { cbn [truthy]. destruct (s1 ++ u ++ s2) eqn:E; [|reflexivity].
      apply app_eq_nil in E. destruct E as [-> E].
      apply app_eq_nil in E. destruct E as [_ ->]. discriminate. }
    rewrite Hne. cbn [negb].
    rewrite int_of_str_digits.
    + reflexivity.
    + discriminate.
    + rewrite <- Eds. apply filter_digits_all.
    + exact Hlim.
Qed.

(* ---------------------------------------------------------------- *)
(** *** How [filter_listings] composes *)
(* ---------------------------------------------------------------- *)

Lemma filter_idempotent {A : Type} (f : A -> bool) (l : list A) :
  filter f (filter f l) = filter f l.
Proof.
  induction l as [|a l IH]; [reflexivity|].
  simpl. destruct (f a) eqn:E; simpl; rewrite ?E, IH; reflexivity.
Qed.

Lemma filter_subseq_imp {A : Type} (f g : A -> bool) (l : list A) :
  (forall a, f a = true -> g a = true) ->
  subseq (filter f l) (filter g l).
Proof.
  intros H. induction l as [|a l IH]; simpl; [constructor|].
  destruct (f a) eqn:E.
  - rewrite (H a E). constructor; exact IH.
  - destruct (g a); [constructor|]; exact IH.
Qed.

(** X3. Filtering what the filter returned changes nothing: a listing kept
    once (also one kept because its evaluation raised) is kept again. *)
Theorem filter_listings_idempotent (listings : list dict) (criteria : dict) :
  (out <- filter_listings listings criteria ;; filter_listings out criteria)
  = filter_listings listings criteria.
Proof.
  rewrite filter_listings_spec. cbn [bind].
  rewrite filter_listings_spec, filter_idempotent. reflexivity.
Qed.

(** X4. The filter decides listing by listing: filtering two pages one after
    the other gives the filtered pages one after the other. *)
Theorem filter_listings_app (page1 page2 : list dict) (criteria : dict) :
  filter_listings (page1 ++ page2) criteria
  = (out1 <- filter_listings page1 criteria ;;
     out2 <- filter_listings page2 criteria ;;
     Ok (out1 ++ out2)).
Proof.
  rewrite !filter_listings_spec. cbn [bind]. rewrite filter_app. reflexivity.
Qed.

Lemma criterion_set_int (criteria : dict) (key : pystr) (m : Z) :
  criterion (dict_set criteria key (VInt m)) key
  = Ok (if (m =? 0)%Z then None else Some m).
Proof.
  unfold criterion, dict_item. rewrite dict_get_set_same.
  unfold dict_set. cbn [dict_lookup truthy]. rewrite pystr_eqb_refl.
  destruct (m =? 0)%Z; reflexivity.
Qed.

Lemma above_max_raise (value : option Z) (m m' : Z) :
  (m <= m')%Z -> above_max value m = false -> above_max value m' = false.
Proof.
  destruct value as [v|]; [|reflexivity]. unfold above_max.
  intros Hle H.
  destruct (Z.gtb_spec v m) as [|Hm]; [discriminate|].
  destruct (Z.gtb_spec v m'); [lia | reflexivity].
Qed.

Lemma below_min_lower (year : option Z) (m m' : Z) :
  (m' <= m)%Z -> below_min year m = false -> below_min year m' = false.
Proof.
  destruct year as [y|]; [|reflexivity]. unfold below_min.
  intros Hle H. destruct (y =? 0)%Z; [reflexivity|]. cbn [negb andb] in *.
  apply Z.ltb_ge in H. apply Z.ltb_ge. lia.
Qed.

Lemma retains_raise_max_mileage (criteria item : dict) (m m' : Z) :
  m <> 0%Z -> (m <= m')%Z ->
  retains (dict_set criteria (lit "mileage") (VInt m)) item = true ->
  retains (dict_set criteria (lit "mileage") (VInt m')) item = true.
Proof.
  intros Hm Hle. unfold retains, filter_item.
  rewrite !(criterion_set_other _ (lit "mileage") (lit "modelYear"))
    by reflexivity.
  rewrite !(criterion_set_other _ (lit "mileage") (lit "price"))
    by reflexivity.
  rewrite !criterion_set_int.
  apply Z.eqb_neq in Hm. rewrite Hm.
  destruct (parse_year item) as [year|]; [|reflexivity].
  destruct (parse_number (dict_get item (lit "mileage") (VStr [])))
    as [mileage|]; [|reflexivity].
  destruct (parse_number (dict_get item (lit "price") (VStr [])))
    as [price|]; [|reflexivity].
  cbn [bind].
  destruct (criterion criteria (lit "modelYear")) as [min_year|];
    [|reflexivity].
  cbn [bind].
  destruct (match min_year with Some y => below_min year y | None => false end);
    [intros H; exact H|].
  destruct (above_max mileage m) eqn:Ea; [intros H; discriminate H|].
  intros H.
  destruct (m' =? 0)%Z; [exact H|].
  rewrite (above_max_raise mileage m m' Hle Ea). exact H.
Qed.

Lemma retains_raise_max_price (criteria item : dict) (m m' : Z) :
  m <> 0%Z -> (m <= m')%Z ->
  retains (dict_set criteria (lit "price") (VInt m)) item = true ->
  retains (dict_set criteria (lit "price") (VInt m')) item = true.
Proof.
  intros Hm Hle. unfold retains, filter_item.
  rewrite !(criterion_set_other _ (lit "price") (lit "modelYear"))
    by reflexivity.
  rewrite !(criterion_set_other _ (lit "price") (lit "mileage"))
    by reflexivity.
  rewrite !criterion_set_int.
  apply Z.eqb_neq in Hm. rewrite Hm.
  destruct (parse_year item) as [year|]; [|reflexivity].
  destruct (parse_number (dict_get item (lit "mileage") (VStr [])))
    as [mileage|]; [|reflexivity].
  destruct (parse_number (dict_get item (lit "price") (VStr [])))
    as [price|]; [|reflexivity].
  cbn [bind].
  destruct (criterion criteria (lit "modelYear")) as [min_year|];
    [|reflexivity].
  cbn [bind].
  destruct (match min_year with Some y => below_min year y | None => false end);
    [intros H; exact H|].
  destruct (criterion criteria (lit "mileage")) as [max_mileage|];
    [|reflexivity].
  cbn [bind].
  destruct (match max_mileage with
            | Some x => above_max mileage x
            | None => false
            end); [intros H; exact H|].
  destruct (above_max price m) eqn:Ea; [intros H; discriminate H|].
  intros H.
  destruct (m' =? 0)%Z; [exact H|].
  rewrite (above_max_raise price m m' Hle Ea). exact H.
Qed.

Lemma retains_lower_min_year (criteria item : dict) (m m' : Z) :
  m <> 0%Z -> (m' <= m)%Z ->
  retains (dict_set criteria (lit "modelYear") (VInt m)) item = true ->
  retains (dict_set criteria (lit "modelYear") (VInt m')) item = true.
Proof.
  intros Hm Hle. unfold retains, filter_item.
  rewrite !(criterion_set_other _ (lit "modelYear") (lit "mileage"))
    by reflexivity.
  rewrite !(criterion_set_other _ (lit "modelYear") (lit "price"))
    by reflexivity.
  rewrite !criterion_set_int.
  apply Z.eqb_neq in Hm. rewrite Hm.
  destruct (parse_year item) as [year|]; [|reflexivity].
  destruct (parse_number (dict_get item (lit "mileage") (VStr [])))
    as [mileage|]; [|reflexivity].
  destruct (parse_number (dict_get item (lit "price") (VStr [])))
    as [price|]; [|reflexivity].
  cbn [bind].
  destruct (below_min year m) eqn:Eb; [intros H; discriminate H|].
  intros H.
  destruct (m' =? 0)%Z; [exact H|].
  rewrite (below_min_lower year m m' Hle Eb). exact H.
Qed.

(** X5. Raising a maximum only adds listings: with the mileage (or price) bound
    [m] raised to [m'], the filter returns the listings it returned before,
    in their order, and possibly more.  The bound [m] is not 0, which the
    code reads as no bound. *)
Theorem raising_a_maximum_keeps_more
        (key : pystr) (listings : list dict) (criteria : dict) (m m' : Z) :
  key = lit "mileage" \/ key = lit "price" ->
  m <> 0%Z -> (m <= m')%Z ->
  exists out out',
    filter_listings listings (dict_set criteria key (VInt m)) = Ok out /\
    filter_listings listings (dict_set criteria key (VInt m')) = Ok out' /\
    subseq out out'.
Proof.
  intros Hkey Hm Hle. rewrite !filter_listings_spec.
  eexists. eexists. split; [reflexivity|]. split; [reflexivity|].
  apply filter_subseq_imp. intros item.
  destruct Hkey as [-> | ->].
  - apply retains_raise_max_mileage; assumption.
  - apply retains_raise_max_price; assumption.
Qed.

(** X6. Lowering the minimum year only adds listings. *)
Theorem lowering_the_minimum_year_keeps_more
        (listings : list dict) (criteria : dict) (m m' : Z) :
  m <> 0%Z -> (m' <= m)%Z ->
  exists out out',
    filter_listings listings (dict_set criteria (lit "modelYear") (VInt m))
    = Ok out /\
    filter_listings listings (dict_set criteria (lit "modelYear") (VInt m'))
    = Ok out' /\
    subseq out out'.
Proof.
  intros Hm Hle. rewrite !filter_listings_spec.
  eexists. eexists. split; [reflexivity|]. split; [reflexivity|].
  apply filter_subseq_imp. intros item.
  apply retains_lower_min_year; assumption.
Qed.

(* ---------------------------------------------------------------- *)
(** *** [validate_email] *)
(* ---------------------------------------------------------------- *)

Lemma nullable_matches (r : regex) : nullable r = true <-> matches r [].
Proof.
  split.
  - induction r; simpl; intros H; try discriminate.
    + constructor.
    + apply andb_true_iff in H. destruct H as [H1 H2].
      change (@nil N) with (@nil N ++ []). constructor; auto.
    + apply orb_true_iff in H. destruct H as [H|H].
      * apply MAltL; auto.
      * apply MAltR; auto.
    + constructor.
  - intros H. remember (@nil N) as s eqn:Es.
    induction H; subst; simpl; try reflexivity; try discriminate.
    + destruct (app_eq_nil _ _ Es) as [E1 E2].
      rewrite (IHmatches1 E1), (IHmatches2 E2); reflexivity.
    + rewrite IHmatches; reflexivity.
    + rewrite IHmatches; [apply orb_true_r | reflexivity].
Qed.

Lemma star_cons (r : regex) (c : N) (s : pystr) :
  matches (Star r) (c :: s) ->
  exists s1 s2, s = s1 ++ s2 /\ matches r (c :: s1) /\ matches (Star r) s2.
Proof.
  intros H. remember (Star r) as r' eqn:Er. remember (c :: s) as s' eqn:Es.
  revert s Es. induction H; intros s0 Es; try discriminate.
  inversion Er; subst r0. destruct s1 as [|c1 s1].
  - simpl in Es. apply IHmatches2; [reflexivity | exact Es].
  - simpl in Es. inversion Es; subst. exists s1, s2.
    split; [reflexivity|]. split; assumption.
Qed.

Lemma matches_seq (r1 r2 : regex) (s : pystr) :
  matches (Seq r1 r2) s <->
  exists s1 s2, s = s1 ++ s2 /\ matches r1 s1 /\ matches r2 s2.
Proof.
  split.
  - intros H. inversion H; subst. eauto.
  - intros (s1 & s2 & -> & H1 & H2). constructor; assumption.
Qed.

Lemma matches_class (ranges : list (N * N)) (s : pystr) :
  matches (Class ranges) s <-> exists c, s = [c] /\ in_set ranges c.
Proof.
  split.
  - intros H. inversion H; subst. eauto.
  - intros (c & -> & H). constructor; exact H.
Qed.

Lemma matches_alt (r1 r2 : regex) (s : pystr) :
  matches (Alt r1 r2) s <-> matches r1 s \/ matches r2 s.
Proof.
  split.
  - intros H. inversion H; subst; auto.
  - intros [H|H]; [apply MAltL | apply MAltR]; exact H.
Qed.

Lemma deriv_matches (c : N) (r : regex) (s : pystr) :
  matches (deriv c r) s <-> matches r (c :: s).
Proof.
  revert s. induction r as [| |ranges|r1 IH1 r2 IH2|r1 IH1 r2 IH2|r IH];
    intros s; simpl.
  - split; intros H; inversion H.
  - split; intros H; inversion H.
  - destruct (existsb (in_range c) ranges) eqn:E; split; intros H.
    + inversion H; subst. constructor; exact E.
    + inversion H; subst. constructor.
    + inversion H.
    + inversion H; subst. congruence.
  - destruct (nullable r1) eqn:En; split; intros H.
    + apply matches_alt in H. destruct H as [H|H].
      * apply matches_seq in H. destruct H as (s1 & s2 & -> & Ha & Hb).
        change (c :: s1 ++ s2) with ((c :: s1) ++ s2).
        constructor; [apply IH1; exact Ha | exact Hb].
      * change (c :: s) with ([] ++ c :: s).
        constructor; [apply nullable_matches; exact En | apply IH2; exact H].
    + apply matches_seq in H. destruct H as (s1 & s2 & Es & Ha & Hb).
      destruct s1 as [|c1 s1]; simpl in Es.
      * subst s2. apply MAltR, IH2, Hb.
      * inversion Es; subst. apply MAltL. constructor;
          [apply IH1; exact Ha | exact Hb].
    + apply matches_seq in H. destruct H as (s1 & s2 & -> & Ha & Hb).
      change (c :: s1 ++ s2) with ((c :: s1) ++ s2).
      constructor; [apply IH1; exact Ha | exact Hb].
    + apply matches_seq in H. destruct H as (s1 & s2 & Es & Ha & Hb).
      destruct s1 as [|c1 s1]; simpl in Es.
      * apply nullable_matches in Ha. congruence.
      * inversion Es; subst. constructor; [apply IH1; exact Ha | exact Hb].
  - rewrite !matches_alt, IH1, IH2. reflexivity.
  - split; intros H.
    + apply matches_seq in H. destruct H as (s1 & s2 & -> & Ha & Hb).
      change (c :: s1 ++ s2) with ((c :: s1) ++ s2).
      constructor; [apply IH; exact Ha | exact Hb].
    + apply star_cons in H. destruct H as (s1 & s2 & -> & Ha & Hb).
      constructor; [apply IH; exact Ha | exact Hb].
Qed.

(** The matcher decides the language of the pattern. *)
Lemma fullmatch_matches (r : regex) (s : pystr) :
  fullmatch r s = true <-> matches r s.
Proof.
  revert r. induction s as [|c s IH]; intros r; simpl.
  - apply nullable_matches.
  - rewrite IH. apply deriv_matches.
Qed.

Lemma matches_star_class (ranges : list (N * N)) (s : pystr) :
  matches (Star (Class ranges)) s <-> Forall (in_set ranges) s.
Proof.
  split.
  - intros H. remember (Star (Class ranges)) as r eqn:Er.
    induction H; try discriminate; [constructor|].
    inversion Er; subst r. apply matches_class in H.
    destruct H as (c & -> & Hc). constructor; [exact Hc | auto].
  - induction 1 as [|c t Hc Ht IH]; [constructor|].
    change (c :: t) with ([c] ++ t). constructor; [|exact IH].
    constructor; exact Hc.
Qed.

Lemma matches_plus_class (ranges : list (N * N)) (s : pystr) :
  matches (Plus (Class ranges)) s <-> s <> [] /\ Forall (in_set ranges) s.
Proof.
  unfold Plus. rewrite matches_seq. split.
  - intros (s1 & s2 & -> & H1 & H2). apply matches_class in H1.
    destruct H1 as (c & -> & Hc). apply matches_star_class in H2.
    split; [discriminate | constructor; assumption].
  - intros [Hne H]. destruct H as [|c t Hc Ht]; [contradiction|].
    exists [c], t. split; [reflexivity|].
    split; [apply matches_class; eauto | apply matches_star_class; exact Ht].
Qed.

Lemma matches_atleast2_class (ranges : list (N * N)) (s : pystr) :
  matches (AtLeast2 (Class ranges)) s <->
  (2 <= List.length s)%nat /\ Forall (in_set ranges) s.
Proof.
  unfold AtLeast2. rewrite matches_seq. split.
  - intros (s1 & s2 & -> & H1 & H2). apply matches_class in H1.
    destruct H1 as (c & -> & Hc). apply matches_plus_class in H2.
    destruct H2 as [Hne H2]. split.
    + destruct s2; [contradiction | simpl; lia].
    + constructor; assumption.
  - intros [Hlen H]. destruct H as [|c t Hc Ht]; [simpl in Hlen; lia|].
    exists [c], t. split; [reflexivity|].
    split; [apply matches_class; eauto|]. apply matches_plus_class.
    split; [|exact Ht]. destruct t; [simpl in Hlen; lia | discriminate].
Qed.

Lemma email_pattern_address (s : pystr) :
  matches email_pattern s <-> address s.
Proof.
  unfold email_pattern, address. split.
  - intros H.
    apply matches_seq in H. destruct H as (local & s1 & -> & Hl & H).
    apply matches_seq in H. destruct H as (at_ & s2 & -> & Hat & H).
    apply matches_seq in H. destruct H as (domain & s3 & -> & Hd & H).
    apply matches_seq in H. destruct H as (dot & tld & -> & Hdot & Ht).
    apply matches_plus_class in Hl. apply matches_plus_class in Hd.
    apply matches_atleast2_class in Ht.
    apply matches_class in Hat. destruct Hat as (a & -> & Ha).
    apply matches_class in Hdot. destruct Hdot as (d & -> & Hd').
    assert (a = 64).
    { unfold in_set, in_range in Ha. cbn [existsb fst snd] in Ha.
      rewrite orb_false_r in Ha.
      apply andb_true_iff in Ha. destruct Ha as [H1 H2].
      apply N.leb_le in H1. apply N.leb_le in H2. lia. }
    assert (d = 46).
    { unfold in_set, in_range in Hd'. cbn [existsb fst snd] in Hd'.
      rewrite orb_false_r in Hd'.
      apply andb_true_iff in Hd'. destruct Hd' as [H1 H2].
      apply N.leb_le in H1. apply N.leb_le in H2. lia. }
    subst a d. exists local, domain, tld.
    destruct Hl as [Hl1 Hl2]. destruct Hd as [Hd1 Hd2].
    destruct Ht as [Ht1 Ht2]. repeat split; assumption.
  - intros (local & domain & tld & -> & Hl1 & Hl2 & Hd1 & Hd2 & Ht1 & Ht2).
    constructor; [apply matches_plus_class; split; assumption|].
    constructor; [constructor; reflexivity|].
    constructor; [apply matches_plus_class; split; assumption|].
    constructor; [constructor; reflexivity|].
    apply matches_atleast2_class; split; assumption.
Qed.

Lemma re_match_address (s : pystr) :
  re_match_to_end email_pattern s = true <->
  address s \/ exists s', s = s' ++ [10] /\ address s'.
Proof.
  unfold re_match_to_end. split.
  - intros Hb.
    apply orb_true_iff in Hb. destruct Hb as [Hb|Hb].
    + left. apply email_pattern_address, fullmatch_matches, Hb.
    + right. destruct (rev s) as [|c t] eqn:Er; [discriminate|].
      assert (Hc : c = 10).
      { destruct c as [|[[[[]|[]|]|[[]|[]|]|]|[[[]|[]|]|[[]|[]|]|]|]];
          try discriminate Hb; reflexivity. }
      subst c. exists (rev t). split.
      * rewrite <- (rev_involutive s), Er. reflexivity.
      * apply email_pattern_address, fullmatch_matches, Hb.
  - intros [H | (s' & -> & H)];
      apply email_pattern_address, fullmatch_matches in H.
    + rewrite H. reflexivity.
    + rewrite rev_app_distr. cbn [rev app]. rewrite rev_involutive, H.
      apply orb_true_r.
Qed.

(** X7. [validate_email] accepts exactly the addresses made of a local part of
    letters, digits and [._%+-], an [@], a domain of letters, digits, dots
    and hyphens, a dot and two letters or more, and the same followed by one
    newline, which [$] lets through. *)
Theorem validate_email_accepts (s : pystr) :
  validate_email (VStr s) = Ok true <->
  address s \/ exists s', s = s' ++ [10] /\ address s'.
Proof.
  rewrite <- re_match_address. unfold validate_email. split.
  - intros H. injection H as ->. reflexivity.
  - intros ->. reflexivity.
Qed.

Lemma count_outside_set (ranges : list (N * N)) (c : N) (s : pystr) :
  existsb (in_range c) ranges = false ->
  Forall (in_set ranges) s ->
  count_occ N.eq_dec s c = 0%nat.
Proof.
  intros Hc H. induction H as [|x t Hx Ht IH]; [reflexivity|].
  simpl. destruct (N.eq_dec x c) as [->|]; [|exact IH].
  unfold in_set in Hx. congruence.
Qed.

Lemma address_one_at (s : pystr) :
  address s -> count_occ N.eq_dec s 64 = 1%nat.
Proof.
  intros (local & domain & tld & -> & _ & Hl & _ & Hd & _ & Ht).
  rewrite !count_occ_app.
  rewrite (count_outside_set local_set 64 local eq_refl Hl).
  rewrite (count_outside_set domain_set 64 domain eq_refl Hd).
  rewrite (count_outside_set letter_set 64 tld eq_refl Ht).
  reflexivity.
Qed.

(** X8. An accepted address holds exactly one [@]. *)
Theorem validate_email_one_at (s : pystr) :
  validate_email (VStr s) = Ok true ->
  count_occ N.eq_dec s 64 = 1%nat.
Proof.
  intros H. injection H as Hb. apply re_match_address in Hb.
  destruct Hb as [Hb | (s' & -> & Hb)].
  - apply address_one_at, Hb.
  - rewrite count_occ_app, (address_one_at s' Hb). reflexivity.
Qed.

(* ---------------------------------------------------------------- *)
(** *** The listings of a search *)
(* ---------------------------------------------------------------- *)

Lemma search_collect_acc (items : list pyval) (listings : list dict) :
  search_collect items listings = listings ++ search_collect items [].
Proof.
  revert listings. induction items as [|item rest IH]; intros listings.
  - simpl. rewrite app_nil_r. reflexivity.
  - simpl. destruct (search_item item) as [l|e].
    + rewrite (IH (listings ++ [l])), (IH [l]), app_assoc. reflexivity.
    + rewrite app_nil_r. reflexivity.
Qed.

Lemma malformed_raises (item : pyval) :
  malformed item <-> exists e, search_item item = Raise e.
Proof.
  destruct item as [| | | | |xs|d]; simpl;
    try (split; [intros _; eexists; reflexivity | intros _; exact I]).
  unfold search_listing, py_get.
  destruct (dict_get d (lit "properties") (VDict [])); simpl;
    split; try (intros _; eexists; reflexivity);
    try discriminate; try reflexivity.
  intros [e He]. discriminate He.
Qed.

Lemma search_collect_cut (good : list pyval) (bad : pyval)
      (rest : list pyval) (listings : list dict) :
  malformed bad ->
  search_collect (good ++ bad :: rest) listings
  = search_collect good listings.
Proof.
  intros Hbad. apply malformed_raises in Hbad. destruct Hbad as [e He].
  revert listings. induction good as [|item good IH]; intros listings.
  - simpl. rewrite He. reflexivity.
  - simpl. destruct (search_item item); [apply IH | reflexivity].
Qed.

(** X9. One item that is not a mapping, or whose [properties] is not one, ends
    the search: the answer holds the listings of the items before it, and
    none of the items after it, whatever they are. *)
Theorem search_stops_at_malformed_item
        (good : list pyval) (bad : pyval) (rest : list pyval) (data : dict) :
  malformed bad ->
  search_results (good ++ bad :: rest) data = search_results good data.
Proof.
  intros Hbad. unfold search_results.
  rewrite (search_collect_cut good bad rest [] Hbad). reflexivity.
Qed.

Lemma search_collect_wellformed (items : list pyval) (ls : list dict) :
  Forall2 (fun item l => search_item item = Ok l) items ls ->
  search_collect items [] = ls.
Proof.
  induction 1 as [|item l items ls Hl Hrest IH]; [reflexivity|].
  simpl. rewrite Hl. cbn [app].
  rewrite search_collect_acc, IH. reflexivity.
Qed.

(** X10. On items that are mappings with [properties] absent or a mapping,
    [search] answers: with listings of the items, in the order of the
    items, those the criteria keep. *)
Theorem search_results_are_listings_of_items
        (items : list pyval) (data : dict) :
  Forall (fun item => ~ malformed item) items ->
  exists ls out,
    Forall2 (fun item l => search_item item = Ok l) items ls /\
    search_results items data = Ok out /\
    subseq out ls.
Proof.
  intros H.
  assert (Hls : exists ls,
             Forall2 (fun item l => search_item item = Ok l) items ls).
  { induction H as [|item items Hi Hrest IH]; [exists []; constructor|].
    destruct IH as [ls IH].
    destruct (search_item item) as [l|e] eqn:E.
    - exists (l :: ls). constructor; assumption.
    - exfalso. apply Hi. apply malformed_raises. eauto. }
  destruct Hls as [ls Hls]. exists ls. eexists. split; [exact Hls|].
  unfold search_results.
  rewrite (search_collect_wellformed items ls Hls), filter_listings_spec.
  split; [reflexivity | apply filter_subseq].
Qed.

(* ---------------------------------------------------------------- *)
(** *** The store: ids, URLs and the offers of a vehicle *)
(* ---------------------------------------------------------------- *)

(** What a call of [save_vehicle_to_db] does to the table: nothing (the id
    returned is the id of a row), a failed INSERT, or one row added at the
    end under the next id. *)
Lemma save_vehicle_inv (db db' : database) (vd : dict) (r : option Z) :
  save_vehicle_to_db db vd = (r, db') ->
  (db' = db /\
   match r with
   | Some id =>
       exists row t, In row (vehicles db) /\ row_id row = id /\
                     sql_bind (dict_get vd (lit "url") (VStr [])) = Ok (Some t)
                     /\ find (url_is t) (vehicles db) = Some row
   | None => True
   end)
  \/ (db' = failed_insert db /\ r = None)
  \/ (exists row,
        r = Some (next_id db) /\ row_id row = next_id db /\
        sql_bind (dict_get vd (lit "url") (VStr [])) = Ok (row_url row) /\
        sql_bind (dict_get vd (lit "title") VNone) = Ok (row_title row) /\
        bind_all [ dict_get vd (lit "price") VNone;
                   dict_get vd (lit "mileage") VNone;
                   dict_get vd (lit "year") VNone;
                   dict_get vd (lit "fuel") VNone;
                   dict_get vd (lit "transmission") VNone;
                   dict_get vd (lit "power") VNone;
                   if truthy (dict_get vd (lit "properties") VNone)
                   then VStr (json_dumps
                                (dict_get vd (lit "properties") (VDict [])))
                   else VNone ] = Ok (row_columns row) /\
        (forall x, row_url row = Some x ->
                   existsb (url_is x) (vehicles db) = false) /\
        db' = {| engine := engine db; vehicles := vehicles db ++ [row];
                 next_id := (next_id db + 1)%Z |}).
Proof.
  unfold save_vehicle_to_db, save_vehicle_body.
  set (url := dict_get vd (lit "url") (VStr [])).
  destruct (if truthy url then select_id_by_url db url else Ok None)
    as [[existing|]|e] eqn:Esel.
  - intros H; injection H as <- <-. left. split; [reflexivity|].
    destruct (truthy url); [|discriminate].
    unfold select_id_by_url in Esel.
    destruct (sql_bind url) as [[t|]|]; simpl in Esel; try discriminate.
    destruct (find (url_is t) (vehicles db)) as [row|] eqn:Ef;
      simpl in Esel; [|discriminate].
    inversion Esel; subst. exists row, t.
    apply find_some in Ef as Hf. destruct Hf as [Hin _]. auto.
  - unfold insert_vehicle.
    destruct (sql_bind (dict_get vd (lit "title") VNone)) as [t|];
      [|intros H; injection H as <- <-; left; auto].
    destruct (sql_bind url) as [u|]; [|intros H; injection H as <- <-; left; auto].
    cbn [bind].
    match goal with
    | |- context [bind_all ?l] => destruct (bind_all l) as [cs|]
    end; [|intros H; injection H as <- <-; left; auto].
    cbn [bind].
    destruct (match t with None => true | Some _ => false end
              || match u with
                 | Some x => existsb (url_is x) (vehicles db)
                 | None => false
                 end) eqn:Hc; intros H; injection H as <- <-.
    + right; left; auto.
    + right; right. apply orb_false_iff in Hc. destruct Hc as [_ Hc].
      eexists. split; [reflexivity|]. cbn.
      repeat split; try reflexivity.
      intros x Hx. cbn in Hx. subst u. exact Hc.
  - intros H; injection H as <- <-; left; auto.
Qed.

Lemma existsb_has_id (n : Z) (rows : list vehicle_row) :
  existsb (has_id n) rows = true <-> In n (map row_id rows).
Proof.
  rewrite existsb_exists, in_map_iff. unfold has_id.
  split; intros (r & H1 & H2).
  - exists r. apply Z.eqb_eq in H2. auto.
  - exists r. split; [exact H2 | apply Z.eqb_eq; exact H1].
Qed.

Lemma failed_insert_rows (db : database) :
  vehicles (failed_insert db) = vehicles db /\
  engine (failed_insert db) = engine db /\
  (next_id db <= next_id (failed_insert db))%Z.
Proof.
  unfold failed_insert. destruct (engine db) eqn:E; simpl; rewrite ?E;
    repeat split; lia.
Qed.

Lemma save_vehicle_ids (db : database) (vd : dict) :
  ids_in_order db -> ids_in_order (snd (save_vehicle_to_db db vd)).
Proof.
  intros [Hnd Hlt].
  destruct (save_vehicle_to_db db vd) as [r db'] eqn:E.
  apply save_vehicle_inv in E. cbn [snd].
  destruct E as [[-> _] | [[-> _] | (row & _ & Hid & _ & _ & _ & _ & ->)]].
  - split; assumption.
  - destruct (failed_insert_rows db) as (Hv & _ & Hn).
    unfold ids_in_order. rewrite Hv. split; [exact Hnd|].
    eapply Forall_impl; [|exact Hlt]. simpl. intros; lia.
  - unfold ids_in_order. cbn [vehicles next_id].
    rewrite map_app. cbn [map]. split.
    + apply NoDup_app; [exact Hnd | repeat constructor; intros [] |].
      intros n Hn [<-|[]]. apply in_map_iff in Hn.
      destruct Hn as (r0 & Hr0 & Hin). rewrite Forall_forall in Hlt.
      specialize (Hlt r0 Hin). lia.
    + apply Forall_app. split.
      * eapply Forall_impl; [|exact Hlt]. simpl. intros; lia.
      * constructor; [lia | constructor].
Qed.

Lemma save_vehicle_keeps_rows (db : database) (vd : dict) (n : Z) :
  existsb (has_id n) (vehicles db) = true ->
  existsb (has_id n) (vehicles (snd (save_vehicle_to_db db vd))) = true.
Proof.
  destruct (save_vehicle_to_db db vd) as [r db'] eqn:E.
  apply save_vehicle_inv in E. cbn [snd].
  destruct E as [[-> _] | [[-> _] | (row & _ & Hid & _ & _ & _ & _ & ->)]].
  - auto.
  - destruct (failed_insert_rows db) as (-> & _). auto.
  - cbn [vehicles]. rewrite existsb_app. intros ->. reflexivity.
Qed.

Lemma save_vehicle_engine (db : database) (vd : dict) :
  engine (snd (save_vehicle_to_db db vd)) = engine db.
Proof.
  destruct (save_vehicle_to_db db vd) as [r db'] eqn:E.
  apply save_vehicle_inv in E. cbn [snd].
  destruct E as [[-> _] | [[-> _] | (row & _ & Hid & _ & _ & _ & _ & ->)]].
  - reflexivity.
  - apply failed_insert_rows.
  - reflexivity.
Qed.

(** The id [save_vehicle_to_db] returns is the id of a row of the table. *)
Lemma save_vehicle_returns_row (db db' : database) (vd : dict) (id : Z) :
  save_vehicle_to_db db vd = (Some id, db') ->
  existsb (has_id id) (vehicles db') = true.
Proof.
  intros E. apply save_vehicle_inv in E.
  destruct E as [[-> H] | [[_ H] | (row & H & Hid & _ & _ & _ & _ & ->)]].
  - destruct H as (row & t & Hin & Hid & _). apply existsb_has_id.
    rewrite <- Hid. apply in_map, Hin.
  - discriminate.
  - inversion H; subst. cbn [vehicles]. rewrite existsb_app.
    cbn [existsb]. unfold has_id at 2. rewrite Hid, Z.eqb_refl.
    rewrite orb_true_r. reflexivity.
Qed.

Lemma subseq_In {A : Type} (l1 l2 : list A) (x : A) :
  subseq l1 l2 -> In x l1 -> In x l2.
Proof.
  induction 1 as [|a l1 l2 H IH|a l1 l2 H IH]; simpl; intros Hin.
  - exact Hin.
  - destruct Hin as [->|Hin]; auto.
  - auto.
Qed.

Lemma subseq_NoDup {A : Type} (l1 l2 : list A) :
  subseq l1 l2 -> NoDup l2 -> NoDup l1.
Proof.
  induction 1 as [|a l1 l2 H IH|a l1 l2 H IH]; intros Hnd.
  - exact Hnd.
  - inversion Hnd as [|? ? Hn Hnd']; subst. constructor; [|auto].
    intros Hin. apply Hn. eapply subseq_In; eauto.
  - inversion Hnd; subst. auto.
Qed.

Lemma subseq_refl {A : Type} (l : list A) : subseq l l.
Proof. induction l; constructor; assumption. Qed.

Lemma subseq_app {A : Type} (l1 l2 l1' l2' : list A) :
  subseq l1 l2 -> subseq l1' l2' -> subseq (l1 ++ l1') (l2 ++ l2').
Proof.
  induction 1; simpl; intros H'; [exact H' | |]; constructor; auto.
Qed.

Lemma subseq_nil_l {A : Type} (l : list A) : subseq [] l.
Proof. induction l; constructor; assumption. Qed.

Lemma subseq_flat_map_filter {A B : Type} (g : A -> list B)
      (p : A -> bool) (l : list A) :
  subseq (flat_map g (filter p l)) (flat_map g l).
Proof.
  induction l as [|a l IH]; simpl; [constructor|].
  destruct (p a); simpl.
  - apply subseq_app; [apply subseq_refl | exact IH].
  - change (flat_map g (filter p l)) with ([] ++ flat_map g (filter p l)).
    apply subseq_app; [apply subseq_nil_l | exact IH].
Qed.

Lemma subseq_map_filter {A B : Type} (g : A -> B) (p : A -> bool)
      (l : list A) :
  subseq (map g (filter p l)) (map g l).
Proof.
  induction l as [|a l IH]; simpl; [constructor|].
  destruct (p a); simpl; constructor; exact IH.
Qed.

Lemma map_unless_absent (vid : Z) (g : vehicle_row -> vehicle_row)
      (rows : list vehicle_row) :
  ~ In vid (map row_id rows) ->
  map (fun r => if has_id vid r then g r else r) rows = rows.
Proof.
  induction rows as [|a rest IH]; simpl; intros Hn; [reflexivity|].
  unfold has_id at 1. destruct (Z.eqb_spec (row_id a) vid) as [E|E].
  - exfalso. apply Hn. left. exact E.
  - rewrite IH; [reflexivity|]. intros H. apply Hn. right. exact H.
Qed.

Lemma in_row_urls (rows : list vehicle_row) (x : pystr) :
  In x (flat_map (fun r => match row_url r with
                           | Some t => [t]
                           | None => []
                           end) rows)
  <-> exists r, In r rows /\ row_url r = Some x.
Proof.
  rewrite in_flat_map. split; intros (r & Hin & H); exists r;
    (split; [exact Hin|]).
  - destruct (row_url r); simpl in H; [|destruct H].
    destruct H as [->|[]]. reflexivity.
  - rewrite H. left. reflexivity.
Qed.

(** The UNIQUE constraint on [url] holds after an UPDATE that passed its
    check. *)
Lemma update_urls_unique (vid : Z) (t u : option pystr)
      (cs : list (option pystr)) (rows : list vehicle_row) :
  NoDup (map row_id rows) ->
  NoDup (flat_map (fun r => match row_url r with
                            | Some t => [t]
                            | None => []
                            end) rows) ->
  match u with
  | Some x => existsb (fun r => url_is x r && negb (has_id vid r)) rows
  | None => false
  end = false ->
  NoDup (flat_map (fun r => match row_url r with
                            | Some t => [t]
                            | None => []
                            end)
           (map (fun r => if has_id vid r then updated_row r t u cs else r)
                rows)).
Proof.
  induction rows as [|a rest IH]; intros Hids Hurls Hu; [constructor|].
  cbn [map flat_map] in *.
  inversion Hids as [|? ? Hna Hids']; subst.
  assert (Hu' : match u with
                | Some x =>
                    existsb (fun r => url_is x r && negb (has_id vid r)) rest
                | None => false
                end = false).
  { destruct u as [x|]; [|reflexivity]. cbn [existsb] in Hu.
    apply orb_false_iff in Hu. apply Hu. }
  destruct (has_id vid a) eqn:Ea.
  - unfold has_id in Ea. apply Z.eqb_eq in Ea. rewrite Ea in Hna.
    rewrite (map_unless_absent vid _ rest Hna).
    apply NoDup_app_remove_l in Hurls.
    cbn [updated_row row_url]. destruct u as [x|]; [|exact Hurls].
    cbn [app]. constructor; [|exact Hurls].
    intros Hin. apply in_row_urls in Hin. destruct Hin as (r & Hr & Hx).
    assert (Hf : url_is x r && negb (has_id vid r) = true).
    { apply andb_true_iff. split; [apply url_is_true; exact Hx|].
      unfold has_id. destruct (Z.eqb_spec (row_id r) vid) as [E|E];
        [|reflexivity].
      exfalso. apply Hna. rewrite <- E. apply in_map, Hr. }
    assert (He : existsb (fun r => url_is x r && negb (has_id vid r)) rest
                 = true).
    { apply existsb_exists. exists r. split; assumption. }
    rewrite He in Hu'. discriminate.
  - apply NoDup_app.
    + apply NoDup_app_remove_r in Hurls. exact Hurls.
    + apply IH; [exact Hids' | | exact Hu'].
      apply NoDup_app_remove_l in Hurls. exact Hurls.
    + intros y Hy Hin. apply in_row_urls in Hin.
      destruct Hin as (r' & Hr' & Hy'). apply in_map_iff in Hr'.
      destruct Hr' as (r & <- & Hr).
      assert (Hay : row_url a = Some y).
      { destruct (row_url a); simpl in Hy; [|destruct Hy].
        destruct Hy as [->|[]]. reflexivity. }
      destruct (has_id vid r) eqn:Er.
      * cbn [updated_row row_url] in Hy'. subst u. cbn [existsb] in Hu.
        apply orb_false_iff in Hu. destruct Hu as [Hu _].
        apply url_is_true in Hay. rewrite Hay, Ea in Hu. discriminate.
      * assert (In y (flat_map (fun r => match row_url r with
                                         | Some t => [t]
                                         | None => []
                                         end) rest))
          by (apply in_row_urls; eauto).
        clear - Hurls Hay H. rewrite Hay in Hurls. cbn [app] in Hurls.
        inversion Hurls; subst. contradiction.
Qed.

Lemma update_ids (vid : Z) (t u : option pystr) (cs : list (option pystr))
      (rows : list vehicle_row) :
  map row_id
      (map (fun r => if has_id vid r then updated_row r t u cs else r) rows)
  = map row_id rows.
Proof.
  rewrite map_map. apply map_ext. intros r.
  destruct (has_id vid r); reflexivity.
Qed.

(** What [update_vehicle] does to the table: nothing, with the answer
    [False], or the one row of the id rewritten, with the answer [True]. *)
Lemma update_vehicle_inv (db db' : database) (vid : Z) (data : dict)
      (b : bool) :
  update_vehicle db vid data = (b, db') ->
  (b = false /\ db' = db)
  \/ (exists t u cs,
        b = true /\
        sql_bind (dict_get data (lit "title") VNone) = Ok (Some t) /\
        sql_bind (dict_get data (lit "url") VNone) = Ok u /\
        bind_all [ dict_get data (lit "price") VNone;
                   dict_get data (lit "mileage") VNone;
                   dict_get data (lit "year") VNone;
                   dict_get data (lit "fuel") VNone;
                   dict_get data (lit "transmission") VNone;
                   dict_get data (lit "power") VNone ] = Ok cs /\
        binds_parameter (engine db) vid = true /\
        existsb (has_id vid) (vehicles db) = true /\
        match u with
        | Some x =>
            existsb (fun r => url_is x r && negb (has_id vid r)) (vehicles db)
        | None => false
        end = false /\
        db' = {| engine := engine db;
                 vehicles :=
                   map (fun r => if has_id vid r
                                 then updated_row r (Some t) u cs else r)
                       (vehicles db);
                 next_id := next_id db |}).
Proof.
  unfold update_vehicle.
  destruct (sql_bind (dict_get data (lit "title") VNone)) as [t|];
    [|intros H; injection H as <- <-; left; auto].
  cbn [bind].
  match goal with
  | |- context [bind_all ?l] => destruct (bind_all l) as [cs|]
  end; [|intros H; injection H as <- <-; left; auto].
  cbn [bind].
  destruct (sql_bind (dict_get data (lit "url") VNone)) as [u|];
    [|intros H; injection H as <- <-; left; auto].
  cbn [bind].
  destruct (binds_parameter (engine db) vid) eqn:Eb;
    [|intros H; injection H as <- <-; left; auto].
  destruct (existsb (has_id vid) (vehicles db)) eqn:Ee;
    [|intros H; injection H as <- <-; left; auto].
  cbn [andb].
  destruct t as [t|]; [|intros H; injection H as <- <-; left; auto].
  cbn [orb].
  destruct (match u with
            | Some x =>
                existsb (fun r => url_is x r && negb (has_id vid r))
                        (vehicles db)
            | None => false
            end) eqn:Eu; intros H; injection H as <- <-.
  - left; auto.
  - right. exists t, u, cs. repeat split; auto.
Qed.

Lemma update_vehicle_ids (db : database) (vid : Z) (data : dict) :
  map row_id (vehicles (snd (update_vehicle db vid data)))
  = map row_id (vehicles db) /\
  next_id (snd (update_vehicle db vid data)) = next_id db /\
  engine (snd (update_vehicle db vid data)) = engine db.
Proof.
  destruct (update_vehicle db vid data) as [b db'] eqn:E.
  apply update_vehicle_inv in E. cbn [snd].
  destruct E as [[_ ->] | (t & u & cs & _ & _ & _ & _ & _ & _ & _ & ->)].
  - auto.
  - cbn [vehicles next_id engine]. rewrite update_ids. auto.
Qed.

Lemma update_vehicle_unique (db : database) (vid : Z) (data : dict) :
  NoDup (map row_id (vehicles db)) ->
  unique_urls db ->
  unique_urls (snd (update_vehicle db vid data)).
Proof.
  intros Hids Hu.
  destruct (update_vehicle db vid data) as [b db'] eqn:E.
  apply update_vehicle_inv in E. cbn [snd].
  destruct E as [[_ ->] | (t & u & cs & _ & _ & _ & _ & _ & _ & Hc & ->)].
  - exact Hu.
  - unfold unique_urls, stored_urls. cbn [vehicles].
    apply update_urls_unique; assumption.
Qed.

Lemma references_mono (vt vt' : database) (os : list offer_row) :
  (forall n, existsb (has_id n) (vehicles vt) = true ->
             existsb (has_id n) (vehicles vt') = true) ->
  Forall (fun o => references_vehicle vt (offer_vehicle o) = true) os ->
  Forall (fun o => references_vehicle vt' (offer_vehicle o) = true) os.
Proof.
  intros Hm H. eapply Forall_impl; [|exact H]. simpl. intros o.
  unfold references_vehicle. destruct (offer_vehicle o); [apply Hm | auto].
Qed.

Lemma consistent_with_vehicles (db : vehicle_crm) (vt : database) :
  consistent db ->
  unique_urls vt -> ids_in_order vt ->
  (forall n, existsb (has_id n) (vehicles (vehicle_table db)) = true ->
             existsb (has_id n) (vehicles vt) = true) ->
  consistent (with_vehicles db vt).
Proof.
  intros [Hu Hi Hs Hoi Hos Hr] Hu' [Hi' Hs'] Hm.
  constructor; cbn [with_vehicles vehicle_table offers next_offer_id];
    try assumption.
  eapply references_mono; eauto.
Qed.

Lemma consistent_ids (db : vehicle_crm) :
  consistent db -> ids_in_order (vehicle_table db).
Proof. intros [Hu Hi Hs Hoi Hos Hr]. split; assumption. Qed.

Lemma consistent_save_vehicle (db : vehicle_crm) (vd : dict) :
  consistent db ->
  consistent
    (with_vehicles db (snd (save_vehicle_to_db (vehicle_table db) vd))).
Proof.
  intros H. apply consistent_with_vehicles; [exact H | | |].
  - apply save_vehicle_preserves_unique, H.
  - apply save_vehicle_ids, consistent_ids, H.
  - intros n. apply save_vehicle_keeps_rows.
Qed.

Lemma consistent_update_vehicle (db : vehicle_crm) (vid : Z) (data : dict) :
  consistent db ->
  consistent
    (with_vehicles db (snd (update_vehicle (vehicle_table db) vid data))).
Proof.
  intros H.
  destruct (update_vehicle_ids (vehicle_table db) vid data)
    as (Hids & Hnext & _).
  apply consistent_with_vehicles; [exact H | | |].
  - apply update_vehicle_unique; apply H.
  - destruct (consistent_ids db H) as [Hnd Hlt]. split.
    + rewrite Hids. exact Hnd.
    + apply (Forall_map row_id (fun i => (i < _)%Z)).
      rewrite Hids, Hnext.
      apply (Forall_map row_id (fun i => (i < _)%Z)). exact Hlt.
  - intros n Hn. apply existsb_has_id. rewrite Hids.
    apply existsb_has_id. exact Hn.
Qed.

(** What [save_offer_to_db] does to the store: nothing, a failed INSERT,
    or one row added at the end under the next id. *)
Lemma save_offer_inv (db db' : vehicle_crm) (od : dict) (r : option Z) :
  save_offer_to_db db od = (r, db') ->
  (r = None /\ (db' = db \/ db' = failed_offer_insert db))
  \/ (exists row,
        r = Some (next_offer_id db) /\ offer_id row = next_offer_id db /\
        bind_integer (engine (vehicle_table db))
          (dict_get od (lit "vehicle_id") VNone)
        = Some (Some (offer_vehicle row)) /\
        sql_bind (dict_get od (lit "client_email") VNone)
        = Ok (Some (offer_email row)) /\
        sql_bind (dict_get od (lit "offered_price") VNone)
        = Ok (Some (offer_price row)) /\
        sql_bind (dict_get od (lit "client_name") VNone)
        = Ok (offer_name row) /\
        sql_bind (dict_get od (lit "notes") VNone) = Ok (offer_notes row) /\
        (engine (vehicle_table db) = Postgres ->
         references_vehicle (vehicle_table db) (offer_vehicle row) = true) /\
        db' = {| vehicle_table := vehicle_table db;
                 offers := offers db ++ [row];
                 next_offer_id := (next_offer_id db + 1)%Z |}).
Proof.
  unfold save_offer_to_db.
  destruct (bind_integer (engine (vehicle_table db))
              (dict_get od (lit "vehicle_id") VNone)) as [v|];
    [|intros H; injection H as <- <-; left; auto].
  destruct (sql_bind (dict_get od (lit "client_email") VNone)) as [e|];
    [|intros H; injection H as <- <-; left; auto].
  destruct (sql_bind (dict_get od (lit "client_name") VNone)) as [n|];
    [|intros H; injection H as <- <-; left; auto].
  destruct (sql_bind (dict_get od (lit "offered_price") VNone)) as [p|];
    [|intros H; injection H as <- <-; left; auto].
  destruct (sql_bind (dict_get od (lit "notes") VNone)) as [t|];
    [|intros H; injection H as <- <-; left; auto].
  cbn [bind except_Exception].
  destruct v as [v|]; [|intros H; injection H as <- <-; left; auto].
  destruct e as [e|]; [|intros H; injection H as <- <-; left; auto].
  destruct p as [p|]; [|intros H; injection H as <- <-; left; auto].
  destruct (match engine (vehicle_table db) with
            | Postgres => references_vehicle (vehicle_table db) v
            | Sqlite => true
            end) eqn:Ef; intros H; injection H as <- <-; [|left; auto].
  right. eexists. split; [reflexivity|]. cbn.
  repeat split; try reflexivity.
  intros Hpg. rewrite Hpg in Ef. exact Ef.
Qed.

Lemma consistent_failed_offer (db : vehicle_crm) :
  consistent db -> consistent (failed_offer_insert db).
Proof.
  intros H. unfold failed_offer_insert.
  destruct (engine (vehicle_table db)); [|exact H].
  destruct H as [Hu Hi Hs Hoi Hos Hr]. constructor; cbn; try assumption.
  eapply Forall_impl; [|exact Hos]. simpl. intros; lia.
Qed.

Lemma consistent_add_offer (db : vehicle_crm) (row : offer_row) :
  consistent db ->
  offer_id row = next_offer_id db ->
  references_vehicle (vehicle_table db) (offer_vehicle row) = true ->
  consistent {| vehicle_table := vehicle_table db;
                offers := offers db ++ [row];
                next_offer_id := (next_offer_id db + 1)%Z |}.
Proof.
  intros [Hu Hi Hs Hoi Hos Hr] Hid Href. constructor; cbn; try assumption.
  - rewrite map_app. cbn [map].
    apply NoDup_app; [exact Hoi | repeat constructor; intros [] |].
    intros n Hn [<-|[]]. apply in_map_iff in Hn.
    destruct Hn as (o & Ho & Hin). rewrite Forall_forall in Hos.
    specialize (Hos o Hin). lia.
  - apply Forall_app. split.
    + eapply Forall_impl; [|exact Hos]. simpl. intros; lia.
    + constructor; [lia | constructor].
  - apply Forall_app. split; [exact Hr|]. constructor; [exact Href|].
    constructor.
Qed.

Lemma bind_integer_int (e : db_engine) (n : Z) (c : option int_cell) :
  bind_integer e (VInt n) = Some c -> c = Some (IInt n).
Proof.
  unfold bind_integer. destruct (fits_integer e n); [|discriminate].
  intros H. injection H as <-. reflexivity.
Qed.

Lemma consistent_create_offer (db : vehicle_crm) (data : pyval) :
  consistent db -> consistent (snd (create_offer db data)).
Proof.
  intros H. unfold create_offer.
  destruct data as [| | | | | |d]; try exact H.
  destruct (negb (truthy (dict_get d (lit "vehicle_data") VNone)));
    [exact H|].
  destruct (dict_get d (lit "vehicle_data") VNone) as [| | | | | |vd];
    try exact H.
  destruct (validate_email (dict_get d (lit "client_email") VNone))
    as [[|]|]; try exact H.
  match goal with
  | |- context [save_vehicle_to_db ?vt ?v] =>
      pose proof (consistent_save_vehicle db v H) as H1;
      destruct (save_vehicle_to_db vt v) as [vehicle_id vt'] eqn:Es
  end.
  cbn [snd] in H1.
  destruct vehicle_id as [id|]; [|exact H1].
  destruct (id =? 0)%Z; [exact H1|].
  match goal with
  | |- context [save_offer_to_db ?d1 ?od] =>
      destruct (save_offer_to_db d1 od) as [r db2] eqn:Eo
  end.
  apply save_offer_inv in Eo.
  assert (H2 : consistent db2).
  { destruct Eo as [[_ [-> | ->]] |
                    (row & _ & Hid & Hv & _ & _ & _ & _ & _ & ->)].
    - exact H1.
    - apply consistent_failed_offer, H1.
    - apply (consistent_add_offer (with_vehicles db vt') row H1 Hid).
      cbn [offer_dict dict_get dict_lookup pystr_eqb lit] in Hv.
      apply bind_integer_int in Hv. injection Hv as ->.
      cbn [references_vehicle with_vehicles vehicle_table].
      apply (save_vehicle_returns_row _ _ _ _ Es). }
  destruct r as [offer|]; [|exact H2].
  destruct (offer =? 0)%Z; exact H2.
Qed.

Lemma consistent_update_offer (db : vehicle_crm) (oid : Z) (data : dict) :
  consistent db -> consistent (snd (update_offer db oid data)).
Proof.
  intros H. unfold update_offer.
  destruct (sql_bind (dict_get data (lit "client_email") VNone)) as [e|];
    [|exact H].
  destruct (sql_bind (dict_get data (lit "client_name") VNone)) as [n|];
    [|exact H].
  destruct (sql_bind (dict_get data (lit "offered_price") VNone)) as [p|];
    [|exact H].
  destruct (sql_bind (dict_get data (lit "notes") VNone)) as [t|];
    [|exact H].
  cbn [bind].
  destruct (binds_parameter (engine (vehicle_table db)) oid
            && existsb (offer_has_id oid) (offers db)); [|exact H].
  destruct e as [e|]; [|exact H]. destruct p as [p|]; [|exact H].
  destruct H as [Hu Hi Hs Hoi Hos Hr].
  cbn [snd]. constructor; cbn [vehicle_table offers next_offer_id];
    try assumption.
  - rewrite map_map.
    erewrite map_ext; [exact Hoi|]. intros o.
    destruct (offer_has_id oid o); reflexivity.
  - apply Forall_map. eapply Forall_impl; [|exact Hos]. simpl. intros o.
    destruct (offer_has_id oid o); auto.
  - apply Forall_map. eapply Forall_impl; [|exact Hr]. simpl. intros o.
    destruct (offer_has_id oid o); auto.
Qed.

Lemma consistent_delete_offer (db : vehicle_crm) (oid : Z) :
  consistent db -> consistent (snd (delete_offer db oid)).
Proof.
  intros H. unfold delete_offer.
  destruct (binds_parameter (engine (vehicle_table db)) oid); [|exact H].
  destruct H as [Hu Hi Hs Hoi Hos Hr].
  cbn [snd]. constructor; cbn [vehicle_table offers next_offer_id];
    try assumption.
  - eapply subseq_NoDup; [apply subseq_map_filter | exact Hoi].
  - rewrite Forall_forall in *. intros o Ho. apply filter_In in Ho.
    apply Hos, Ho.
  - rewrite Forall_forall in *. intros o Ho. apply filter_In in Ho.
    apply Hr, Ho.
Qed.

Lemma consistent_delete_vehicle (db : vehicle_crm) (vid : Z) :
  consistent db -> consistent (snd (delete_vehicle db vid)).
Proof.
  intros H. unfold delete_vehicle. cbv zeta.
  destruct (binds_parameter (engine (vehicle_table db)) vid); [|exact H].
  destruct H as [Hu Hi Hs Hoi Hos Hr].
  cbn [snd]. constructor;
    cbn [vehicle_table offers next_offer_id vehicles next_id].
  - unfold unique_urls, stored_urls in *. cbn [vehicles].
    eapply subseq_NoDup; [apply subseq_flat_map_filter | exact Hu].
  - eapply subseq_NoDup; [apply subseq_map_filter | exact Hi].
  - rewrite Forall_forall in *. intros r Hr0. apply filter_In in Hr0.
    apply Hs, Hr0.
  - eapply subseq_NoDup; [apply subseq_map_filter | exact Hoi].
  - rewrite Forall_forall in *. intros o Ho. apply filter_In in Ho.
    apply Hos, Ho.
  - rewrite Forall_forall in *. intros o Ho. apply filter_In in Ho.
    destruct Ho as [Ho Hv]. specialize (Hr o Ho).
    unfold vehicle_is in Hv. unfold references_vehicle in *.
    destruct (offer_vehicle o) as [m|]; [|discriminate]. cbn [vehicles].
    apply existsb_exists in Hr. destruct Hr as (r & Hin & Hm).
    apply existsb_exists. exists r. split; [|exact Hm].
    apply filter_In. split; [exact Hin|].
    unfold has_id in *. apply Z.eqb_eq in Hm. rewrite Hm. exact Hv.
Qed.

Lemma consistent_run (db : vehicle_crm) (op : operation) :
  consistent db -> consistent (run db op).
Proof.
  intros H. destruct op; cbn [run].
  - apply consistent_save_vehicle, H.
  - apply consistent_create_offer, H.
  - apply consistent_update_vehicle, H.
  - apply consistent_update_offer, H.
  - apply consistent_delete_vehicle, H.
  - apply consistent_delete_offer, H.
Qed.

Lemma consistent_empty (e : db_engine) : consistent (empty_crm e).
Proof. constructor; cbn; constructor. Qed.

(** X11. Whatever the calls that write to the store, from the empty tables on
    and on either engine: no two vehicles share a URL or an id, no id is
    used again, and every offer is the offer of a vehicle that is stored -
    although SQLite does not check the foreign key. *)
Theorem store_stays_consistent (e : db_engine) (ops : list operation) :
  consistent (fold_left run ops (empty_crm e)).
Proof.
  generalize (consistent_empty e). generalize (empty_crm e).
  induction ops as [|op ops IH]; intros db H; cbn [fold_left].
  - exact H.
  - apply IH, consistent_run, H.
Qed.

(* ---------------------------------------------------------------- *)
(** *** Saving, reading, updating and deleting a vehicle *)
(* ---------------------------------------------------------------- *)

Lemma find_none_existsb {A : Type} (f : A -> bool) (l : list A) :
  existsb f l = false -> find f l = None.
Proof.
  induction l as [|a l IH]; simpl; [reflexivity|].
  destruct (f a); [discriminate | exact IH].
Qed.

Lemma find_app_none {A : Type} (f : A -> bool) (l1 l2 : list A) :
  find f l1 = None -> find f (l1 ++ l2) = find f l2.
Proof.
  induction l1 as [|a l1 IH]; simpl; [reflexivity|].
  destruct (f a); [discriminate | exact IH].
Qed.

Lemma save_vehicle_found (db : database) (vd : dict) (u : pystr)
      (row : vehicle_row) :
  dict_get vd (lit "url") (VStr []) = VStr u -> u <> [] ->
  find (url_is u) (vehicles db) = Some row ->
  save_vehicle_to_db db vd = (Some (row_id row), db).
Proof.
  intros Hget Hne Hfind. unfold save_vehicle_to_db, save_vehicle_body.
  rewrite Hget. destruct u as [|c u]; [contradiction|].
  cbn [truthy select_id_by_url sql_bind bind]. rewrite Hfind. reflexivity.
Qed.

(** X12. Saving is idempotent by URL: once a record with a non-empty URL has
    been saved, saving a record with that URL again - the same or another -
    returns the same id and leaves the table as it is. *)
Theorem saving_again_returns_the_same_vehicle
        (db db' : database) (vd vd' : dict) (id : Z) (u : pystr) :
  save_vehicle_to_db db vd = (Some id, db') ->
  dict_get vd (lit "url") (VStr []) = VStr u -> u <> [] ->
  dict_get vd' (lit "url") (VStr []) = VStr u ->
  save_vehicle_to_db db' vd' = (Some id, db').
Proof.
  intros Hsave Hget Hne Hget'. apply save_vehicle_inv in Hsave.
  rewrite Hget in Hsave. cbn [sql_bind] in Hsave.
  destruct Hsave as [[-> H] | [[_ H] |
                     (row & H & Hid & Hurl & _ & _ & Hnew & ->)]].
  - destruct H as (row & t & _ & <- & Ht & Hfind).
    injection Ht as <-.
    apply (save_vehicle_found db vd' u row Hget' Hne Hfind).
  - discriminate.
  - injection H as ->. injection Hurl as Hurl. symmetry in Hurl.
    rewrite <- Hid.
    apply (save_vehicle_found _ vd' u row Hget' Hne). cbn [vehicles].
    rewrite find_app_none
      by (apply find_none_existsb, Hnew, Hurl).
    cbn [find]. apply url_is_true in Hurl. rewrite Hurl. reflexivity.
Qed.

Lemma save_offer_vehicle_table (db : vehicle_crm) (od : dict) :
  vehicle_table (snd (save_offer_to_db db od)) = vehicle_table db.
Proof.
  destruct (save_offer_to_db db od) as [r db'] eqn:E.
  apply save_offer_inv in E. cbn [snd].
  destruct E as [[_ [-> | ->]] | (row & _ & _ & _ & _ & _ & _ & _ & _ & ->)];
    try reflexivity.
  unfold failed_offer_insert. destruct (engine (vehicle_table db));
    reflexivity.
Qed.

(** X13. An offer on a vehicle that is stored under its URL adds no vehicle and
    changes none; the offer that is created is an offer of the stored
    vehicle. *)
Theorem offer_on_stored_vehicle
        (db : vehicle_crm) (d vd : dict) (u : pystr) (row : vehicle_row) :
  unique_urls (vehicle_table db) ->
  In row (vehicles (vehicle_table db)) -> row_url row = Some u -> u <> [] ->
  dict_get d (lit "vehicle_data") VNone = VDict vd ->
  dict_get vd (lit "url") (VStr []) = VStr u ->
  vehicle_table (snd (create_offer db (VDict d))) = vehicle_table db /\
  forall offer vehicle,
    fst (create_offer db (VDict d)) = Created offer vehicle ->
    vehicle = row_id row.
Proof.
  intros Hu Hin Hurl Hne Hvd Hget.
  assert (Hsave : save_vehicle_to_db (vehicle_table db) (vehicle_dict vd)
                  = (Some (row_id row), vehicle_table db)).
  { apply (save_vehicle_found _ _ u row); [exact Hget | exact Hne |].
    apply find_unique_url; assumption. }
  unfold create_offer. rewrite Hvd.
  destruct (negb (truthy (VDict vd)));
    [split; [reflexivity | intros ? ?; discriminate]|].
  destruct (validate_email (dict_get d (lit "client_email") VNone))
    as [[|]|]; try (split; [reflexivity | intros ? ?; discriminate]).
  rewrite Hsave.
  destruct (row_id row =? 0)%Z;
    [split; [reflexivity | intros ? ?; discriminate]|].
  match goal with
  | |- context [save_offer_to_db ?d1 ?od] =>
      pose proof (save_offer_vehicle_table d1 od) as Hvt;
      destruct (save_offer_to_db d1 od) as [r db2]
  end.
  cbn [snd with_vehicles vehicle_table] in Hvt.
  destruct r as [offer|];
    [|split; [exact Hvt | intros ? ?; discriminate]].
  destruct (offer =? 0)%Z;
    [split; [exact Hvt | intros ? ?; discriminate]|].
  split; [exact Hvt|]. cbn [fst]. intros o v H. injection H as _ <-.
  reflexivity.
Qed.

Lemma validate_email_str (v : pyval) :
  validate_email v = Ok true ->
  exists s, v = VStr s /\ re_match_to_end email_pattern s = true.
Proof.
  destruct v; try discriminate. cbn [validate_email].
  intros H. injection H as H. eauto.
Qed.

(** X14. An offer that is created is stored: under the id returned, which was
    never used before, as the offer of the vehicle returned, which is a
    stored vehicle, and with the address of the request, which
    [validate_email] accepts.  The offers that were there remain. *)
Theorem created_offer_is_stored
        (db db' : vehicle_crm) (data : pyval) (offer vehicle : Z) :
  create_offer db data = (Created offer vehicle, db') ->
  exists d row,
    data = VDict d /\
    offers db' = offers db ++ [row] /\
    offer_id row = offer /\ offer = next_offer_id db /\
    offer_vehicle row = IInt vehicle /\
    existsb (has_id vehicle) (vehicles (vehicle_table db')) = true /\
    dict_get d (lit "client_email") VNone = VStr (offer_email row) /\
    validate_email (VStr (offer_email row)) = Ok true.
Proof.
  unfold create_offer.
  destruct data as [| | | | | |d]; try discriminate.
  destruct (negb (truthy (dict_get d (lit "vehicle_data") VNone)));
    [discriminate|].
  destruct (dict_get d (lit "vehicle_data") VNone) as [| | | | | |vd];
    try discriminate.
  destruct (validate_email (dict_get d (lit "client_email") VNone))
    as [[|]|] eqn:Ev; try discriminate.
  apply validate_email_str in Ev as Hs. destruct Hs as (s & Hs & Hm).
  destruct (save_vehicle_to_db (vehicle_table db) (vehicle_dict vd))
    as [vehicle_id vt] eqn:Es.
  destruct vehicle_id as [id|]; [|discriminate].
  destruct (id =? 0)%Z; [discriminate|].
  match goal with
  | |- context [save_offer_to_db ?d1 ?od] =>
      destruct (save_offer_to_db d1 od) as [r db2] eqn:Eo
  end.
  destruct r as [o|]; [|discriminate].
  destruct (o =? 0)%Z; [discriminate|].
  intros H. injection H as -> -> ->.
  apply save_offer_inv in Eo.
  destruct Eo as [[Hr _] | (row & Hr & Hid & Hv & He & _ & _ & _ & _ & ->)];
    [discriminate|].
  injection Hr as ->.
  cbn [offer_dict dict_get dict_lookup pystr_eqb lit] in Hv, He.
  apply bind_integer_int in Hv. injection Hv as Hv.
  rewrite Hs in He. cbn [sql_bind] in He. injection He as He.
  exists d, row. cbn [offers vehicle_table with_vehicles next_offer_id].
  repeat split; auto.
  - apply (save_vehicle_returns_row _ _ _ _ Es).
  - rewrite Hs, He. reflexivity.
  - rewrite <- He. cbn [validate_email]. rewrite Hm. reflexivity.
Qed.




Lemma vehicle_dict_properties (vd : dict) (default : pyval) :
  dict_get (vehicle_dict vd) (lit "properties") default
  = dict_get vd (lit "properties") (VDict []).
Proof. reflexivity. Qed.




Lemma bind_all_nth (vs : list pyval) (cs : list (option pystr)) :
  bind_all vs = Ok cs ->
  List.length cs = List.length vs /\
  forall i, (i < List.length vs)%nat ->
            sql_bind (nth i vs VNone) = Ok (nth i cs None).
Proof.
  revert cs. induction vs as [|v vs IH]; intros cs; cbn [bind_all].
  - intros H. injection H as <-. split; [reflexivity|].
    intros i Hi. inversion Hi.
  - destruct (sql_bind v) as [c|] eqn:Ev; [|discriminate]. cbn [bind].
    destruct (bind_all vs) as [cs'|]; [|discriminate]. cbn [bind].
    intros H. injection H as <-. destruct (IH cs' eq_refl) as [Hlen Hnth].
    split; [cbn [List.length]; rewrite Hlen; reflexivity|].
    intros [|i] Hi; [exact Ev|]. cbn [nth]. apply Hnth.
    cbn [List.length] in Hi. lia.
Qed.

Lemma read_back_bound (v : pyval) (c : option pystr) :
  sql_bind v = Ok c -> read_back v = cell_value c.
Proof. unfold read_back. intros ->. reflexivity. Qed.

Lemma truthy_present (d : dict) (k : pystr) (default : pyval) :
  truthy (dict_get d k VNone) = true ->
  dict_get d k default = dict_get d k VNone.
Proof.
  unfold dict_get. destruct (dict_lookup d k); [reflexivity | discriminate].
Qed.

Lemma find_fresh_id (db : database) (row : vehicle_row) :
  ids_in_order db -> row_id row = next_id db ->
  find (has_id (next_id db)) (vehicles db ++ [row]) = Some row.
Proof.
  intros [_ Hlt] Hid. rewrite find_app_none.
  - cbn [find]. unfold has_id. rewrite Hid, Z.eqb_refl. reflexivity.
  - apply find_none_existsb.
    destruct (existsb (has_id (next_id db)) (vehicles db)) eqn:E;
      [|reflexivity].
    apply existsb_exists in E. destruct E as (r & Hin & Hr).
    unfold has_id in Hr. apply Z.eqb_eq in Hr.
    rewrite Forall_forall in Hlt. specialize (Hlt r Hin). lia.
Qed.

(** X16. What is saved is what is read: after a record with a URL that was not
    stored has been saved, [get_vehicle_by_id] on the id returned gives
    the id, the URL, each text field as the column gives it back (a string
    as itself, an absent field as [None]) and the properties - those of
    the record when they survive [json.dumps] and [json.loads], the empty
    mapping for properties that are empty or absent. *)
Theorem saved_vehicle_is_read_back
        (db db' : database) (vd : dict) (id : Z) (u : pystr) :
  ids_in_order db ->
  dict_get vd (lit "url") (VStr []) = VStr u ->
  ~ In u (stored_urls db) ->
  (truthy (dict_get vd (lit "properties") VNone) = true ->
   json_dumps (dict_get vd (lit "properties") VNone) <> [] /\
   json_loads (json_dumps (dict_get vd (lit "properties") VNone))
   = Ok (dict_get vd (lit "properties") VNone)) ->
  save_vehicle_to_db db vd = (Some id, db') ->
  binds_parameter (engine db) id = true ->
  exists record,
    get_vehicle_by_id db' id = Some record /\
    dict_lookup record (lit "id") = Some (VInt id) /\
    dict_lookup record (lit "url") = Some (VStr u) /\
    (forall k, In k text_keys ->
               dict_lookup record k
               = Some (read_back (dict_get vd k VNone))) /\
    dict_lookup record (lit "properties")
    = Some (if truthy (dict_get vd (lit "properties") VNone)
            then dict_get vd (lit "properties") VNone
            else VDict []).
Proof.
  intros Hids Hurl Hnew Hjson Hsave Hbinds.
  apply save_vehicle_inv in Hsave. rewrite Hurl in Hsave.
  cbn [sql_bind] in Hsave.
  destruct Hsave as [[_ H] | [[_ H] |
                     (row & H & Hid & Hu & Ht & Hcs & _ & ->)]].
  - exfalso. destruct H as (row & t & Hin & _ & Ht & Hfind).
    injection Ht as <-. apply find_some in Hfind.
    destruct Hfind as [_ Hrow]. apply Hnew, existsb_url_is.
    apply existsb_exists. eauto.
  - discriminate.
  - injection H as ->. injection Hu as Hu.
    apply bind_all_nth in Hcs. destruct Hcs as [_ Hcs].
    cbn [List.length] in Hcs.
    pose proof (Hcs 0%nat ltac:(lia)) as H0.
    pose proof (Hcs 1%nat ltac:(lia)) as H1.
    pose proof (Hcs 2%nat ltac:(lia)) as H2.
    pose proof (Hcs 3%nat ltac:(lia)) as H3.
    pose proof (Hcs 4%nat ltac:(lia)) as H4.
    pose proof (Hcs 5%nat ltac:(lia)) as H5.
    pose proof (Hcs 6%nat ltac:(lia)) as H6.
    cbn [nth] in H0, H1, H2, H3, H4, H5, H6.
    unfold get_vehicle_by_id. cbn [engine vehicles]. rewrite Hbinds.
    rewrite (find_fresh_id db row Hids Hid).
    assert (Hprops :
              match column row 6 with
              | Some (c :: text) => json_loads (c :: text)
              | _ => Ok (VDict [])
              end
              = Ok (if truthy (dict_get vd (lit "properties") VNone)
                    then dict_get vd (lit "properties") VNone
                    else VDict [])).
    { unfold column.
      destruct (truthy (dict_get vd (lit "properties") VNone)) eqn:Ep.
      - rewrite (truthy_present vd _ (VDict []) Ep) in H6.
        cbn [sql_bind] in H6. injection H6 as <-.
        destruct (Hjson eq_refl) as [Hne Hload].
        destruct (json_dumps (dict_get vd (lit "properties") VNone))
          as [|c text]; [contradiction | exact Hload].
      - cbn [sql_bind] in H6. injection H6 as <-. reflexivity. }
    rewrite Hprops. eexists. split; [reflexivity|].
    split; [rewrite Hid; reflexivity|].
    split; [rewrite <- Hu; reflexivity|].
    split; [|reflexivity].
    intros k Hk. unfold text_keys in Hk. cbn [In] in Hk. unfold column.
    destruct Hk as [<- | [<- | [<- | [<- | [<- | [<- | [<- | []]]]]]]].
    + rewrite (read_back_bound _ _ Ht). reflexivity.
    + rewrite (read_back_bound _ _ H0). reflexivity.
    + rewrite (read_back_bound _ _ H1). reflexivity.
    + rewrite (read_back_bound _ _ H2). reflexivity.
    + rewrite (read_back_bound _ _ H3). reflexivity.
    + rewrite (read_back_bound _ _ H4). reflexivity.
    + rewrite (read_back_bound _ _ H5). reflexivity.
Qed.

Lemma find_map_preserving {A : Type} (p : A -> bool) (f : A -> A)
      (l : list A) :
  (forall a, p (f a) = p a) ->
  find p (map f l) = option_map f (find p l).
Proof.
  intros H. induction l as [|a l IH]; [reflexivity|].
  cbn [map find]. rewrite H. destruct (p a); [reflexivity | exact IH].
Qed.

Lemma find_filter_other {A : Type} (p q : A -> bool) (l : list A) :
  (forall a, p a = true -> q a = true) ->
  find p (filter q l) = find p l.
Proof.
  intros H. induction l as [|a l IH]; [reflexivity|].
  cbn [filter find]. destruct (p a) eqn:Ep.
  - rewrite (H a Ep). cbn [find]. rewrite Ep. reflexivity.
  - destruct (q a); [cbn [find]; rewrite Ep|]; exact IH.
Qed.

Lemma find_filter_none {A : Type} (p q : A -> bool) (l : list A) :
  (forall a, q a = true -> p a = false) ->
  find p (filter q l) = None.
Proof.
  intros H. induction l as [|a l IH]; [reflexivity|].
  cbn [filter]. destruct (q a) eqn:Eq; [|exact IH].
  cbn [find]. rewrite (H a Eq). exact IH.
Qed.

Lemma nth_skipn_6 {A : Type} (l : list A) (d : A) :
  nth 0 (skipn 6 l) d = nth 6 l d.
Proof.
  destruct l as [|? [|? [|? [|? [|? [|? [|? ?]]]]]]]; reflexivity.
Qed.

Lemma has_id_updated (n vid : Z) (t u : option pystr)
      (cs : list (option pystr)) (r : vehicle_row) :
  has_id n (if has_id vid r then updated_row r t u cs else r) = has_id n r.
Proof. destruct (has_id vid r); reflexivity. Qed.

(** X17. An update replaces the row: after [update_vehicle] has answered [True],
    [get_vehicle_by_id] gives for the title, the URL and each other text
    field what the columns give back for the fields of [data] - [None] for
    a field that [data] does not hold -, the properties are those of
    before, and every other vehicle reads as before. *)
Theorem updated_vehicle_is_read_back
        (db db' : database) (vid : Z) (data old : dict) :
  update_vehicle db vid data = (true, db') ->
  get_vehicle_by_id db vid = Some old ->
  exists record,
    get_vehicle_by_id db' vid = Some record /\
    dict_lookup record (lit "id") = Some (VInt vid) /\
    (forall k, In k (lit "url" :: text_keys) ->
               dict_lookup record k
               = Some (read_back (dict_get data k VNone))) /\
    dict_lookup record (lit "properties")
    = dict_lookup old (lit "properties") /\
    forall n, n <> vid -> get_vehicle_by_id db' n = get_vehicle_by_id db n.
Proof.
  intros Hupd Hold. apply update_vehicle_inv in Hupd.
  destruct Hupd as [[H _] |
                    (t & u & cs & _ & Ht & Hu & Hcs & Hb & _ & _ & ->)];
    [discriminate|].
  apply bind_all_nth in Hcs. destruct Hcs as [Hlen Hcs].
  cbn [List.length] in Hcs, Hlen.
  pose proof (Hcs 0%nat ltac:(lia)) as H0.
  pose proof (Hcs 1%nat ltac:(lia)) as H1.
  pose proof (Hcs 2%nat ltac:(lia)) as H2.
  pose proof (Hcs 3%nat ltac:(lia)) as H3.
  pose proof (Hcs 4%nat ltac:(lia)) as H4.
  pose proof (Hcs 5%nat ltac:(lia)) as H5.
  cbn [nth] in H0, H1, H2, H3, H4, H5. clear Hcs.
  destruct cs as [|c0 [|c1 [|c2 [|c3 [|c4 [|c5 [|c6 cs]]]]]]];
    try discriminate Hlen. clear Hlen. cbn [nth] in *.
  unfold get_vehicle_by_id in *. cbn [engine vehicles].
  rewrite Hb in Hold.
  assert (Hfind : forall n,
             find (has_id n)
                  (map (fun r => if has_id vid r
                                 then updated_row r (Some t) u
                                        [c0; c1; c2; c3; c4; c5]
                                 else r) (vehicles db))
             = option_map (fun r => if has_id vid r
                                    then updated_row r (Some t) u
                                           [c0; c1; c2; c3; c4; c5]
                                    else r)
                          (find (has_id n) (vehicles db))).
  { intros n. apply find_map_preserving. intros r. apply has_id_updated. }
  destruct (find (has_id vid) (vehicles db)) as [r|] eqn:Er;
    [|discriminate].
  apply find_some in Er as Hr. destruct Hr as [_ Hr].
  assert (Hcol : column (updated_row r (Some t) u [c0; c1; c2; c3; c4; c5]) 6
                 = column r 6).
  { unfold column, updated_row. cbn [row_columns app nth].
    apply nth_skipn_6. }
  rewrite Hb, Hfind, Er. cbn [option_map]. rewrite Hr, Hcol.
  destruct (match column r 6 with
            | Some (c :: text) => json_loads (c :: text)
            | _ => Ok (VDict [])
            end) as [properties|]; [|discriminate].
  injection Hold as <-.
  eexists. split; [reflexivity|].
  split; [unfold has_id in Hr; apply Z.eqb_eq in Hr; rewrite <- Hr;
          reflexivity|].
  split; [|split; [reflexivity|]].
  - intros k Hk. unfold text_keys in Hk. cbn [In] in Hk. unfold column.
    destruct Hk as [<- | [<- | [<- | [<- | [<- | [<- | [<- | [<- | []]]]]]]]].
    + rewrite (read_back_bound _ _ Hu). reflexivity.
    + rewrite (read_back_bound _ _ Ht). reflexivity.
    + rewrite (read_back_bound _ _ H0). reflexivity.
    + rewrite (read_back_bound _ _ H1). reflexivity.
    + rewrite (read_back_bound _ _ H2). reflexivity.
    + rewrite (read_back_bound _ _ H3). reflexivity.
    + rewrite (read_back_bound _ _ H4). reflexivity.
    + rewrite (read_back_bound _ _ H5). reflexivity.
  - intros n Hn. rewrite Hfind.
    destruct (binds_parameter (engine db) n); [|reflexivity].
    destruct (find (has_id n) (vehicles db)) as [r'|] eqn:Er';
      [|reflexivity].
    cbn [option_map]. apply find_some in Er'. destruct Er' as [_ Hr'].
    assert (Hv : has_id vid r' = false).
    { unfold has_id in *. apply Z.eqb_eq in Hr'. apply Z.eqb_neq. lia. }
    rewrite Hv. reflexivity.
Qed.

(** X18. A vehicle that is deleted is gone with its offers, and nothing else
    is: [get_vehicle_by_id] finds it no more, no offer of it is left,
    every other vehicle reads as before and the offers of the other
    vehicles remain; the answer tells whether the vehicle was there. *)
Theorem deleted_vehicle_is_gone (db : vehicle_crm) (vid : Z) :
  binds_parameter (engine (vehicle_table db)) vid = true ->
  fst (delete_vehicle db vid)
  = existsb (has_id vid) (vehicles (vehicle_table db)) /\
  get_vehicle_by_id (vehicle_table (snd (delete_vehicle db vid))) vid
  = None /\
  existsb (vehicle_is vid) (offers (snd (delete_vehicle db vid))) = false /\
  (forall n, n <> vid ->
             get_vehicle_by_id (vehicle_table (snd (delete_vehicle db vid))) n
             = get_vehicle_by_id (vehicle_table db) n) /\
  (forall o, In o (offers db) -> vehicle_is vid o = false ->
             In o (offers (snd (delete_vehicle db vid)))).
Proof.
  intros Hb. unfold delete_vehicle. cbv zeta. rewrite Hb.
  cbn [fst snd vehicle_table offers].
  split; [reflexivity|]. split; [|split; [|split]].
  - unfold get_vehicle_by_id. cbn [engine vehicles]. rewrite Hb.
    rewrite find_filter_none; [reflexivity|].
    intros r Hr. destruct (has_id vid r); [discriminate | reflexivity].
  - destruct (existsb (vehicle_is vid)
                (filter (fun o => negb (vehicle_is vid o)) (offers db)))
      eqn:E; [|reflexivity].
    apply existsb_exists in E. destruct E as (o & Ho & Hv).
    apply filter_In in Ho. destruct Ho as [_ Ho]. rewrite Hv in Ho.
    discriminate.
  - intros n Hn. unfold get_vehicle_by_id. cbn [engine vehicles].
    rewrite find_filter_other; [reflexivity|].
    intros r Hr. unfold has_id in *. apply Z.eqb_eq in Hr.
    apply negb_true_iff, Z.eqb_neq. lia.
  - intros o Ho Hv. apply filter_In. split; [exact Ho|].
    rewrite Hv. reflexivity.
Qed.

Lemma nodup_nil_iff (l : list pystr) :
  nodup pystr_eq_dec l = [] <-> l = [].
Proof.
  split; [|intros ->; reflexivity].
  destruct l as [|a l]; [reflexivity|]. intros H. exfalso.
  assert (Hin : In a (nodup pystr_eq_dec (a :: l)))
    by (apply nodup_In; left; reflexivity).
  rewrite H in Hin. destruct Hin.
Qed.

(** X19. The numbers of the dashboard: the clients counted are at most as many
    as the offers, and there is none exactly when there is no offer. *)
Theorem dashboard_counts_clients_within_offers (db : vehicle_crm) :
  exists v o c,
    get_dashboard_stats db
    = [ (lit "total_vehicles", VInt v); (lit "total_offers", VInt o);
        (lit "unique_clients", VInt c) ] /\
    v = Z.of_nat (List.length (vehicles (vehicle_table db))) /\
    o = Z.of_nat (List.length (offers db)) /\
    (0 <= c <= o)%Z /\ (c = 0%Z <-> o = 0%Z).
Proof.
  unfold get_dashboard_stats. eexists. eexists. eexists.
  split; [reflexivity|]. split; [reflexivity|]. split; [reflexivity|].
  set (emails := map offer_email (offers db)).
  assert (Hlen : List.length emails = List.length (offers db))
    by apply length_map.
  assert (Hle : (List.length (nodup pystr_eq_dec emails)
                 <= List.length emails)%nat).
  { apply NoDup_incl_length; [apply NoDup_nodup|].
    intros x Hx. exact (proj1 (nodup_In pystr_eq_dec emails x) Hx). }
  split; [lia|]. split; intros H.
  - assert (Hn : nodup pystr_eq_dec emails = [])
      by (apply length_zero_iff_nil; lia).
    apply (proj1 (nodup_nil_iff emails)) in Hn.
    rewrite <- Hlen, Hn. reflexivity.
  - assert (He : emails = [])
      by (apply length_zero_iff_nil; lia).
    rewrite He. reflexivity.
Qed.



(* ---------------------------------------------------------------- *)
(** *** The year of a listing *)
(* ---------------------------------------------------------------- *)

Lemma split_from_no_sep (cur s : pystr) :
  Forall (fun c => (47 =? c) = false) s ->
  split_from [47] 0 cur s = [rev cur ++ s].
Proof.
  intros H. revert cur. induction H as [|c t Hc Ht IH]; intros cur.
  - cbn [split_from]. rewrite app_nil_r. reflexivity.
  - cbn [split_from starts_with]. rewrite Hc. cbn [andb].
    rewrite IH. cbn [rev]. rewrite <- app_assoc. reflexivity.
Qed.

Lemma split_from_nonempty (sep : pystr) (skip : nat) (cur s : pystr) :
  split_from sep skip cur s <> [].
Proof.
  revert skip cur. induction s as [|c t IH]; intros skip cur;
    cbn [split_from]; [discriminate|].
  destruct skip; [|apply IH].
  destruct (starts_with sep (c :: t)); [discriminate | apply IH].
Qed.

Lemma last_cons {A : Type} (a d : A) (l : list A) :
  l <> [] -> last (a :: l) d = last l d.
Proof. destruct l; [contradiction | reflexivity]. Qed.

Lemma split_last (prefix y cur : pystr) :
  Forall (fun c => (47 =? c) = false) y ->
  last_item (split_from [47] 0 cur (prefix ++ 47 :: y)) = y.
Proof.
  intros Hy. unfold last_item. revert cur.
  induction prefix as [|c p IH]; intros cur.
  - cbn [app split_from starts_with N.eqb Pos.eqb andb List.length Nat.sub].
    rewrite (split_from_no_sep [] y Hy). reflexivity.
  - cbn [app split_from starts_with]. destruct (47 =? c); cbn [andb].
    + cbn [List.length Nat.sub].
      rewrite last_cons by apply split_from_nonempty. apply IH.
    + apply IH.
Qed.

Lemma str_contains_app (prefix y : pystr) :
  str_contains [47] (prefix ++ 47 :: y) = true.
Proof.
  induction prefix as [|c p IH]; cbn [app str_contains].
  - reflexivity.
  - rewrite IH. apply orb_true_r.
Qed.

Lemma digits_no_slash (y : pystr) :
  Forall (fun c => is_ascii_digit c = true) y ->
  Forall (fun c => (47 =? c) = false) y.
Proof.
  intros H. eapply Forall_impl; [|exact H]. intros c Hc. cbv beta in *.
  apply ascii_digit_cases in Hc. apply N.eqb_neq. lia.
Qed.

Lemma ends_in_digit_not_na (prefix y : pystr) :
  y <> [] -> Forall (fun c => is_ascii_digit c = true) y ->
  pystr_eqb (prefix ++ y) NA = false.
Proof.
  intros Hne Hy. destruct (pystr_eqb (prefix ++ y) NA) eqn:E;
    [|reflexivity].
  apply pystr_eqb_eq in E. exfalso.
  destruct y as [|c t]; [contradiction|].
  assert (Hin : In c (lit "N/A")).
  { change (lit "N/A") with NA. rewrite <- E. apply in_or_app. right.
    left. reflexivity. }
  inversion Hy as [|? ? Hc _]; subst. apply ascii_digit_cases in Hc.
  cbn in Hin. lia.
Qed.

(** X20. The year of a listing is read from its digits: a year field written
    with ASCII digits gives the number written, and so does a field with a
    month before it ("03/2019"): the part after the last slash counts. *)
Theorem parse_year_reads_month_year (item : dict) (y : pystr) :
  y <> [] ->
  Forall (fun c => is_ascii_digit c = true) y ->
  exceeds_digit_limit (List.length y) = false ->
  (dict_get item (lit "year") (VStr []) = VStr y ->
   parse_year item
   = Ok (Some (Z.of_N (digits_value (map (fun c => c - 48) y))))) /\
  (forall month,
      dict_get item (lit "year") (VStr []) = VStr (month ++ lit "/" ++ y) ->
      parse_year item
      = Ok (Some (Z.of_N (digits_value (map (fun c => c - 48) y))))).
Proof.
  intros Hne Hy Hlim. split.
  - intros Hget. unfold parse_year. rewrite Hget.
    assert (Ht : truthy (VStr y) = true)
      by (destruct y; [contradiction | reflexivity]).
    rewrite Ht. cbn [eq_str py_str].
    pose proof (ends_in_digit_not_na [] y Hne Hy) as Hna.
    cbn [app] in Hna. rewrite Hna. cbn [negb andb].
    assert (Hc : str_contains (lit "/") y = false).
    { clear - Hy. induction Hy as [|c t Hc Ht IH]; [reflexivity|].
      change (lit "/") with [47]. cbn [str_contains starts_with].
      change (lit "/") with [47] in IH. rewrite IH.
      apply ascii_digit_cases in Hc.
      assert (H : (47 =? c) = false) by (apply N.eqb_neq; lia).
      rewrite H. reflexivity. }
    rewrite Hc. cbn [py_int].
    rewrite (int_of_str_digits y Hne Hy Hlim). reflexivity.
  - intros month Hget. unfold parse_year. rewrite Hget.
    change (lit "/" ++ y) with (47 :: y).
    assert (Ht : truthy (VStr (month ++ 47 :: y)) = true)
      by (destruct month; reflexivity).
    rewrite Ht. cbn [eq_str py_str].
    change (month ++ 47 :: y) with (month ++ [47] ++ y).
    rewrite app_assoc.
    rewrite (ends_in_digit_not_na (month ++ [47]) y Hne Hy).
    rewrite <- app_assoc. cbn [negb andb app].
    change (lit "/") with [47]. rewrite str_contains_app.
    cbn [py_split bind]. unfold str_split.
    rewrite (split_last month y [] (digits_no_slash y Hy)).
    rewrite (int_of_str_digits y Hne Hy Hlim). reflexivity.
Qed.

(** X21. [create_offer] saves the details record of [get_vehicle_details] as
    it is: the defaults of [vehicle_dict] change nothing in it. *)
Theorem offer_saves_the_details_record
        (db : database) (item : dict) (url : pyval) (details : dict) :
  get_vehicle_details_record item url = Ok details ->
  save_vehicle_to_db db (vehicle_dict details)
  = save_vehicle_to_db db details.
Proof.
  unfold get_vehicle_details_record.
  destruct (py_get (dict_get item (lit "properties") (VDict []))
                   (lit "milage")
                   (dict_get item (lit "mileage") (VStr NA))) as [m|];
    [|discriminate].
  destruct (py_get (dict_get item (lit "properties") (VDict []))
                   (lit "firstRegistration")
                   (dict_get item (lit "year") (VStr NA))) as [y|];
    [|discriminate].
  cbn [bind]. intros H. injection H as <-. reflexivity.
Qed.

(* ---------------------------------------------------------------- *)
(** *** Numbers that were integers in the scraped record *)
(* ---------------------------------------------------------------- *)

Lemma uint_codes_digits (u : Decimal.uint) :
  Forall (fun c => is_ascii_digit c = true) (uint_codes u).
Proof. induction u; cbn [uint_codes]; constructor; auto. Qed.

Lemma uint_codes_acc (u : Decimal.uint) (acc : positive) :
  fold_left (fun a d => 10 * a + d) (map (fun c => c - 48) (uint_codes u))
            (N.pos acc)
  = N.pos (Pos.of_uint_acc u acc).
Proof.
  revert acc.
  induction u; intros acc; cbn [uint_codes map fold_left Pos.of_uint_acc];
    [reflexivity | ..]; rewrite <- IHu; f_equal; lia.
Qed.

Lemma uint_codes_value (u : Decimal.uint) :
  digits_value (map (fun c => c - 48) (uint_codes u)) = N.of_uint u.
Proof.
  unfold digits_value, N.of_uint.
  induction u; cbn [uint_codes map fold_left Pos.of_uint];
    [reflexivity | exact IHu | ..]; apply uint_codes_acc.
Qed.

Lemma uint_codes_nonempty (m : N) : uint_codes (N.to_uint m) <> [].
Proof.
  destruct m as [|p]; [discriminate|]. cbn [N.to_uint].
  pose proof (Unsigned.to_uint_nonnil p) as H.
  destruct (Pos.to_uint p); [contradiction | ..]; discriminate.
Qed.

Lemma filter_all {A : Type} (f : A -> bool) (l : list A) :
  Forall (fun a => f a = true) l -> filter f l = l.
Proof.
  induction 1 as [|a l Ha Hl IH]; [reflexivity|].
  cbn [filter]. rewrite Ha, IH. reflexivity.
Qed.

(** X22. A number that was an integer in the scraped record is read back as
    that integer: [search] and [get_vehicle_details] store [str(n)], and
    [parse_number] gives [n] for it - also for 0, which is a value and not
    an absent one. *)
Theorem parse_number_reads_back_an_integer (n : Z) :
  (0 <= n)%Z ->
  exceeds_digit_limit (List.length (py_str (VInt n))) = false ->
  parse_number (str_or_na (VInt n)) = Ok (Some n).
Proof.
  intros Hn Hlim. unfold str_or_na. cbn [eq_str negb py_str] in *.
  unfold str_of_int in *.
  assert (Hneg : (n <? 0)%Z = false) by (apply Z.ltb_ge; exact Hn).
  rewrite Hneg in *.
  set (ds := uint_codes (N.to_uint (Z.abs_N n))) in *.
  assert (Hds : Forall (fun c => is_ascii_digit c = true) ds)
    by apply uint_codes_digits.
  assert (Hne : ds <> []) by apply uint_codes_nonempty.
  rewrite parse_number_cleaned.
  assert (Ht : truthy (VStr ds) = true)
    by (destruct ds; [contradiction | reflexivity]).
  pose proof (ends_in_digit_not_na [] ds Hne Hds) as Hna. cbn [app] in Hna.
  rewrite Ht. cbn [eq_str negb orb]. rewrite Hna.
  assert (Hclean : cleaned_number ds = ds).
  { pose proof (cleaned_formatted ds [] []) as H.
    cbn [app] in H. rewrite app_nil_r in H. rewrite H.
    - apply filter_all, Hds.
    - eapply Forall_impl; [|exact Hds]. intros c Hc. left. exact Hc.
    - constructor.
    - left. reflexivity. }
  rewrite Hclean. destruct ds as [|c t] eqn:Eds; [contradiction|].
  rewrite <- Eds in *. rewrite (int_of_str_digits ds Hne Hds Hlim).
  cbn [bind try_except_ValueError]. subst ds.
  rewrite uint_codes_value, DecimalN.Unsigned.of_to.
  rewrite N2Z.inj_abs_N, Z.abs_eq by exact Hn. reflexivity.
Qed.

(* ---------------------------------------------------------------- *)
(** *** Requests that are turned down *)
(* ---------------------------------------------------------------- *)

(** X23. [create_offer] writes nothing before the request has passed its
    checks: an answer with the status 400, and an answer for an exception,
    leave the store as it was.  A request whose [client_email] is not a
    string - it is absent, or null - is not answered 400: [validate_email]
    raises a [TypeError], and the answer is that of an exception. *)
Theorem create_offer_checks_before_writing
        (db : vehicle_crm) (data : pyval) :
  (forall error, fst (create_offer db data) = Refused 400 error ->
                 snd (create_offer db data) = db) /\
  (forall e, fst (create_offer db data) = Failed e ->
             snd (create_offer db data) = db) /\
  (forall d vd,
      data = VDict d ->
      dict_get d (lit "vehicle_data") VNone = VDict vd -> vd <> [] ->
      (forall s, dict_get d (lit "client_email") VNone <> VStr s) ->
      create_offer db data = (Failed TypeError, db)).
Proof.
  split; [|split].
  - intros error. unfold create_offer.
    destruct data as [| | | | | |d]; try discriminate.
    destruct (negb (truthy (dict_get d (lit "vehicle_data") VNone)));
      [reflexivity|].
    destruct (dict_get d (lit "vehicle_data") VNone) as [| | | | | |vd];
      try reflexivity.
    destruct (validate_email (dict_get d (lit "client_email") VNone))
      as [[|]|]; try reflexivity.
    destruct (save_vehicle_to_db (vehicle_table db) (vehicle_dict vd))
      as [[id|] vt]; [|discriminate].
    destruct (id =? 0)%Z; [discriminate|].
    match goal with
    | |- context [save_offer_to_db ?d1 ?od] =>
        destruct (save_offer_to_db d1 od) as [[o|] db2]
    end; [|discriminate].
    destruct (o =? 0)%Z; discriminate.
  - intros e. unfold create_offer.
    destruct data as [| | | | | |d]; try reflexivity.
    destruct (negb (truthy (dict_get d (lit "vehicle_data") VNone)));
      [reflexivity|].
    destruct (dict_get d (lit "vehicle_data") VNone) as [| | | | | |vd];
      try reflexivity.
    destruct (validate_email (dict_get d (lit "client_email") VNone))
      as [[|]|]; try reflexivity.
    destruct (save_vehicle_to_db (vehicle_table db) (vehicle_dict vd))
      as [[id|] vt]; [|discriminate].
    destruct (id =? 0)%Z; [discriminate|].
    match goal with
    | |- context [save_offer_to_db ?d1 ?od] =>
        destruct (save_offer_to_db d1 od) as [[o|] db2]
    end; [|discriminate].
    destruct (o =? 0)%Z; discriminate.
  - intros d vd -> Hvd Hne Hmail. unfold create_offer. rewrite Hvd.
    destruct vd as [|kv vd]; [contradiction|]. cbn [truthy negb].
    destruct (dict_get d (lit "client_email") VNone) as [| | | |s| |];
      try reflexivity.
    exfalso. apply (Hmail s). reflexivity.
Qed.

(** X24. An update is turned down as a whole: without a [title] in [data],
    [update_vehicle] answers [False] and changes nothing, whether the
    vehicle exists or not; and so does [update_offer] without
    [client_email] or without [offered_price]. *)
Theorem updates_need_the_required_fields
        (db : vehicle_crm) (id : Z) (data : dict) :
  (dict_get data (lit "title") VNone = VNone ->
   update_vehicle (vehicle_table db) id data = (false, vehicle_table db)) /\
  (dict_get data (lit "client_email") VNone = VNone \/
   dict_get data (lit "offered_price") VNone = VNone ->
   update_offer db id data = (false, db)).
Proof.
  split.
  - intros Ht. unfold update_vehicle. rewrite Ht. cbn [sql_bind bind].
    match goal with
    | |- context [bind_all ?l] => destruct (bind_all l) as [cs|]
    end; [|reflexivity].
    cbn [bind].
    destruct (sql_bind (dict_get data (lit "url") VNone)) as [u|];
      [|reflexivity].
    cbn [bind orb].
    destruct (binds_parameter (engine (vehicle_table db)) id
              && existsb (has_id id) (vehicles (vehicle_table db)));
      reflexivity.
  - intros H. unfold update_offer.
    destruct (sql_bind (dict_get data (lit "client_email") VNone))
      as [e|] eqn:Ee; [|reflexivity].
    destruct (sql_bind (dict_get data (lit "client_name") VNone)) as [n|];
      [|reflexivity].
    destruct (sql_bind (dict_get data (lit "offered_price") VNone))
      as [p|] eqn:Ep; [|reflexivity].
    destruct (sql_bind (dict_get data (lit "notes") VNone)) as [t|];
      [|reflexivity].
    cbn [bind].
    destruct (binds_parameter (engine (vehicle_table db)) id
              && existsb (offer_has_id id) (offers db)); [|reflexivity].
    destruct H as [H|H].
    + rewrite H in Ee. cbn [sql_bind] in Ee. injection Ee as <-.
      reflexivity.
    + rewrite H in Ep. cbn [sql_bind] in Ep. injection Ep as <-.
      destruct e; reflexivity.
Qed.

(* ---------------------------------------------------------------- *)
(** *** Bounds sent as text, and bounds that are not numbers *)
(* ---------------------------------------------------------------- *)

Lemma filter_item_criteria (item criteria criteria' : dict) :
  (forall key, criterion criteria key = criterion criteria' key) ->
  filter_item item criteria = filter_item item criteria'.
Proof. intros H. unfold filter_item. rewrite !H. reflexivity. Qed.

Lemma criterion_set_text (criteria : dict) (key ds : pystr) :
  ds <> [] ->
  Forall (fun c => is_ascii_digit c = true) ds ->
  exceeds_digit_limit (List.length ds) = false ->
  criterion (dict_set criteria key (VStr ds)) key
  = Ok (Some (Z.of_N (digits_value (map (fun c => c - 48) ds)))).
Proof.
  intros Hne Hds Hlim. unfold criterion, dict_item.
  rewrite dict_get_set_same. unfold dict_set. cbn [dict_lookup].
  rewrite pystr_eqb_refl.
  assert (Ht : truthy (VStr ds) = true)
    by (destruct ds; [contradiction | reflexivity]).
  rewrite Ht. cbn [bind py_int].
  rewrite (int_of_str_digits ds Hne Hds Hlim). reflexivity.
Qed.

Lemma criterion_set_any (criteria : dict) (k k' : pystr) (v v' : pyval) :
  criterion (dict_set criteria k v) k = criterion (dict_set criteria k v') k ->
  criterion (dict_set criteria k v) k' = criterion (dict_set criteria k v') k'.
Proof.
  intros H. destruct (pystr_eqb k k') eqn:E.
  - apply pystr_eqb_eq in E. subst k'. exact H.
  - rewrite !(criterion_set_other _ _ _ _ E). reflexivity.
Qed.

(** X25. The search form sends its bounds as text.  A bound written with ASCII
    digits filters as the integer it writes, when that integer is not 0:
    the text "0" is a bound of 0, the integer 0 is no bound. *)
Theorem text_bound_filters_as_its_integer
        (listings : list dict) (criteria : dict) (key ds : pystr) :
  ds <> [] ->
  Forall (fun c => is_ascii_digit c = true) ds ->
  exceeds_digit_limit (List.length ds) = false ->
  digits_value (map (fun c => c - 48) ds) <> 0 ->
  filter_listings listings (dict_set criteria key (VStr ds))
  = filter_listings listings
      (dict_set criteria key
         (VInt (Z.of_N (digits_value (map (fun c => c - 48) ds))))).
Proof.
  intros Hne Hds Hlim Hnz. rewrite !filter_listings_spec. f_equal.
  apply filter_ext. intros item. unfold retains.
  rewrite (filter_item_criteria item
             (dict_set criteria key (VStr ds))
             (dict_set criteria key
                (VInt (Z.of_N (digits_value (map (fun c => c - 48) ds)))))).
  - reflexivity.
  - intros k'. apply criterion_set_any.
    rewrite (criterion_set_text criteria key ds Hne Hds Hlim).
    rewrite criterion_set_int.
    destruct (Z.eqb_spec (Z.of_N (digits_value (map (fun c => c - 48) ds))) 0)
      as [E|E]; [|reflexivity].
    exfalso. apply Hnz. lia.
Qed.

(** X26. A minimum year that is set to something [int()] rejects turns the
    filter off: the conversion raises for every listing, before any bound
    is looked at, and every listing is kept, whatever the other bounds. *)
Theorem malformed_year_bound_disables_filter
        (listings : list dict) (criteria : dict) (e : exn) :
  criterion criteria (lit "modelYear") = Raise e ->
  filter_listings listings criteria = Ok listings.
Proof.
  intros H. rewrite filter_listings_spec. f_equal.
  apply filter_all. apply Forall_forall. intros item _.
  unfold retains, filter_item. rewrite H.
  destruct (parse_year item) as [y|]; [|reflexivity].
  destruct (parse_number (dict_get item (lit "mileage") (VStr [])))
    as [m|]; [|reflexivity].
  destruct (parse_number (dict_get item (lit "price") (VStr [])))
    as [p|]; reflexivity.
Qed.

End Interp.

(* ================================================================== *)
(** ** The properties on the sample records *)
(* ================================================================== *)

(** [int()] on strings, as CPython evaluates it. *)
Lemma int_of_str_conforms :
  int_of_str default_max_str_digits (lit " 5 ") = Ok 5%Z /\
  int_of_str default_max_str_digits (lit "1_000") = Ok 1000%Z /\
  int_of_str default_max_str_digits (lit "_1") = Raise ValueError /\
  int_of_str default_max_str_digits (lit "1__0") = Raise ValueError /\
  int_of_str default_max_str_digits (lit "+5") = Ok 5%Z /\
  int_of_str default_max_str_digits [45; 1635] = Ok (-3)%Z /\
  int_of_str default_max_str_digits [160; 53; 32] = Ok 5%Z /\
  int_of_str default_max_str_digits [28; 53] = Raise ValueError /\
  int_of_str default_max_str_digits [49; 0; 50] = Raise ValueError /\
  int_of_str default_max_str_digits [178] = Raise ValueError /\
  int_of_str default_max_str_digits [] = Raise ValueError /\
  int_of_str default_max_str_digits (lit "007") = Ok 7%Z /\
  Py_UNICODE_ISDIGIT 178 = true /\
  str_of_int (-120)%Z = lit "-120" /\
  str_of_int 0%Z = lit "0".
Proof. vm_compute. repeat split; reflexivity. Qed.

(** The scenario of the specification: the record is normalised to the price
    "30000" and the mileage "50.000 km"; the listing is excluded for a
    maximal mileage of 40000 and kept for 60000. *)
Lemma scenario_of_the_specification :
  exists listing,
    search_listing no_repr scenario_record = Ok listing /\
    dict_lookup listing (lit "price") = Some (VStr (lit "30000")) /\
    dict_lookup listing (lit "mileage") = Some (VStr (lit "50.000 km")) /\
    filter_listings default_max_str_digits no_repr [listing]
      scenario_criteria_40000 = Ok [] /\
    filter_listings default_max_str_digits no_repr [listing]
      scenario_criteria_60000 = Ok [listing].
Proof. eexists. split; [reflexivity|]. vm_compute. repeat split; reflexivity. Qed.

(** C1, as stated, fails: a listing without a usable mileage is excluded,
    under criteria that bound the mileage, when its price is above the
    maximal price; and likewise a listing without a usable price whose
    mileage is above the maximal mileage. *)
Lemma unparsable_field_listing_excluded :
  parse_number default_max_str_digits no_repr
    (dict_get listing_no_mileage (lit "mileage") (VStr [])) = Ok None /\
  bound_set criteria_mileage_price (lit "mileage") = true /\
  filter_listings default_max_str_digits no_repr [listing_no_mileage]
    criteria_mileage_price = Ok [] /\
  parse_number default_max_str_digits no_repr
    (dict_get listing_no_price (lit "price") (VStr [])) = Ok None /\
  bound_set criteria_mileage_price (lit "price") = true /\
  filter_listings default_max_str_digits no_repr [listing_no_price]
    criteria_mileage_price = Ok [].
Proof. vm_compute. repeat split; reflexivity. Qed.

(** The bound on the mileage is skipped for a listing without a usable
    mileage whose price is within the maximal price. *)
Lemma unparsable_field_bound_is_skipped_witness :
  filter_listings default_max_str_digits no_repr [listing_no_mileage_cheap]
    criteria_mileage_price = Ok [listing_no_mileage_cheap].
Proof.
  destruct (unparsable_field_bound_is_skipped default_max_str_digits no_repr
              listing_no_mileage_cheap criteria_mileage_price (lit "mileage"))
    as [H _].
  - left; reflexivity.
  - vm_compute; reflexivity.
  - apply H. vm_compute; reflexivity.
Defined.

(** C3, as stated, fails: on the empty mapping the url of the record is the
    URL of the request and the properties the empty mapping, not "N/A"; the
    listing of [search] has the title "Vehicle", an empty url and no fuel;
    a null title stays null; a null [properties] makes the construction
    raise. *)
Lemma normalisation_not_all_na :
  get_vehicle_details_record no_repr [] request_url
  = Ok [ (lit "title", VStr NA); (lit "price", VStr NA);
         (lit "url", request_url); (lit "mileage", VStr NA);
         (lit "year", VStr NA); (lit "fuel", VStr NA);
         (lit "transmission", VStr NA); (lit "power", VStr NA);
         (lit "properties", VDict []) ] /\
  search_listing no_repr []
  = Ok [ (lit "title", VStr (lit "Vehicle")); (lit "price", VStr NA);
         (lit "mileage", VStr NA); (lit "year", VStr NA);
         (lit "url", VStr []) ] /\
  (exists details,
      get_vehicle_details_record no_repr record_null_title request_url = Ok details /\
      dict_lookup details (lit "title") = Some VNone) /\
  get_vehicle_details_record no_repr record_null_properties request_url
  = Raise AttributeError.
Proof.
  split; [reflexivity|]. split; [reflexivity|].
  split; [eexists; split; reflexivity | reflexivity].
Qed.

(** The fields of the record built from the empty mapping. *)
Lemma normalisation_populates_fields_witness :
  exists details listing,
    get_vehicle_details_record no_repr [] request_url = Ok details /\
    search_listing no_repr [] = Ok listing /\
    dict_lookup details (lit "fuel") = Some (VStr NA) /\
    dict_lookup details (lit "url") = Some request_url /\
    dict_lookup details (lit "properties") = Some (VDict []).
Proof.
  destruct (normalisation_populates_fields no_repr [] request_url []
              eq_refl)
    as (details & listing & Hd & Hl & _ & _ & _ & Hna & _ & _ & _ & Hurl
        & Hprops & _).
  exists details, listing.
  split; [exact Hd|]. split; [exact Hl|].
  split; [apply Hna; [simpl; tauto | reflexivity]|].
  split; [apply Hurl; reflexivity | apply Hprops; reflexivity].
Defined.

(** C4, as stated, fails: each of these listings violates a bound that is
    present with a parsed value, and is kept.  The year 0 is below 2000;
    the price 50000 is above 30000 while the year is not a number, or while
    the bound on the year is not a number; the mileage 5 is above the
    bound 0. *)
Lemma stated_exclusion_not_excluded :
  (stated_exclusion default_max_str_digits no_repr
     listing_year_zero criteria_year = true /\
   filter_listings default_max_str_digits no_repr
     [listing_year_zero] criteria_year = Ok [listing_year_zero]) /\
  (stated_exclusion default_max_str_digits no_repr
     listing_year_text criteria_price = true /\
   filter_listings default_max_str_digits no_repr
     [listing_year_text] criteria_price = Ok [listing_year_text]) /\
  (stated_exclusion default_max_str_digits no_repr
     listing_pricey criteria_year_malformed = true /\
   filter_listings default_max_str_digits no_repr
     [listing_pricey] criteria_year_malformed = Ok [listing_pricey]) /\
  (stated_exclusion default_max_str_digits no_repr
     listing_five_km criteria_mileage_zero = true /\
   filter_listings default_max_str_digits no_repr
     [listing_five_km] criteria_mileage_zero = Ok [listing_five_km]).
Proof. vm_compute. repeat split; reflexivity. Qed.

(** The search form left empty: both listings come back. *)
Lemma filter_listings_identity_witness :
  filter_listings default_max_str_digits no_repr
    [listing_no_mileage; listing_year_text] criteria_unset
  = Ok [listing_no_mileage; listing_year_text].
Proof.
  apply (filter_listings_identity default_max_str_digits no_repr).
  repeat split; reflexivity.
Defined.

(** C7, as stated, fails: on a record whose price is a mapping with an
    [amount] and whose [properties] is null, neither construction gives a
    price: both raise, on [properties.get]. *)
Lemma extraction_fails_on_null_properties :
  dict_lookup record_price_null_properties (lit "price")
  = Some (VDict [field "amount" "30000"]) /\
  get_vehicle_details_record no_repr record_price_null_properties request_url
  = Raise AttributeError /\
  search_listing no_repr record_price_null_properties = Raise AttributeError.
Proof. repeat split; reflexivity. Qed.

(** The record of the scenario: the amount of the price and the mileage of
    the properties are taken. *)
Lemma extraction_precedence_witness :
  exists details listing,
    get_vehicle_details_record no_repr scenario_record request_url = Ok details /\
    search_listing no_repr scenario_record = Ok listing /\
    dict_lookup details (lit "price") = Some (VStr (lit "30000")) /\
    dict_lookup listing (lit "price") = Some (VStr (lit "30000")) /\
    dict_lookup details (lit "mileage") = Some (VStr (lit "50.000 km")) /\
    dict_lookup listing (lit "mileage") = Some (VStr (lit "50.000 km")).
Proof.
  destruct (extraction_precedence no_repr scenario_record request_url
              [field "milage" "50.000 km"] eq_refl)
    as (details & listing & Hd & Hl & Hprice & _ & Hmileage & _).
  exists details, listing.
  split; [exact Hd|]. split; [exact Hl|].
  destruct (Hprice [field "amount" "30000"] eq_refl) as [Hp1 Hp2].
  destruct (Hmileage (VStr (lit "50.000 km")) eq_refl) as [Hm1 Hm2].
  repeat split; assumption.
Defined.

(** C9, as stated, fails: the empty URL of a saved vehicle is in the table,
    and saving a second vehicle with the empty URL returns [None], not the
    id of the row. *)
Lemma save_empty_url_twice :
  let db := snd (save_vehicle_to_db no_json no_binding
                   (empty_database Sqlite) (vehicle_without_url "A")) in
  map (fun r => (row_id r, row_url r)) (vehicles db) = [(1%Z, Some [])] /\
  dict_get (vehicle_without_url "B") (lit "url") (VStr []) = VStr [] /\
  save_vehicle_to_db no_json no_binding db (vehicle_without_url "B")
  = (None, db).
Proof. vm_compute. repeat split; reflexivity. Qed.

(** Saving a second vehicle with the URL of the first returns the id of the
    first and leaves the table as it is. *)
Lemma save_vehicle_upsert_by_url_witness :
  let db := snd (save_vehicle_to_db no_json no_binding
                   (empty_database Postgres) (vehicle_with_url "A")) in
  save_vehicle_to_db no_json no_binding db (vehicle_with_url "B")
  = (Some 1%Z, db).
Proof.
  intros db.
  assert (Hu : unique_urls db)
    by (vm_compute; constructor; [intros [] | constructor]).
  destruct (save_vehicle_upsert_by_url no_json no_binding db
              (vehicle_with_url "B") Hu) as [H _].
  apply (H (lit "https://www.mobile.de/a/1")
           {| row_id := 1; row_title := Some (lit "A");
              row_url := Some (lit "https://www.mobile.de/a/1");
              row_columns := [None; None; None; None; None; None; None] |}).
  - reflexivity.
  - discriminate.
  - left; reflexivity.
  - reflexivity.
Defined.

(** C10, as stated, fails: a listing whose year reads 0 is excluded, under
    criteria that bound the year, when its price is above the maximal
    price. *)
Lemma year_zero_listing_excluded :
  parse_year default_max_str_digits no_repr listing_year_zero_pricey
  = Ok (Some 0%Z) /\
  bound_set criteria_year_price (lit "modelYear") = true /\
  filter_listings default_max_str_digits no_repr [listing_year_zero_pricey]
    criteria_year_price = Ok [].
Proof. vm_compute. repeat split; reflexivity. Qed.

(** A listing whose year reads 0 is kept under a minimal year of 2000. *)
Lemma year_zero_is_no_year_witness :
  filter_listings default_max_str_digits no_repr [listing_year_zero]
    criteria_year = Ok [listing_year_zero].
Proof.
  destruct (year_zero_is_no_year default_max_str_digits no_repr
              listing_year_zero criteria_year) as (_ & _ & H).
  - vm_compute; reflexivity.
  - apply H; reflexivity.
Defined.

(* ================================================================== *)
(** ** Further properties on the sample records *)
(* ================================================================== *)

Lemma parse_number_reads_formatted_number_witness :
  parse_number default_max_str_digits no_repr
    (VStr (lit "110.000 " ++ lit "km" ++ [])) = Ok (Some 110000%Z).
Proof.
  rewrite (parse_number_reads_formatted_number default_max_str_digits
             no_repr (lit "110.000 ") (lit "km") []).
  - reflexivity.
  - repeat (apply Forall_cons;
            [first [left; reflexivity | right; reflexivity]|]).
    apply Forall_nil.
  - apply Forall_nil.
  - right; left; reflexivity.
  - reflexivity.
Defined.

Lemma parse_number_returns_on_ascii_witness :
  exists r,
    parse_number default_max_str_digits no_repr (VStr (lit "ca. 5 km")) = Ok r.
Proof.
  apply (parse_number_returns_on_ascii default_max_str_digits no_repr
           (lit "ca. 5 km")).
  - repeat (apply Forall_cons; [reflexivity|]). apply Forall_nil.
  - cbn. lia.
Defined.

Lemma parse_year_reads_month_year_witness :
  parse_year default_max_str_digits no_repr listing_pricey
  = Ok (Some 2019%Z).
Proof.
  destruct (parse_year_reads_month_year default_max_str_digits no_repr
              listing_pricey (lit "2019")) as [_ H].
  - discriminate.
  - repeat (apply Forall_cons; [reflexivity|]). apply Forall_nil.
  - reflexivity.
  - exact (H (lit "03") eq_refl).
Defined.

Lemma raising_a_maximum_keeps_more_witness :
  exists out out',
    filter_listings default_max_str_digits no_repr
      [listing_five_km; listing_no_price]
      (dict_set [] (lit "mileage") (VInt 10000)) = Ok out /\
    filter_listings default_max_str_digits no_repr
      [listing_five_km; listing_no_price]
      (dict_set [] (lit "mileage") (VInt 60000)) = Ok out' /\
    subseq out out'.
Proof.
  apply (raising_a_maximum_keeps_more default_max_str_digits no_repr
           (lit "mileage") [listing_five_km; listing_no_price] []
           10000%Z 60000%Z).
  - left; reflexivity.
  - discriminate.
  - vm_compute; discriminate.
Defined.

Lemma lowering_the_minimum_year_keeps_more_witness :
  exists out out',
    filter_listings default_max_str_digits no_repr
      [listing_five_km; listing_pricey]
      (dict_set [] (lit "modelYear") (VInt 2020)) = Ok out /\
    filter_listings default_max_str_digits no_repr
      [listing_five_km; listing_pricey]
      (dict_set [] (lit "modelYear") (VInt 2015)) = Ok out' /\
    subseq out out'.
Proof.
  apply (lowering_the_minimum_year_keeps_more default_max_str_digits no_repr
           [listing_five_km; listing_pricey] [] 2020%Z 2015%Z).
  - discriminate.
  - vm_compute; discriminate.
Defined.

Lemma search_stops_at_malformed_item_witness :
  search_results default_max_str_digits no_repr
    ([VDict scenario_record] ++ VNone :: [VDict scenario_record])
    scenario_criteria_60000
  = search_results default_max_str_digits no_repr
      [VDict scenario_record] scenario_criteria_60000.
Proof.
  apply (search_stops_at_malformed_item default_max_str_digits no_repr
           [VDict scenario_record] VNone [VDict scenario_record]
           scenario_criteria_60000).
  exact I.
Defined.

Lemma search_results_are_listings_of_items_witness :
  exists ls out,
    Forall2 (fun item l => search_item no_repr item = Ok l)
            [VDict scenario_record; VDict listing_pricey] ls /\
    search_results default_max_str_digits no_repr
      [VDict scenario_record; VDict listing_pricey] scenario_criteria_60000
    = Ok out /\
    subseq out ls.
Proof.
  apply (search_results_are_listings_of_items default_max_str_digits no_repr
           [VDict scenario_record; VDict listing_pricey]
           scenario_criteria_60000).
  repeat (apply Forall_cons; [intros H; vm_compute in H; discriminate H|]).
  apply Forall_nil.
Defined.

Lemma validate_email_one_at_witness :
  count_occ N.eq_dec (lit "anna@example.com") 64 = 1%nat.
Proof.
  apply (validate_email_one_at (lit "anna@example.com")).
  vm_compute; reflexivity.
Defined.

Lemma saving_again_returns_the_same_vehicle_witness :
  let db' := snd (save_vehicle_to_db no_json no_binding
                    (empty_database Sqlite) (vehicle_with_url "A")) in
  save_vehicle_to_db no_json no_binding db' (vehicle_with_url "B")
  = (Some 1%Z, db').
Proof.
  intros db'.
  apply (saving_again_returns_the_same_vehicle no_json no_binding
           (empty_database Sqlite) db' (vehicle_with_url "A")
           (vehicle_with_url "B") 1 (lit "https://www.mobile.de/a/1")).
  - reflexivity.
  - reflexivity.
  - discriminate.
  - reflexivity.
Defined.

Lemma offer_on_stored_vehicle_witness :
  let db := {| vehicle_table :=
                 snd (save_vehicle_to_db no_json no_binding
                        (empty_database Sqlite) (vehicle_with_url "A"));
               offers := []; next_offer_id := 1 |} in
  vehicle_table
    (snd (create_offer no_json no_binding no_integer_binding db
            (VDict offer_request)))
  = vehicle_table db /\
  forall offer vehicle,
    fst (create_offer no_json no_binding no_integer_binding db
           (VDict offer_request)) = Created offer vehicle ->
    vehicle = 1%Z.
Proof.
  intros db.
  apply (offer_on_stored_vehicle no_json no_binding no_integer_binding db
           offer_request (vehicle_with_url "A")
           (lit "https://www.mobile.de/a/1")
           {| row_id := 1; row_title := Some (lit "A");
              row_url := Some (lit "https://www.mobile.de/a/1");
              row_columns := [None; None; None; None; None; None; None] |}).
  - vm_compute; constructor; [intros [] | constructor].
  - left; reflexivity.
  - reflexivity.
  - discriminate.
  - reflexivity.
  - reflexivity.
Defined.

Lemma created_offer_is_stored_witness :
  let db' := snd (create_offer no_json no_binding no_integer_binding
                    (empty_crm Sqlite) (VDict offer_request)) in
  exists d row,
    VDict offer_request = VDict d /\
    offers db' = offers (empty_crm Sqlite) ++ [row] /\
    offer_id row = 1%Z /\ 1%Z = next_offer_id (empty_crm Sqlite) /\
    offer_vehicle row = IInt 1 /\
    existsb (has_id 1) (vehicles (vehicle_table db')) = true /\
    dict_get d (lit "client_email") VNone = VStr (offer_email row) /\
    validate_email (VStr (offer_email row)) = Ok true.
Proof.
  intros db'.
  apply (created_offer_is_stored no_json no_binding no_integer_binding
           (empty_crm Sqlite) db' (VDict offer_request) 1 1).
  vm_compute; reflexivity.
Defined.


Lemma saved_vehicle_is_read_back_witness :
  let db' := snd (save_vehicle_to_db no_json no_binding
                    (empty_database Sqlite) (vehicle_with_url "A")) in
  exists record,
    get_vehicle_by_id no_json_loads db' 1 = Some record /\
    dict_lookup record (lit "title") = Some (VStr (lit "A")) /\
    dict_lookup record (lit "url")
    = Some (VStr (lit "https://www.mobile.de/a/1")) /\
    dict_lookup record (lit "properties") = Some (VDict []).
Proof.
  intros db'.
  destruct (saved_vehicle_is_read_back no_json no_binding no_json_loads
              (empty_database Sqlite) db' (vehicle_with_url "A") 1
              (lit "https://www.mobile.de/a/1"))
    as (record & Hget & _ & Hurl & Hk & Hp).
  - split; constructor.
  - reflexivity.
  - intros H. exact H.
  - intros H. vm_compute in H. discriminate H.
  - reflexivity.
  - reflexivity.
  - exists record. split; [exact Hget|]. split; [|split].
    + rewrite (Hk (lit "title")); [reflexivity | left; reflexivity].
    + exact Hurl.
    + exact Hp.
Defined.

Lemma updated_vehicle_is_read_back_witness :
  let db := snd (save_vehicle_to_db no_json no_binding
                   (empty_database Sqlite) (vehicle_with_url "A")) in
  let db' := snd (update_vehicle no_binding db 1 (vehicle_with_url "B")) in
  exists record,
    get_vehicle_by_id no_json_loads db' 1 = Some record /\
    dict_lookup record (lit "title") = Some (VStr (lit "B")) /\
    dict_lookup record (lit "price") = Some VNone.
Proof.
  intros db db'.
  destruct (updated_vehicle_is_read_back no_binding no_json_loads db db' 1
              (vehicle_with_url "B")
              [ (lit "id", VInt 1); (lit "title", VStr (lit "A"));
                (lit "price", VNone); (lit "mileage", VNone);
                (lit "year", VNone); (lit "fuel", VNone);
                (lit "transmission", VNone); (lit "power", VNone);
                (lit "url", VStr (lit "https://www.mobile.de/a/1"));
                (lit "properties", VDict []) ])
    as (record & Hget & _ & Hk & _).
  - reflexivity.
  - reflexivity.
  - exists record. split; [exact Hget|]. split.
    + rewrite (Hk (lit "title")); [reflexivity | right; left; reflexivity].
    + rewrite (Hk (lit "price"));
        [reflexivity | right; right; left; reflexivity].
Defined.

Lemma deleted_vehicle_is_gone_witness :
  let db := snd (create_offer no_json no_binding no_integer_binding
                   (empty_crm Sqlite) (VDict offer_request)) in
  get_vehicle_by_id no_json_loads (vehicle_table (snd (delete_vehicle db 1))) 1
  = None /\
  existsb (vehicle_is 1) (offers (snd (delete_vehicle db 1))) = false.
Proof.
  intros db.
  destruct (deleted_vehicle_is_gone no_json_loads db 1)
    as (_ & H1 & H2 & _).
  - reflexivity.
  - split; assumption.
Defined.

Lemma offer_saves_the_details_record_witness :
  exists details,
    get_vehicle_details_record no_repr scenario_record request_url
    = Ok details /\
    save_vehicle_to_db no_json no_binding (empty_database Sqlite)
      (vehicle_dict details)
    = save_vehicle_to_db no_json no_binding (empty_database Sqlite) details.
Proof.
  eexists. split; [reflexivity|].
  apply (offer_saves_the_details_record no_repr no_json no_binding
           (empty_database Sqlite) scenario_record request_url).
  reflexivity.
Defined.


Lemma parse_number_reads_back_an_integer_witness :
  parse_number default_max_str_digits no_repr
    (str_or_na no_repr (VInt 30000)) = Ok (Some 30000%Z).
Proof.
  apply (parse_number_reads_back_an_integer default_max_str_digits no_repr
           30000%Z).
  - vm_compute; discriminate.
  - reflexivity.
Defined.


Lemma create_offer_checks_before_writing_witness :
  create_offer no_json no_binding no_integer_binding (empty_crm Sqlite)
    (VDict [(lit "vehicle_data", VDict (vehicle_with_url "A"))])
  = (Failed TypeError, empty_crm Sqlite).
Proof.
  destruct (create_offer_checks_before_writing no_json no_binding
              no_integer_binding (empty_crm Sqlite)
              (VDict [(lit "vehicle_data", VDict (vehicle_with_url "A"))]))
    as (_ & _ & H).
  apply (H [(lit "vehicle_data", VDict (vehicle_with_url "A"))]
           (vehicle_with_url "A")).
  - reflexivity.
  - reflexivity.
  - discriminate.
  - intros s. discriminate.
Defined.

Lemma updates_need_the_required_fields_witness :
  let db := snd (create_offer no_json no_binding no_integer_binding
                   (empty_crm Sqlite) (VDict offer_request)) in
  update_vehicle no_binding (vehicle_table db) 1 [field "price" "18.500"]
  = (false, vehicle_table db) /\
  update_offer no_binding db 1 [field "client_email" "anna@example.org"]
  = (false, db).
Proof.
  intros db.
  destruct (updates_need_the_required_fields no_binding db 1
              [field "price" "18.500"]) as [Hv _].
  destruct (updates_need_the_required_fields no_binding db 1
              [field "client_email" "anna@example.org"]) as [_ Ho].
  split.
  - apply Hv. reflexivity.
  - apply Ho. right. reflexivity.
Defined.


Lemma text_bound_filters_as_its_integer_witness :
  filter_listings default_max_str_digits no_repr
    [listing_five_km; listing_no_price]
    (dict_set [] (lit "mileage") (VStr (lit "40000")))
  = filter_listings default_max_str_digits no_repr
      [listing_five_km; listing_no_price]
      (dict_set [] (lit "mileage") (VInt 40000)).
Proof.
  apply (text_bound_filters_as_its_integer default_max_str_digits no_repr
           [listing_five_km; listing_no_price] [] (lit "mileage")
           (lit "40000")).
  - discriminate.
  - repeat (apply Forall_cons; [reflexivity|]). apply Forall_nil.
  - reflexivity.
  - vm_compute; discriminate.
Defined.

Lemma malformed_year_bound_disables_filter_witness :
  filter_listings default_max_str_digits no_repr
    [listing_pricey; listing_five_km] criteria_year_malformed
  = Ok [listing_pricey; listing_five_km].
Proof.
  apply (malformed_year_bound_disables_filter default_max_str_digits no_repr
           [listing_pricey; listing_five_km] criteria_year_malformed
           ValueError).
  vm_compute; reflexivity.
Defined.
